(** * Posting engine of the accounting API

    A shallow embedding of the two controllers that move documents from
    DRAFT to POSTED ([journalEntriesController.ts] and
    [customerInvoicesController.ts]) together with the part of the
    relational schema they read and write, followed by the properties of
    the posting engine that were checked against it. *)

From Stdlib Require Import ZArith QArith Qcanon String Ascii List DecimalString.
From Stdlib Require DecimalPos DecimalZ.
From stdpp Require Import gmap strings list fin_maps.

Open Scope string_scope.
Open Scope Z_scope.

Set Warnings "-register-all,-abstract-large-number".

(** ** JavaScript values and the few runtime operations the controllers use *)

Module Js.

(** A request body after [express.json()]: numbers are modelled by the
    rational they denote. *)
Inductive JsValue :=
  | JsUndefined
  | JsNull
  | JsBool (b : bool)
  | JsNumber (q : Qc)
  | JsString (s : string)
  | JsArray (items : list JsValue)
  | JsObject (props : list (string * JsValue)).

(** [new Date(...)] values: the epoch time and the calendar year that
    [getFullYear()] reports for it in the server's time zone. *)
Record JsDate := mkJsDate { getTime : Z; getFullYear : Z }.

Fixpoint assoc (k : string) (props : list (string * JsValue)) : option JsValue :=
  match props with
  | [] => None
  | (k', v) :: rest => if String.eqb k k' then Some v else assoc k rest
  end.

(** [v.k] for the property names the controllers read (none of them is
    defined on a primitive or on [Array.prototype]).  [None] is the
    [TypeError] of reading a property of [undefined] or [null]. *)
Definition getProp (v : JsValue) (k : string) : option JsValue :=
  match v with
  | JsUndefined | JsNull => None
  | JsObject props => Some (default JsUndefined (assoc k props))
  | _ => Some JsUndefined
  end.

(** [!!v] *)
Definition truthy (v : JsValue) : bool :=
  match v with
  | JsUndefined | JsNull => false
  | JsBool b => b
  | JsNumber q => negb (bool_decide (q = 0%Qc))
  | JsString s => negb (String.eqb s EmptyString)
  | JsArray _ | JsObject _ => true
  end.

(** [typeof v === 'string'] and [typeof v === 'number'] *)
Definition isString (v : JsValue) : bool :=
  match v with JsString _ => true | _ => false end.

Definition isNumber (v : JsValue) : bool :=
  match v with JsNumber _ => true | _ => false end.

(** [String(n)] and [n.toString()] for an integral number *)
Definition numberToString (n : Z) : string :=
  NilZero.string_of_int (Z.to_int n).

Fixpoint repeatChar (n : nat) (c : ascii) : string :=
  match n with
  | O => EmptyString
  | S n' => String c (repeatChar n' c)
  end.

(** [s.padStart(targetLength, c)] for a one-character filler *)
Definition padStart (targetLength : nat) (c : ascii) (s : string) : string :=
  repeatChar (targetLength - String.length s) c ++ s.

Definition isDigit (c : ascii) : bool :=
  let n := nat_of_ascii c in (48 <=? n)%nat && (n <=? 57)%nat.

(** [/^\d{4}-\d{2}-\d{2}$/.test(s)] *)
Definition dateRegexTest (s : string) : bool :=
  match list_ascii_of_string s with
  | [y1; y2; y3; y4; d1; m1; m2; d2; a1; a2] =>
      isDigit y1 && isDigit y2 && isDigit y3 && isDigit y4
      && Ascii.eqb d1 "-" && isDigit m1 && isDigit m2
      && Ascii.eqb d2 "-" && isDigit a1 && isDigit a2
  | _ => false
  end.

Definition toLowerAscii (c : ascii) : ascii :=
  let n := nat_of_ascii c in
  if (65 <=? n)%nat && (n <=? 90)%nat then ascii_of_nat (n + 32) else c.

Fixpoint toLowerCase (s : string) : string :=
  match s with
  | EmptyString => EmptyString
  | String c rest => String (toLowerAscii c) (toLowerCase rest)
  end.

(** [s.includes(needle)] *)
Fixpoint includes (needle s : string) : bool :=
  String.prefix needle s
  || match s with
     | EmptyString => false
     | String _ rest => includes needle rest
     end.

(** [arr.join(sep)] *)
Fixpoint join (sep : string) (l : list string) : string :=
  match l with
  | [] => EmptyString
  | [x] => x
  | x :: rest => x ++ sep ++ join sep rest
  end.

End Js.
Import Js.

(** ** Ledger data model (the Prisma schema, as the migrations create it)

    Every table is a finite map from the primary key [id] to its row.
    Amounts are the [DECIMAL(18,2)] columns, held as an integral number
    of hundredths; [Prisma.Decimal] sums and comparisons of them are
    exact (the working precision of the decimal library, 20 significant
    digits, is not reached by totals below 10^18).  Lines are kept with
    their parent row, in the order the relation returns them; the line's
    own [id] and [createdAt] are never read by the posting code and are
    left out.  Unique indexes and the range of the counter columns are
    checked by the writes below; foreign keys are kept by the database
    and are not checked again. *)

Inductive AccountType := ASSET | LIABILITY | EQUITY | INCOME | EXPENSE.
Inductive JournalType := GENERAL | SALES | PURCHASE | BANK | CASH.
Inductive EntryStatus := DRAFT | POSTED.

Module InvoiceStatus.
Inductive t := DRAFT | POSTED | PAID | CANCELLED.
End InvoiceStatus.

Definition Decimal := Z.

Record Company := mkCompany {
  company_name : string;
  company_baseCurrency : string;
  company_createdAt : Z;
  invoiceNextNumber : Z
}.

Record Account := mkAccount {
  account_companyId : string;
  account_code : string;
  account_name : string;
  account_type : AccountType;
  account_isActive : bool
}.

Record Journal := mkJournal {
  journal_companyId : string;
  journal_code : string;
  journal_name : string;
  journal_type : JournalType;
  nextNumber : Z
}.

Record JournalLine := mkJournalLine {
  line_accountId : string;
  line_partnerId : option string;
  line_label : option string;
  debit : Decimal;
  credit : Decimal
}.

Record JournalEntry := mkJournalEntry {
  entry_companyId : string;
  entry_journalId : string;
  entry_date : JsDate;
  entry_number : option string;
  entry_status : EntryStatus;
  entry_memo : option string;
  entry_postedAt : option JsDate;
  journalLines : list JournalLine
}.

Record InvoiceLine := mkInvoiceLine {
  description : string;
  quantity : Decimal;
  unitPrice : Decimal;
  lineTotal : Decimal;
  incomeAccountId : string
}.

Record CustomerInvoice := mkCustomerInvoice {
  invoice_companyId : string;
  invoice_partnerId : string;
  invoiceDate : JsDate;
  dueDate : option JsDate;
  invoice_number : option string;
  invoice_status : InvoiceStatus.t;
  invoice_memo : option string;
  invoice_currency : string;
  totalAmount : Decimal;
  journalEntryId : option string;
  invoice_postedAt : option JsDate;
  invoice_lines : list InvoiceLine
}.

Record Store := mkStore {
  companies : gmap string Company;
  accounts : gmap string Account;
  journals : gmap string Journal;
  journalEntries : gmap string JournalEntry;
  customerInvoices : gmap string CustomerInvoice
}.

Definition AccountType_eqb (a b : AccountType) : bool :=
  match a, b with
  | ASSET, ASSET | LIABILITY, LIABILITY | EQUITY, EQUITY
  | INCOME, INCOME | EXPENSE, EXPENSE => true
  | _, _ => false
  end.

Definition EntryStatus_toString (s : EntryStatus) : string :=
  match s with DRAFT => "DRAFT" | POSTED => "POSTED" end.

Definition InvoiceStatus_toString (s : InvoiceStatus.t) : string :=
  match s with
  | InvoiceStatus.DRAFT => "DRAFT"
  | InvoiceStatus.POSTED => "POSTED"
  | InvoiceStatus.PAID => "PAID"
  | InvoiceStatus.CANCELLED => "CANCELLED"
  end.

Definition optString_eqb (a b : option string) : bool :=
  match a, b with
  | Some x, Some y => String.eqb x y
  | None, None => true
  | _, _ => false
  end.

(** [d.toString()] of a [Prisma.Decimal] with two decimals: plain
    notation (used below 10^21), trailing zeros of the fraction dropped. *)
Definition Decimal_toString (d : Decimal) : string :=
  let a := Z.abs d in
  let fp := a mod 100 in
  (if d <? 0 then "-" else EmptyString)
  ++ numberToString (a / 100)
  ++ (if fp =? 0 then EmptyString
      else if fp mod 10 =? 0 then "." ++ numberToString (fp / 10)
      else "." ++ padStart 2 "0" (numberToString fp)).

(** ** The Prisma client: queries, writes, exceptions, transactions *)

Module Prisma.

Inductive KnownError :=
  | P2002 (target : list string)   (* unique constraint failed *)
  | P2025                           (* required record not found *)
  | ValueOutOfRange.                (* the column type cannot hold the value *)

Inductive Exception :=
  | KnownRequestError (e : KnownError)
  | ValidationError                 (* an argument of the wrong type *)
  | TypeError                       (* property read on undefined / null *)
  | Error (message : string).       (* [throw new Error(message)] *)

(** A computation against the store that may throw. *)
Definition Tx (A : Type) : Type := Store -> Exception + (A * Store).

Definition ret {A} (a : A) : Tx A := fun st => inr (a, st).
Definition throw {A} (e : Exception) : Tx A := fun _ => inl e.
Definition bind {A B} (m : Tx A) (k : A -> Tx B) : Tx B :=
  fun st => match m st with
            | inl e => inl e
            | inr (a, st') => k a st'
            end.

(** [prisma.$transaction(body)]: the writes of [body] are kept when it
    returns and discarded when it throws. *)
Definition transaction {A} (body : Tx A) (st : Store) : (Exception + A) * Store :=
  match body st with
  | inl e => (inl e, st)
  | inr (a, st') => (inr a, st')
  end.

(** First row, in the table's scan order, that satisfies [p]. *)
Definition findFirst {A} (p : A -> bool) (table : gmap string A)
  : option (string * A) :=
  List.find (fun kv => p kv.2) (map_to_list table).

Definition findMany {A} (p : A -> bool) (table : gmap string A)
  : list (string * A) :=
  List.filter (fun kv => p kv.2) (map_to_list table).

(** [findFirst({ orderBy: { createdAt: 'asc' } })] on companies *)
Definition company_findFirst_byCreatedAt (st : Store) : option (string * Company) :=
  fold_right
    (fun kc acc =>
       match acc with
       | None => Some kc
       | Some kc' =>
           if company_createdAt kc.2 <=? company_createdAt kc'.2
           then Some kc else Some kc'
       end)
    None (map_to_list (companies st)).

(** [findUnique({ where: { companyId_code } })] *)
Definition journal_findUnique_companyId_code (companyId code : string) (st : Store)
  : option (string * Journal) :=
  findFirst (fun j => String.eqb (journal_companyId j) companyId
                      && String.eqb (journal_code j) code) (journals st).

Definition account_findUnique_companyId_code (companyId code : string) (st : Store)
  : option (string * Account) :=
  findFirst (fun a => String.eqb (account_companyId a) companyId
                      && String.eqb (account_code a) code) (accounts st).

Definition company_findUniqueOrThrow (id : string) : Tx Company :=
  fun st => match companies st !! id with
            | Some c => inr (c, st)
            | None => inl (KnownRequestError P2025)
            end.

Definition journal_findUniqueOrThrow (id : string) : Tx Journal :=
  fun st => match journals st !! id with
            | Some j => inr (j, st)
            | None => inl (KnownRequestError P2025)
            end.

(** Unique index [journal_entries_companyId_number_key]: a non-null
    number may be held by one row of a company only. *)
Definition entryNumberTaken (self companyId num : string) (st : Store) : bool :=
  existsb (fun kv => negb (String.eqb kv.1 self)
                     && String.eqb (entry_companyId kv.2) companyId
                     && optString_eqb (entry_number kv.2) (Some num))
          (map_to_list (journalEntries st)).

(** Unique indexes [customer_invoices_companyId_number_key] and
    [customer_invoices_journalEntryId_key]. *)
Definition invoiceNumberTaken (self companyId num : string) (st : Store) : bool :=
  existsb (fun kv => negb (String.eqb kv.1 self)
                     && String.eqb (invoice_companyId kv.2) companyId
                     && optString_eqb (invoice_number kv.2) (Some num))
          (map_to_list (customerInvoices st)).

Definition invoiceEntryLinked (self entryId : string) (st : Store) : bool :=
  existsb (fun kv => negb (String.eqb kv.1 self)
                     && optString_eqb (journalEntryId kv.2) (Some entryId))
          (map_to_list (customerInvoices st)).

Definition INT_MAX : Z := 2147483647.

Definition setJournalEntries (es : gmap string JournalEntry) (st : Store) : Store :=
  mkStore (companies st) (accounts st) (journals st) es (customerInvoices st).

Definition setJournals (js : gmap string Journal) (st : Store) : Store :=
  mkStore (companies st) (accounts st) js (journalEntries st) (customerInvoices st).

Definition setCompanies (cs : gmap string Company) (st : Store) : Store :=
  mkStore cs (accounts st) (journals st) (journalEntries st) (customerInvoices st).

Definition setCustomerInvoices (invs : gmap string CustomerInvoice) (st : Store) : Store :=
  mkStore (companies st) (accounts st) (journals st) (journalEntries st) invs.

(** [journalEntry.create({ data })] with nested [journalLines.create];
    [id] is the key the client generated for the new row. *)
Definition journalEntry_create (id : string) (e : JournalEntry) : Tx JournalEntry :=
  fun st =>
    match journalEntries st !! id with
    | Some _ => inl (KnownRequestError (P2002 ["id"]))
    | None =>
        match entry_number e with
        | Some num =>
            if entryNumberTaken id (entry_companyId e) num st
            then inl (KnownRequestError (P2002 ["companyId"; "number"]))
            else inr (e, setJournalEntries (<[id := e]> (journalEntries st)) st)
        | None => inr (e, setJournalEntries (<[id := e]> (journalEntries st)) st)
        end
    end.

(** [journalEntry.update({ where: { id }, data: { number, status, postedAt } })] *)
Definition journalEntry_update_posted (id num : string) (status : EntryStatus)
    (postedAt : JsDate) : Tx JournalEntry :=
  fun st =>
    match journalEntries st !! id with
    | None => inl (KnownRequestError P2025)
    | Some e =>
        if entryNumberTaken id (entry_companyId e) num st
        then inl (KnownRequestError (P2002 ["companyId"; "number"]))
        else
          let e' := mkJournalEntry (entry_companyId e) (entry_journalId e)
                      (entry_date e) (Some num) status (entry_memo e)
                      (Some postedAt) (journalLines e) in
          inr (e', setJournalEntries (<[id := e']> (journalEntries st)) st)
    end.

(** [journal.update({ where: { id }, data: { nextNumber: { increment: 1 } } })];
    the column is a 32-bit [INTEGER]. *)
Definition journal_update_increment (id : string) : Tx Journal :=
  fun st =>
    match journals st !! id with
    | None => inl (KnownRequestError P2025)
    | Some j =>
        if INT_MAX <? nextNumber j + 1
        then inl (KnownRequestError ValueOutOfRange)
        else
          let j' := mkJournal (journal_companyId j) (journal_code j)
                      (journal_name j) (journal_type j) (nextNumber j + 1) in
          inr (j', setJournals (<[id := j']> (journals st)) st)
    end.

(** [company.update({ where: { id }, data: { invoiceNextNumber: { increment: 1 } } })] *)
Definition company_update_increment (id : string) : Tx Company :=
  fun st =>
    match companies st !! id with
    | None => inl (KnownRequestError P2025)
    | Some c =>
        if INT_MAX <? invoiceNextNumber c + 1
        then inl (KnownRequestError ValueOutOfRange)
        else
          let c' := mkCompany (company_name c) (company_baseCurrency c)
                      (company_createdAt c) (invoiceNextNumber c + 1) in
          inr (c', setCompanies (<[id := c']> (companies st)) st)
    end.

(** [customerInvoice.update({ where: { id },
      data: { status, number, postedAt, journalEntryId } })] *)
Definition customerInvoice_update_posted (id : string) (status : InvoiceStatus.t)
    (num : string) (postedAt : JsDate) (entryId : string) : Tx CustomerInvoice :=
  fun st =>
    match customerInvoices st !! id with
    | None => inl (KnownRequestError P2025)
    | Some i =>
        if invoiceNumberTaken id (invoice_companyId i) num st
        then inl (KnownRequestError (P2002 ["companyId"; "number"]))
        else if invoiceEntryLinked id entryId st
        then inl (KnownRequestError (P2002 ["journalEntryId"]))
        else
          let i' := mkCustomerInvoice (invoice_companyId i) (invoice_partnerId i)
                      (invoiceDate i) (dueDate i) (Some num) status
                      (invoice_memo i) (invoice_currency i) (totalAmount i)
                      (Some entryId) (Some postedAt) (invoice_lines i) in
          inr (i', setCustomerInvoices (<[id := i']> (customerInvoices st)) st)
    end.

End Prisma.
Import Prisma.

Declare Scope tx_scope.
Delimit Scope tx_scope with tx.
Notation "'let*' x ':=' m 'in' k" := (bind m (fun x => k))
  (at level 10, x name, m at level 100, k at level 200) : tx_scope.
Notation "'do' m 'in' k" := (bind m (fun _ => k))
  (at level 10, m at level 100, k at level 200) : tx_scope.

(** ** HTTP responses *)

Inductive Json :=
  | ErrorJson (error : string)
  | EntryJson (id : string) (data : JournalEntry)
  | InvoiceJson (id : string) (data : CustomerInvoice)
      (journalEntry_id : string) (journalEntry_number : option string).

Record Response := mkResponse { status : Z; json : Json }.

Definition dquote : string := String (ascii_of_nat 34) EmptyString.

(** [error.message.includes(needle)]; the messages of the client's own
    exceptions name the failed constraint or call and never contain the
    needles searched for here. *)
Definition messageIncludes (needle : string) (e : Exception) : bool :=
  match e with
  | Error message => includes needle message
  | _ => false
  end.

(** ** customerInvoicesController.ts *)

(** [formatInvoiceNumber(year, sequence)]: INV/YYYY/NNNN *)
Definition formatInvoiceNumber (year sequence : Z) : string :=
  "INV/" ++ numberToString year ++ "/" ++ padStart 4 "0" (numberToString sequence).

Definition commonCodes : list string := ["1200"; "110000"; "12000"; "1100"].

(** The [for (const code of commonCodes)] loop of
    [findAccountsReceivableAccount]. *)
Fixpoint tryCommonCodes (codes : list string) (companyId : string) (st : Store)
  : option (string * Account) :=
  match codes with
  | [] => None
  | code :: rest =>
      match account_findUnique_companyId_code companyId code st with
      | Some (id, account) =>
          if AccountType_eqb (account_type account) ASSET
          then Some (id, account)
          else tryCommonCodes rest companyId st
      | None => tryCommonCodes rest companyId st
      end
  end.

(** The fallback query: [type: 'ASSET'] and
    [name: { contains: 'Receivable', mode: 'insensitive' }]. *)
Definition receivableByName (companyId : string) (account : Account) : bool :=
  String.eqb (account_companyId account) companyId
  && AccountType_eqb (account_type account) ASSET
  && includes (toLowerCase "Receivable") (toLowerCase (account_name account)).

Definition findAccountsReceivableAccount (companyId : string) (st : Store)
  : option (string * Account) :=
  match tryCommonCodes commonCodes companyId st with
  | Some account => Some account
  | None => findFirst (receivableByName companyId) (accounts st)
  end.

(** [invoice.lines.reduce((sum, line) => sum.add(line.lineTotal), 0)] *)
Definition sumLineTotals (lines : list InvoiceLine) : Decimal :=
  fold_left (fun sum line => sum + lineTotal line) lines 0.

(** [a || b] on a nullable string *)
Definition orElse (a : option string) (b : string) : string :=
  match a with
  | Some s => if String.eqb s EmptyString then b else s
  | None => b
  end.

(** The lines of the entry an invoice produces: DR receivable for the
    total, CR each revenue line. *)
Definition invoiceJournalLines (arAccountId : string) (invoice : CustomerInvoice)
    (invoiceNumber : string) : list JournalLine :=
  mkJournalLine arAccountId (Some (invoice_partnerId invoice))
    (Some ("Invoice " ++ invoiceNumber)) (totalAmount invoice) 0
  :: List.map (fun line =>
       mkJournalLine (incomeAccountId line) (Some (invoice_partnerId invoice))
         (Some (description line)) 0 (lineTotal line))
       (invoice_lines invoice).

(** The callback given to [prisma.$transaction] in [postCustomerInvoice]. *)
Definition postCustomerInvoice_tx (id : string) (invoice : CustomerInvoice)
    (salesJournalId arAccountId newEntryId : string) (now1 now2 : JsDate)
  : Tx (CustomerInvoice * (string * option string)) :=
  (let* company := company_findUniqueOrThrow (invoice_companyId invoice) in
   let year := getFullYear (invoiceDate invoice) in
   let invoiceNumber := formatInvoiceNumber year (invoiceNextNumber company) in
   let totalDebit := totalAmount invoice in
   let totalCredit := sumLineTotals (invoice_lines invoice) in
   if negb (totalDebit =? totalCredit)
   then throw (Error ("Journal entry is unbalanced. Debit: "
                      ++ Decimal_toString totalDebit ++ ", Credit: "
                      ++ Decimal_toString totalCredit))
   else
     let* journalEntry :=
       journalEntry_create newEntryId
         (mkJournalEntry (invoice_companyId invoice) salesJournalId
            (invoiceDate invoice)
            None
            POSTED
            (Some (orElse (invoice_memo invoice) ("Invoice " ++ invoiceNumber)))
            (Some now1)
            (invoiceJournalLines arAccountId invoice invoiceNumber)) in
     let* updatedInvoice :=
       customerInvoice_update_posted id InvoiceStatus.POSTED invoiceNumber
         now2 newEntryId in
     do company_update_increment (invoice_companyId invoice) in
     ret (updatedInvoice, (newEntryId, entry_number journalEntry)))%tx.

(** [postCustomerInvoice]: [id] is the route parameter, [newEntryId] the
    key generated for the journal entry, [now1] and [now2] the two
    readings of the clock. *)
Definition postCustomerInvoice (id newEntryId : string) (now1 now2 : JsDate)
    (st : Store) : Response * Store :=
  match customerInvoices st !! id with
  | None =>
      (mkResponse 404 (ErrorJson ("Customer invoice with id " ++ id ++ " not found")), st)
  | Some invoice =>
      match invoice_status invoice with
      | InvoiceStatus.DRAFT =>
          if (length (invoice_lines invoice) =? 0)%nat then
            (mkResponse 400
               (ErrorJson "Invoice must have at least one line item to be posted"), st)
          else if totalAmount invoice <=? 0 then
            (mkResponse 400
               (ErrorJson "Invoice total amount must be greater than 0"), st)
          else
            match journal_findUnique_companyId_code (invoice_companyId invoice) "SAL" st with
            | None =>
                (mkResponse 404
                   (ErrorJson "Sales Journal (code: SAL) not found. Please ensure the Sales Journal is set up for this company."), st)
            | Some (salesJournalId, _) =>
                match findAccountsReceivableAccount (invoice_companyId invoice) st with
                | None =>
                    (mkResponse 404
                       (ErrorJson "Accounts Receivable account not found. Please ensure an Accounts Receivable (ASSET) account is set up for this company."), st)
                | Some (arAccountId, _) =>
                    match transaction
                            (postCustomerInvoice_tx id invoice salesJournalId
                               arAccountId newEntryId now1 now2) st with
                    | (inr (updatedInvoice, (jeId, jeNumber)), st') =>
                        (mkResponse 200 (InvoiceJson id updatedInvoice jeId jeNumber), st')
                    | (inl error, st') =>
                        if messageIncludes "unbalanced" error then
                          match error with
                          | Error message => (mkResponse 400 (ErrorJson message), st')
                          | _ => (mkResponse 500 (ErrorJson "Failed to post customer invoice"), st')
                          end
                        else
                          (mkResponse 500 (ErrorJson "Failed to post customer invoice"), st')
                    end
                end
            end
      | other =>
          (mkResponse 400
             (ErrorJson ("Invoice cannot be posted. Current status: "
                         ++ InvoiceStatus_toString other
                         ++ ". Only DRAFT invoices can be posted.")), st)
      end
  end.

(** ** journalEntriesController.ts *)

(** [formatJournalEntryNumber(journalCode, year, sequence)]:
    <JOURNAL_CODE>/<YEAR>/<0001> *)
Definition formatJournalEntryNumber (journalCode : string) (year sequence : Z) : string :=
  let paddedSequence := padStart 4 "0" (numberToString sequence) in
  journalCode ++ "/" ++ numberToString year ++ "/" ++ paddedSequence.

(** The [for (const line of entry.journalLines)] loop of [postJournalEntry]. *)
Definition totalsOf (lines : list JournalLine) : Decimal * Decimal :=
  fold_left (fun totals line => (totals.1 + debit line, totals.2 + credit line))
            lines (0, 0).

(** The callback given to [prisma.$transaction] in [postJournalEntry]. *)
Definition postJournalEntry_tx (id : string) (entry : JournalEntry) (year : Z)
    (now : JsDate) : Tx JournalEntry :=
  (let* journal := journal_findUniqueOrThrow (entry_journalId entry) in
   let entryNumber :=
     formatJournalEntryNumber (journal_code journal) year (nextNumber journal) in
   let* postedEntry := journalEntry_update_posted id entryNumber POSTED now in
   do journal_update_increment (entry_journalId entry) in
   ret postedEntry)%tx.

(** The [catch] block of [postJournalEntry]. *)
Definition postJournalEntry_catch (error : Exception) : Response :=
  match error with
  | KnownRequestError (P2002 target) =>
      if existsb (String.eqb "companyId_number") target
      then mkResponse 500
             (ErrorJson "Failed to post journal entry: duplicate entry number detected")
      else mkResponse 500 (ErrorJson "Failed to post journal entry")
  | _ => mkResponse 500 (ErrorJson "Failed to post journal entry")
  end.

Definition postJournalEntry (id : string) (now : JsDate) (st : Store)
  : Response * Store :=
  if String.eqb id EmptyString then
    (mkResponse 400 (ErrorJson "id parameter is required"), st)
  else
    match journalEntries st !! id with
    | None =>
        (mkResponse 404 (ErrorJson ("Journal entry with id " ++ id ++ " not found")), st)
    | Some entry =>
        match entry_status entry with
        | DRAFT =>
            if (length (journalLines entry) <? 2)%nat then
              (mkResponse 400 (ErrorJson "Journal entry must have at least 2 lines"), st)
            else
              let (totalDebit, totalCredit) := totalsOf (journalLines entry) in
              if negb (totalDebit =? totalCredit) then
                (mkResponse 400
                   (ErrorJson ("Journal entry is unbalanced. Debit total: "
                               ++ Decimal_toString totalDebit ++ ", Credit total: "
                               ++ Decimal_toString totalCredit)), st)
              else
                let year := getFullYear (entry_date entry) in
                match transaction (postJournalEntry_tx id entry year now) st with
                | (inr updatedEntry, st') =>
                    (mkResponse 200 (EntryJson id updatedEntry), st')
                | (inl error, st') => (postJournalEntry_catch error, st')
                end
        | other =>
            (mkResponse 409
               (ErrorJson ("Journal entry is already posted (status: "
                           ++ EntryStatus_toString other ++ ")")), st)
        end
    end.

(** *** createJournalEntry *)

(** A JavaScript number written to a [DECIMAL(18,2)] column: rounded to
    two decimals, half away from zero. *)
Definition toDecimal2 (q : Qc) : Decimal :=
  let n := Qnum (this q) * 100 in
  let d := Z.pos (Qden (this q)) in
  if n <? 0 then - ((2 * - n + d) / (2 * d)) else (2 * n + d) / (2 * d).

(** The column holds 18 digits, 16 of them before the point. *)
Definition fitsDecimal18_2 (d : Decimal) : bool := Z.abs d <? 10 ^ 18.

(** [v || null] for an optional string column of the schema; the client
    refuses a value that is not a string. *)
Definition orNull (v : JsValue) : Exception + option string :=
  if truthy v then
    match v with
    | JsString s => inr (Some s)
    | _ => inl ValidationError
    end
  else inr None.

(** [body.k] once [body] is known to be neither undefined nor null. *)
Definition prop (v : JsValue) (k : string) : JsValue :=
  default JsUndefined (getProp v k).

Definition stringOf (v : JsValue) : string :=
  match v with JsString s => s | _ => EmptyString end.

Definition numberOf (v : JsValue) : Qc :=
  match v with JsNumber q => q | _ => 0%Qc end.

Section CreateJournalEntry.

(** The runtime's part: [new Date(s)] ([None] when the time value is
    NaN), [d.setHours(0, 0, 0, 0)], and the outcome of [v > 0] for an
    operand that is not a number. *)
Variable newDate : string -> option JsDate.
Variable setHoursZero : JsDate -> JsDate.
Variable coercedGtZero : JsValue -> bool.

(** [v < 0] and [v > 0] *)
Definition ltZero (v : JsValue) : bool :=
  match v with
  | JsNumber q => bool_decide (q < 0)%Qc
  | _ => false
  end.

Definition gtZero (v : JsValue) : bool :=
  match v with
  | JsNumber q => bool_decide (0 < q)%Qc
  | _ => coercedGtZero v
  end.

Definition linePrefix (index : nat) : string :=
  "lines[" ++ numberToString (Z.of_nat index) ++ "]".

(** The checks on one required amount field. *)
Definition amountErrors (index : nat) (field : string) (v : JsValue) : list string :=
  if negb (isNumber v) then
    [linePrefix index ++ "." ++ field ++ " is required and must be a number"]
  else if ltZero v then
    [linePrefix index ++ "." ++ field ++ " must be >= 0"]
  else [].

Definition accountCodeErrors (index : nat) (v : JsValue) : list string :=
  if negb (truthy v) || negb (isString v)
  then [linePrefix index ++ ".accountCode is required"] else [].

Definition bothSidesErrors (index : nat) (debit credit : JsValue) : list string :=
  if gtZero debit && gtZero credit
  then [linePrefix index ++ " cannot have both debit and credit > 0"] else [].

(** The body of [body.lines.forEach((line, index) => ...)]; [None] when
    reading a property of the line throws. *)
Definition lineErrors (index : nat) (line : JsValue) : option (list string) :=
  match getProp line "accountCode", getProp line "debit", getProp line "credit" with
  | Some accountCode, Some debit, Some credit =>
      Some (accountCodeErrors index accountCode
            ++ amountErrors index "debit" debit
            ++ amountErrors index "credit" credit
            ++ bothSidesErrors index debit credit)%list
  | _, _, _ => None
  end.

Fixpoint linesErrors (index : nat) (lines : list JsValue) : option (list string) :=
  match lines with
  | [] => Some []
  | line :: rest =>
      match lineErrors index line with
      | None => None
      | Some errs =>
          match linesErrors (S index) rest with
          | None => None
          | Some errs' => Some (errs ++ errs')%list
          end
      end
  end.

Definition journalCodeErrors (journalCode : JsValue) : list string :=
  if negb (truthy journalCode) || negb (isString journalCode)
  then ["journalCode is required"] else [].

Definition dateErrors (date : JsValue) : list string :=
  if negb (truthy date) || negb (isString date) then ["date is required"]
  else if negb (dateRegexTest (stringOf date))
  then ["date must be in YYYY-MM-DD format"]
  else match newDate (stringOf date) with
       | None => ["date is invalid"]
       | Some _ => []
       end.

(** The [lines] block of the validation. *)
Definition lineSetErrors (lines : JsValue) : option (list string) :=
  match lines with
  | JsArray items =>
      match linesErrors 0 items with
      | None => None
      | Some errs =>
          Some ((if (length items <? 2)%nat
                 then ["lines must contain at least 2 entries"] else [])
                ++ errs)%list
      end
  | _ => Some ["lines is required and must be an array"]
  end.

(** All of [errors] when validation ends. *)
Definition validationErrors (body : JsValue) : option (list string) :=
  match lineSetErrors (prop body "lines") with
  | None => None
  | Some errs =>
      Some (journalCodeErrors (prop body "journalCode")
            ++ dateErrors (prop body "date")
            ++ errs)%list
  end.

(** The company the entry goes to: the given one, else the first by
    creation time. *)
Definition resolveCompanyId (companyId : JsValue) (st : Store)
  : Exception + (Response + string) :=
  if negb (truthy companyId) then
    match company_findFirst_byCreatedAt st with
    | None =>
        inr (inl (mkResponse 404
                    (ErrorJson "No company found. Please seed the database first.")))
    | Some (id, _) => inr (inr id)
    end
  else
    match companyId with
    | JsString id =>
        match companies st !! id with
        | None =>
            inr (inl (mkResponse 404
                        (ErrorJson ("Company with id " ++ id ++ " not found"))))
        | Some _ => inr (inr id)
        end
    | _ => inl ValidationError
    end.

(** [accountMap.get(code)]: of several rows with one code the map
    keeps the last. *)
Definition accountMap_get (found : list (string * Account)) (code : string)
  : option (string * Account) :=
  List.find (fun kv => String.eqb (account_code kv.2) code) (rev found).

(** One element of [journalLines.create]. *)
Definition lineData (found : list (string * Account)) (line : JsValue)
  : Exception + JournalLine :=
  match accountMap_get found (stringOf (prop line "accountCode")) with
  | None => inl TypeError
  | Some (accountId, _) =>
      match orNull (prop line "label") with
      | inl e => inl e
      | inr label =>
          let debit := toDecimal2 (numberOf (prop line "debit")) in
          let credit := toDecimal2 (numberOf (prop line "credit")) in
          if fitsDecimal18_2 debit && fitsDecimal18_2 credit
          then inr (mkJournalLine accountId None label debit credit)
          else inl (KnownRequestError ValueOutOfRange)
      end
  end.

Fixpoint linesData (found : list (string * Account)) (lines : list JsValue)
  : Exception + list JournalLine :=
  match lines with
  | [] => inr []
  | line :: rest =>
      match lineData found line with
      | inl e => inl e
      | inr l =>
          match linesData found rest with
          | inl e => inl e
          | inr ls => inr (l :: ls)
          end
      end
  end.

Definition arrayItems (v : JsValue) : list JsValue :=
  match v with JsArray items => items | _ => [] end.

(** The [try] block of [createJournalEntry] after validation passed. *)
Definition createJournalEntry_persist (body : JsValue) (newId : string)
  : Tx Response :=
  fun st =>
    match resolveCompanyId (prop body "companyId") st with
    | inl e => inl e
    | inr (inl notFound) => inr (notFound, st)
    | inr (inr finalCompanyId) =>
        let journalCode := stringOf (prop body "journalCode") in
        match journal_findUnique_companyId_code finalCompanyId journalCode st with
        | None =>
            inr (mkResponse 404
                   (ErrorJson ("Journal with code " ++ dquote ++ journalCode
                               ++ dquote ++ " not found for company")), st)
        | Some (journalId, _) =>
            let lines := arrayItems (prop body "lines") in
            let accountCodes :=
              List.map (fun line => stringOf (prop line "accountCode")) lines in
            let found :=
              findMany (fun a => String.eqb (account_companyId a) finalCompanyId
                                 && existsb (String.eqb (account_code a)) accountCodes)
                       (accounts st) in
            let missingCodes :=
              List.filter
                (fun code => negb (existsb (fun kv => String.eqb (account_code kv.2) code)
                                           found))
                accountCodes in
            if negb (length missingCodes =? 0)%nat then
              inr (mkResponse 404
                     (ErrorJson ("Account(s) not found: " ++ join ", " missingCodes)), st)
            else
              match newDate (stringOf (prop body "date")) with
              | None => inl (ValidationError)
              | Some parsed =>
                  let parsedDate := setHoursZero parsed in
                  match orNull (prop body "memo"), linesData found lines with
                  | inl e, _ | _, inl e => inl e
                  | inr memo, inr journalLines =>
                      match journalEntry_create newId
                              (mkJournalEntry finalCompanyId journalId parsedDate
                                 None DRAFT memo None journalLines) st with
                      | inl e => inl e
                      | inr (journalEntry, st') =>
                          inr (mkResponse 201 (EntryJson newId journalEntry), st')
                      end
                  end
              end
        end
    end.

(** [createJournalEntry]: [body] is [req.body], [newId] the key
    generated for the new entry. *)
Definition createJournalEntry (body : JsValue) (newId : string) (st : Store)
  : Response * Store :=
  match body with
  | JsUndefined | JsNull =>
      (mkResponse 500 (ErrorJson "Failed to create journal entry"), st)
  | _ =>
      match validationErrors body with
      | None => (mkResponse 500 (ErrorJson "Failed to create journal entry"), st)
      | Some [] =>
          match createJournalEntry_persist body newId st with
          | inr (response, st') => (response, st')
          | inl _ => (mkResponse 500 (ErrorJson "Failed to create journal entry"), st)
          end
      | Some errors => (mkResponse 400 (ErrorJson (join "; " errors)), st)
      end
  end.

End CreateJournalEntry.

(** ** Vocabulary of the properties *)

(** Totals of an entry's lines, as the ledger defines them. *)
Definition sumDebit (lines : list JournalLine) : Decimal :=
  foldr (fun line acc => debit line + acc) 0 lines.

Definition sumCredit (lines : list JournalLine) : Decimal :=
  foldr (fun line acc => credit line + acc) 0 lines.

Definition balanced (e : JournalEntry) : Prop :=
  sumDebit (journalLines e) = sumCredit (journalLines e).

Definition sumOfLineTotals (lines : list InvoiceLine) : Decimal :=
  foldr (fun line acc => lineTotal line + acc) 0 lines.

(** A posting request succeeded when it was answered with [res.json]
    under the default status. *)
Definition succeeded (r : Response) : Prop := status r = 200.

(** The entry and the journal as [postJournalEntry] leaves them. *)
Definition postedEntry (e : JournalEntry) (num : string) (now : JsDate) : JournalEntry :=
  mkJournalEntry (entry_companyId e) (entry_journalId e) (entry_date e)
    (Some num) POSTED (entry_memo e) (Some now) (journalLines e).

Definition advancedJournal (j : Journal) : Journal :=
  mkJournal (journal_companyId j) (journal_code j) (journal_name j)
    (journal_type j) (nextNumber j + 1).

(** The invoice, its entry and the company as [postCustomerInvoice]
    leaves them. *)
Definition postedInvoice (i : CustomerInvoice) (num : string) (now : JsDate)
    (entryId : string) : CustomerInvoice :=
  mkCustomerInvoice (invoice_companyId i) (invoice_partnerId i) (invoiceDate i)
    (dueDate i) (Some num) InvoiceStatus.POSTED (invoice_memo i)
    (invoice_currency i) (totalAmount i) (Some entryId) (Some now)
    (invoice_lines i).

Definition invoiceEntry (i : CustomerInvoice) (salesJournalId arAccountId num : string)
    (now : JsDate) : JournalEntry :=
  mkJournalEntry (invoice_companyId i) salesJournalId (invoiceDate i) None POSTED
    (Some (orElse (invoice_memo i) ("Invoice " ++ num))) (Some now)
    (invoiceJournalLines arAccountId i num).

Definition advancedCompany (c : Company) : Company :=
  mkCompany (company_name c) (company_baseCurrency c) (company_createdAt c)
    (invoiceNextNumber c + 1).

(** The numbers the two posting requests allocate. *)
Definition postJournalEntry_number (e : JournalEntry) (j : Journal) : string :=
  formatJournalEntryNumber (journal_code j) (getFullYear (entry_date e)) (nextNumber j).

Definition postCustomerInvoice_number (i : CustomerInvoice) (c : Company) : string :=
  formatInvoiceNumber (getFullYear (invoiceDate i)) (invoiceNextNumber c).

(** The value a string of decimal digits denotes. *)
Definition digitsValue (s : string) : option Z :=
  option_map Z.of_int (NilZero.int_of_string s).

Definition allDigits (s : string) : bool :=
  forallb isDigit (list_ascii_of_string s).

(** The sequence part of a document number. *)
Definition paddedSequence (n : Z) : string := padStart 4 "0" (numberToString n).

Definition fourDigitsOf (n : Z) : bool :=
  (String.length (paddedSequence n) =? 4)%nat
  && allDigits (paddedSequence n)
  && match digitsValue (paddedSequence n) with
     | Some v => v =? n
     | None => false
     end.

(** One request that writes journal entries. *)
Inductive step : Store -> Store -> Prop :=
  | step_createJournalEntry newDate setHoursZero coercedGtZero body newId st :
      step st (createJournalEntry newDate setHoursZero coercedGtZero body newId st).2
  | step_postJournalEntry id now st :
      step st (postJournalEntry id now st).2
  | step_postCustomerInvoice id newEntryId now1 now2 st :
      step st (postCustomerInvoice id newEntryId now1 now2 st).2.

(** Every POSTED entry of the store is balanced. *)
Definition allPostedBalanced (st : Store) : Prop :=
  forall k e, journalEntries st !! k = Some e -> entry_status e = POSTED -> balanced e.

(** A coded candidate resolves when the company has an account with
    that code and the account is an ASSET. *)
Definition codeResolves (companyId code : string) (st : Store) : Prop :=
  exists id account,
    account_findUnique_companyId_code companyId code st = Some (id, account)
    /\ account_type account = ASSET.

(** The unique index [accounts_companyId_code_key]. *)
Definition accountCodesUnique (st : Store) : Prop :=
  forall id1 id2 a1 a2,
    accounts st !! id1 = Some a1 -> accounts st !! id2 = Some a2 ->
    account_companyId a1 = account_companyId a2 ->
    account_code a1 = account_code a2 ->
    id1 = id2.

(** [name] contains the word Receivable, in any mix of ASCII cases. *)
Definition mentionsReceivable (name : string) : Prop :=
  exists before word after,
    name = before ++ word ++ after /\ toLowerCase word = "receivable".

(** Reading a property of such a value throws. *)
Definition nullish (v : JsValue) : Prop := v = JsUndefined \/ v = JsNull.

(** What [createJournalEntry] requires of one line. *)
Definition lineAccepted (line : JsValue) : Prop :=
  exists code d c,
    getProp line "accountCode" = Some (JsString code) /\ code <> EmptyString
    /\ getProp line "debit" = Some (JsNumber d) /\ (0 <= d)%Qc
    /\ getProp line "credit" = Some (JsNumber c) /\ (0 <= c)%Qc
    /\ ~ ((0 < d)%Qc /\ (0 < c)%Qc).

Definition bothPositive (line : JsValue) : Prop :=
  exists d c,
    getProp line "debit" = Some (JsNumber d) /\ (0 < d)%Qc
    /\ getProp line "credit" = Some (JsNumber c) /\ (0 < c)%Qc.

Definition exactlyOnePositive (line : JsValue) : Prop :=
  exists d c,
    getProp line "debit" = Some (JsNumber d)
    /\ getProp line "credit" = Some (JsNumber c)
    /\ (((0 < d)%Qc /\ ~ (0 < c)%Qc) \/ (~ (0 < d)%Qc /\ (0 < c)%Qc)).

(** ** Sample data: the seeded company with one draft of each kind *)

Module Sample.

Definition jan1 : JsDate := mkJsDate 1767225600000 2026.
Definition jan2 : JsDate := mkJsDate 1767312000000 2026.
Definition cid : string := "default-company-id".

Definition draftEntry : JournalEntry :=
  mkJournalEntry cid "jgen" jan1 None DRAFT None None
    [mkJournalLine "a1000" None None 10000 0;
     mkJournalLine "a4000" None None 0 10000].

Definition unbalancedEntry : JournalEntry :=
  mkJournalEntry cid "jgen" jan1 None DRAFT None None
    [mkJournalLine "a1000" None None 10000 0;
     mkJournalLine "a4000" None None 0 9000].

Definition nextYearEntry : JournalEntry :=
  mkJournalEntry cid "jgen" (mkJsDate 1798761600000 2027) None DRAFT None None
    [mkJournalLine "a5000" None None 2550 0;
     mkJournalLine "a1000" None None 0 2550].

Definition draftInvoice : CustomerInvoice :=
  mkCustomerInvoice cid "p1" jan1 None None InvoiceStatus.DRAFT None "USD"
    10000 None None [mkInvoiceLine "Widget" 200 5000 10000 "a4000"].

Definition seed : Store :=
  mkStore
    {[ cid := mkCompany "Default Company" "USD" 0 1 ]}
    (list_to_map
       [("a1000", mkAccount cid "1000" "Cash" ASSET true);
        ("a1100", mkAccount cid "1100" "Bank" ASSET true);
        ("a1200", mkAccount cid "1200" "Accounts Receivable" ASSET true);
        ("a2000", mkAccount cid "2000" "Accounts Payable" LIABILITY true);
        ("a4000", mkAccount cid "4000" "Sales Revenue" INCOME true);
        ("a5000", mkAccount cid "5000" "Office Expense" EXPENSE true)])
    (list_to_map
       [("jgen", mkJournal cid "GEN" "General Journal" GENERAL 1);
        ("jsal", mkJournal cid "SAL" "Sales Journal" SALES 1);
        ("jpur", mkJournal cid "PUR" "Purchase Journal" PURCHASE 1);
        ("jbnk", mkJournal cid "BNK" "Bank Journal" BANK 1)])
    (list_to_map [("e1", draftEntry); ("e2", unbalancedEntry); ("e4", nextYearEntry)])
    (list_to_map [("i1", draftInvoice)]).

(** The same company with its chart of accounts replaced: code 1200 is
    a liability here and the receivable account has no conventional code. *)
Definition withAccounts (accs : gmap string Account) : Store :=
  mkStore (companies seed) accs (journals seed) (journalEntries seed)
    (customerInvoices seed).

Definition byName : Store :=
  withAccounts
    (list_to_map
       [("a1200", mkAccount cid "1200" "Customer deposits" LIABILITY true);
        ("a1310", mkAccount cid "1310" "Trade RECEIVABLES" ASSET true);
        ("a4000", mkAccount cid "4000" "Sales Revenue" INCOME true)]).

Definition noReceivable : Store :=
  withAccounts
    (list_to_map
       [("a1000", mkAccount cid "1000" "Cash" ASSET true);
        ("a4000", mkAccount cid "4000" "Sales Revenue" INCOME true)]).

(** The seeded company with its invoice counter at the top of the
    column's range. *)
Definition exhausted : Store :=
  mkStore {[ cid := mkCompany "Default Company" "USD" 0 INT_MAX ]}
    (accounts seed) (journals seed) (journalEntries seed) (customerInvoices seed).

(** The runtime used in the examples: every well-formed date string is
    read as January 1st 2026. *)
Definition newDate (s : string) : option JsDate := Some jan1.
Definition setHoursZero (d : JsDate) : JsDate := d.
Definition coercedGtZero (v : JsValue) : bool := false.

Definition num (n : Z) : JsValue := JsNumber (Q2Qc (inject_Z n)).

Definition line (code : string) (d c : Z) : JsValue :=
  JsObject [("accountCode", JsString code); ("debit", num d); ("credit", num c)].

Definition body (lines : list JsValue) : JsValue :=
  JsObject [("journalCode", JsString "GEN"); ("date", JsString "2026-01-01");
            ("lines", JsArray lines)].

(** The store after the sample invoice and the sample entry were posted. *)
Definition afterInvoice : Store := (postCustomerInvoice "i1" "e3" jan2 jan2 seed).2.
Definition afterEntry : Store := (postJournalEntry "e1" jan2 seed).2.

End Sample.

(** ** The remaining write handlers

    [createCustomerInvoice] (customerInvoicesController.ts) and
    [createAccount] (accountsController.ts), with the rows and replies
    they need.  Partners are a table of their own; the invoice handler
    only reads it. *)

Record Partner := mkPartner {
  partner_companyId : string;
  partner_name : string;
  partner_email : option string;
  partner_phone : option string;
  isCustomer : bool;
  isVendor : bool
}.

(** [res.status(s).json({ error })] and [res.status(s).json({ data })] *)
Inductive ReplyBody (A : Type) :=
  | ErrorBody (error : string)
  | DataBody (data : A).
Arguments ErrorBody {A} error.
Arguments DataBody {A} data.

Record Reply (A : Type) := mkReply { reply_status : Z; reply_body : ReplyBody A }.
Arguments mkReply {A} reply_status reply_body.
Arguments reply_status {A} r.
Arguments reply_body {A} r.

(** [error?.message || fallback] *)
Definition messageOr (message fallback : string) : string :=
  if String.eqb message EmptyString then fallback else message.

(** The company a request without usable [companyId] falls back to, and
    the check that the company exists: a thrown exception, the message
    of a 404, or the company. *)
Definition resolveCompany (companyId : JsValue) (st : Store)
  : Exception + (string + string * Company) :=
  if negb (truthy companyId) then
    match company_findFirst_byCreatedAt st with
    | None => inr (inl "No company found. Please seed the database first.")
    | Some (id, company) => inr (inr (id, company))
    end
  else
    match companyId with
    | JsString id =>
        match companies st !! id with
        | None => inr (inl ("Company with id " ++ id ++ " not found"))
        | Some company => inr (inr (id, company))
        end
    | _ => inl ValidationError
    end.

(** One element of [validatedLines], before it is written. *)
Record ValidatedLine := mkValidatedLine {
  vl_description : string;
  vl_quantity : Qc;
  vl_unitPrice : Qc;
  vl_lineTotal : Qc;
  vl_incomeAccountId : string
}.

(** The line as the [DECIMAL(18,2)] columns keep it. *)
Definition storedLine (l : ValidatedLine) : InvoiceLine :=
  mkInvoiceLine (vl_description l) (toDecimal2 (vl_quantity l))
    (toDecimal2 (vl_unitPrice l)) (toDecimal2 (vl_lineTotal l))
    (vl_incomeAccountId l).

Definition lineFits (l : InvoiceLine) : bool :=
  fitsDecimal18_2 (quantity l) && fitsDecimal18_2 (unitPrice l)
  && fitsDecimal18_2 (lineTotal l).

(** [customerInvoice.create({ data })] with nested [lines.create]. *)
Definition customerInvoice_create (id : string) (i : CustomerInvoice)
  : Tx CustomerInvoice :=
  fun st =>
    match customerInvoices st !! id with
    | Some _ => inl (KnownRequestError (P2002 ["id"]))
    | None =>
        if negb (fitsDecimal18_2 (totalAmount i) && forallb lineFits (invoice_lines i))
        then inl (KnownRequestError ValueOutOfRange)
        else if match invoice_number i with
                | Some num => invoiceNumberTaken id (invoice_companyId i) num st
                | None => false
                end
        then inl (KnownRequestError (P2002 ["companyId"; "number"]))
        else if match journalEntryId i with
                | Some entryId => invoiceEntryLinked id entryId st
                | None => false
                end
        then inl (KnownRequestError (P2002 ["journalEntryId"]))
        else inr (i, setCustomerInvoices (<[id := i]> (customerInvoices st)) st)
    end.

Definition isP2002 (e : Exception) : bool :=
  match e with
  | KnownRequestError (P2002 _) => true
  | _ => false
  end.

Section CreateCustomerInvoice.

(** The runtime's part: [s.trim()], [new Date(s)] ([None] when the time
    value is NaN), and the [message] of a caught exception. *)
Variable trim : string -> string.
Variable newDate : string -> option JsDate.
Variable errorMessage : Exception -> string.

(** The negation of [!v || typeof v !== 'string' || v.trim() === ''] *)
Definition requiredText (v : JsValue) : bool :=
  truthy v && isString v && negb (String.eqb (trim (stringOf v)) EmptyString).

(** [new Date(s + 'T00:00:00.000Z')] *)
Definition utcMidnight (s : string) : option JsDate :=
  newDate (s ++ "T00:00:00.000Z").

Definition partnerIdErrors (partnerId : JsValue) : list string :=
  if requiredText partnerId then [] else ["partnerId is required"].

Definition invoiceDateErrors (invoiceDate : JsValue) : list string :=
  if negb (requiredText invoiceDate)
  then ["invoiceDate is required (format: YYYY-MM-DD)"]
  else if negb (dateRegexTest (stringOf invoiceDate))
  then ["invoiceDate must be in YYYY-MM-DD format"]
  else match utcMidnight (stringOf invoiceDate) with
       | None => ["invoiceDate is not a valid date"]
       | Some _ => []
       end.

Definition dueDateErrors (dueDate : JsValue) : list string :=
  match dueDate with
  | JsUndefined | JsNull => []
  | JsString s =>
      if negb (dateRegexTest s) then ["dueDate must be in YYYY-MM-DD format"]
      else match utcMidnight s with
           | None => ["dueDate is not a valid date"]
           | Some _ => []
           end
  | _ => ["dueDate must be a string in YYYY-MM-DD format"]
  end.

Definition invoiceLinesErrors (lines : JsValue) : list string :=
  match lines with
  | JsArray (_ :: _) => []
  | _ => ["lines is required and must contain at least one line item"]
  end.

(** All of [errors] when the header validation ends. *)
Definition invoiceErrors (body : JsValue) : list string :=
  (partnerIdErrors (prop body "partnerId")
   ++ invoiceDateErrors (prop body "invoiceDate")
   ++ dueDateErrors (prop body "dueDate")
   ++ invoiceLinesErrors (prop body "lines"))%list.

(** [body.memo && typeof body.memo === 'string' ? body.memo.trim() : null] *)
Definition memoOf (memo : JsValue) : option string :=
  if truthy memo && isString memo then Some (trim (stringOf memo)) else None.

Definition dueDateOf (dueDate : JsValue) : option JsDate :=
  match dueDate with
  | JsString s => utcMidnight s
  | _ => None
  end.

Definition descriptionErrors (index : nat) (v : JsValue) : list string :=
  if requiredText v then [] else [linePrefix index ++ ".description is required"].

Definition quantityErrors (index : nat) (v : JsValue) : list string :=
  match v with
  | JsNumber q =>
      if bool_decide (q <= 0)%Qc
      then [linePrefix index ++ ".quantity must be greater than 0"] else []
  | _ => [linePrefix index ++ ".quantity must be a number"]
  end.

Definition unitPriceErrors (index : nat) (v : JsValue) : list string :=
  match v with
  | JsNumber q =>
      if bool_decide (q < 0)%Qc
      then [linePrefix index ++ ".unitPrice must be non-negative"] else []
  | _ => [linePrefix index ++ ".unitPrice must be a number"]
  end.

Definition incomeAccountCodeErrors (index : nat) (v : JsValue) : list string :=
  if requiredText v then [] else [linePrefix index ++ ".incomeAccountCode is required"].

(** [lineErrors] of one turn of the loop over [body.lines]. *)
Definition invoiceLineErrors (index : nat) (line : JsValue) : list string :=
  (descriptionErrors index (prop line "description")
   ++ quantityErrors index (prop line "quantity")
   ++ unitPriceErrors index (prop line "unitPrice")
   ++ incomeAccountCodeErrors index (prop line "incomeAccountCode"))%list.

(** The loop [for (let i = 0; i < body.lines.length; i++)]: it throws,
    or returns at the first line that is invalid (400) or whose account
    code is unknown in the company (404), or yields [validatedLines]. *)
Fixpoint validateInvoiceLines (companyId : string) (st : Store) (index : nat)
    (lines : list JsValue) : Exception + (Z * string + list ValidatedLine) :=
  match lines with
  | [] => inr (inr [])
  | line :: rest =>
      match line with
      | JsUndefined | JsNull => inl TypeError
      | _ =>
          let lineErrors := invoiceLineErrors index line in
          if negb (length lineErrors =? 0)%nat then
            inr (inl (400, "Validation error for line "
                           ++ numberToString (Z.of_nat index + 1) ++ ": "
                           ++ join "; " lineErrors))
          else
            let accountCode := stringOf (prop line "incomeAccountCode") in
            match account_findUnique_companyId_code companyId (trim accountCode) st with
            | None =>
                inr (inl (404, "Account with code " ++ dquote ++ accountCode ++ dquote
                               ++ " not found for this company (line "
                               ++ numberToString (Z.of_nat index + 1) ++ ")"))
            | Some (accountId, _) =>
                let quantity := numberOf (prop line "quantity") in
                let unitPrice := numberOf (prop line "unitPrice") in
                let lineTotal := (quantity * unitPrice)%Qc in
                match validateInvoiceLines companyId st (S index) rest with
                | inl e => inl e
                | inr (inl refusal) => inr (inl refusal)
                | inr (inr validated) =>
                    inr (inr (mkValidatedLine (trim (stringOf (prop line "description")))
                                quantity unitPrice lineTotal accountId :: validated))
                end
            end
      end
  end.

(** [validatedLines.reduce((sum, line) => sum.add(line.lineTotal), 0)] *)
Definition sumValidated (validated : list ValidatedLine) : Qc :=
  fold_left (fun sum line => (sum + vl_lineTotal line)%Qc) validated 0%Qc.

(** The outer [try] block of [createCustomerInvoice]; an exception thrown
    by the final [create] is answered by the inner [catch]. *)
Definition createCustomerInvoice_try (body : JsValue) (newId : string)
    (partners : gmap string Partner) (st : Store)
  : Exception + (Reply (string * CustomerInvoice) * Store) :=
  match body with
  | JsUndefined | JsNull => inl TypeError
  | _ =>
      match resolveCompany (prop body "companyId") st with
      | inl e => inl e
      | inr (inl notFound) => inr (mkReply 404 (ErrorBody notFound), st)
      | inr (inr (finalCompanyId, company)) =>
          let errors := invoiceErrors body in
          if negb (length errors =? 0)%nat then
            inr (mkReply 400 (ErrorBody (join "; " errors)), st)
          else
            let partnerId := stringOf (prop body "partnerId") in
            match partners !! trim partnerId with
            | Some partner =>
                if String.eqb (partner_companyId partner) finalCompanyId then
                  match validateInvoiceLines finalCompanyId st 0
                          (arrayItems (prop body "lines")) with
                  | inl e => inl e
                  | inr (inl (status, message)) =>
                      inr (mkReply status (ErrorBody message), st)
                  | inr (inr validatedLines) =>
                      match utcMidnight (stringOf (prop body "invoiceDate")) with
                      | None => inl ValidationError
                      | Some invoiceDate =>
                          let invoice :=
                            mkCustomerInvoice finalCompanyId (trim partnerId) invoiceDate
                              (dueDateOf (prop body "dueDate")) None InvoiceStatus.DRAFT
                              (memoOf (prop body "memo")) (company_baseCurrency company)
                              (toDecimal2 (sumValidated validatedLines)) None None
                              (List.map storedLine validatedLines) in
                          match customerInvoice_create newId invoice st with
                          | inr (created, st') =>
                              inr (mkReply 201 (DataBody (newId, created)), st')
                          | inl prismaError =>
                              inr (mkReply (if isP2002 prismaError then 409 else 500)
                                     (ErrorBody (messageOr (errorMessage prismaError)
                                                   "Failed to create customer invoice")),
                                   st)
                          end
                      end
                  end
                else
                  inr (mkReply 404
                         (ErrorBody ("Partner with id " ++ partnerId
                                     ++ " not found for this company")), st)
            | None =>
                inr (mkReply 404
                       (ErrorBody ("Partner with id " ++ partnerId
                                   ++ " not found for this company")), st)
            end
      end
  end.

(** [createCustomerInvoice]: [body] is [req.body], [newId] the key
    generated for the invoice, [partners] the partners table. *)
Definition createCustomerInvoice (body : JsValue) (newId : string)
    (partners : gmap string Partner) (st : Store)
  : Reply (string * CustomerInvoice) * Store :=
  match createCustomerInvoice_try body newId partners st with
  | inr result => result
  | inl error =>
      (mkReply 500
         (ErrorBody (messageOr (errorMessage error) "Failed to create customer invoice")),
       st)
  end.

End CreateCustomerInvoice.

(** *** createAccount (accountsController.ts) *)

(** Unique index [accounts_companyId_code_key] *)
Definition accountCodeTaken (companyId code : string) (st : Store) : bool :=
  existsb (fun kv => String.eqb (account_companyId kv.2) companyId
                     && String.eqb (account_code kv.2) code)
          (map_to_list (accounts st)).

Definition setAccounts (accs : gmap string Account) (st : Store) : Store :=
  mkStore (companies st) accs (journals st) (journalEntries st) (customerInvoices st).

(** [validTypes.includes(v)], with the member found *)
Definition accountTypeOf (v : JsValue) : option AccountType :=
  match v with
  | JsString s =>
      if String.eqb s "ASSET" then Some ASSET
      else if String.eqb s "LIABILITY" then Some LIABILITY
      else if String.eqb s "EQUITY" then Some EQUITY
      else if String.eqb s "INCOME" then Some INCOME
      else if String.eqb s "EXPENSE" then Some EXPENSE
      else None
  | _ => None
  end.

Section CreateAccount.

(** The runtime's part: [s.trim()], and what the client reports as
    [meta.target] when the unique index on (companyId, code) refuses a
    row. *)
Variable trim : string -> string.
Variable codeIndexTarget : list string.

(** [account.create({ data })]; [isActive] takes the column's default. *)
Definition account_create (id companyId code name : string) (type : AccountType)
  : Tx Account :=
  fun st =>
    match accounts st !! id with
    | Some _ => inl (KnownRequestError (P2002 ["id"]))
    | None =>
        if accountCodeTaken companyId code st
        then inl (KnownRequestError (P2002 codeIndexTarget))
        else
          let account := mkAccount companyId code name type true in
          inr (account, setAccounts (<[id := account]> (accounts st)) st)
    end.

Definition codeErrors (code : JsValue) : list string :=
  if negb (truthy code) || negb (isString code) then ["code is required"]
  else if (String.length (trim (stringOf code)) =? 0)%nat then ["code cannot be empty"]
  else if (20 <? String.length (trim (stringOf code)))%nat
  then ["code must be at most 20 characters"]
  else [].

Definition nameErrors (name : JsValue) : list string :=
  if negb (truthy name) || negb (isString name) then ["name is required"]
  else if (120 <? String.length (stringOf name))%nat
  then ["name must be at most 120 characters"]
  else [].

Definition typeErrors (type : JsValue) : list string :=
  match accountTypeOf type with
  | Some _ => []
  | None => ["type must be one of: ASSET, LIABILITY, EQUITY, INCOME, EXPENSE"]
  end.

Definition accountErrors (body : JsValue) : list string :=
  (codeErrors (prop body "code") ++ nameErrors (prop body "name")
   ++ typeErrors (prop body "type"))%list.

(** The inner [catch] of [createAccount]: the duplicate is answered
    here, anything else is thrown on. *)
Definition createAccount_catch (code : string) (prismaError : Exception)
  : Exception + Reply (string * Account) :=
  match prismaError with
  | KnownRequestError (P2002 target) =>
      if existsb (String.eqb "companyId_code") target
      then inr (mkReply 409
                  (ErrorBody ("Account with code " ++ dquote ++ code ++ dquote
                              ++ " already exists for this company")))
      else inl prismaError
  | _ => inl prismaError
  end.

Definition createAccount_try (body : JsValue) (newId : string) (st : Store)
  : Exception + (Reply (string * Account) * Store) :=
  match body with
  | JsUndefined | JsNull => inl TypeError
  | _ =>
      let errors := accountErrors body in
      if negb (length errors =? 0)%nat then
        inr (mkReply 400 (ErrorBody (join "; " errors)), st)
      else
        match resolveCompany (prop body "companyId") st with
        | inl e => inl e
        | inr (inl notFound) => inr (mkReply 404 (ErrorBody notFound), st)
        | inr (inr (finalCompanyId, _)) =>
            let code := trim (stringOf (prop body "code")) in
            match accountTypeOf (prop body "type") with
            | None => inl ValidationError
            | Some type =>
                match account_create newId finalCompanyId code
                        (stringOf (prop body "name")) type st with
                | inr (account, st') =>
                    inr (mkReply 201 (DataBody (newId, account)), st')
                | inl prismaError =>
                    match createAccount_catch code prismaError with
                    | inr reply => inr (reply, st)
                    | inl e => inl e
                    end
                end
            end
        end
  end.

(** [createAccount]: [body] is [req.body], [newId] the key generated
    for the account. *)
Definition createAccount (body : JsValue) (newId : string) (st : Store)
  : Reply (string * Account) * Store :=
  match createAccount_try body newId st with
  | inr result => result
  | inl _ => (mkReply 500 (ErrorBody "Failed to create account"), st)
  end.

End CreateAccount.

(** *** createPartner (partnersController.ts) *)

(** Unique index [partners_companyId_email_key]; rows without email
    never collide. *)
Definition partnerEmailTaken (companyId email : string)
    (partners : gmap string Partner) : bool :=
  existsb (fun kv => String.eqb (partner_companyId kv.2) companyId
                     && optString_eqb (partner_email kv.2) (Some email))
          (map_to_list partners).

(** [v ?? false] *)
Definition orFalse (v : JsValue) : JsValue :=
  match v with
  | JsUndefined | JsNull => JsBool false
  | _ => v
  end.

(** [isCustomer] and [isVendor] when the validation reads them: a body
    that gives neither makes a customer. *)
Definition isCustomerOf (body : JsValue) : JsValue :=
  match prop body "isCustomer", prop body "isVendor" with
  | JsUndefined, JsUndefined => JsBool true
  | isCustomer, _ => orFalse isCustomer
  end.

Definition isVendorOf (body : JsValue) : JsValue := orFalse (prop body "isVendor").

Definition flagErrors (body : JsValue) : list string :=
  if negb (truthy (isCustomerOf body)) && negb (truthy (isVendorOf body))
  then ["at least one of isCustomer or isVendor must be true"] else [].

Definition phoneErrors (phone : JsValue) : list string :=
  match phone with
  | JsUndefined | JsNull | JsString _ => []
  | _ => ["phone must be a string"]
  end.

Section CreatePartner.

(** The runtime's part: [s.trim()], the test of the e-mail pattern, and
    what the client reports as [meta.target] when the unique index on
    (companyId, email) refuses a row. *)
Variable trim : string -> string.
Variable emailRegexTest : string -> bool.
Variable emailIndexTarget : list string.

(** [partner.create({ data })] *)
Definition partner_create (id : string) (p : Partner) (partners : gmap string Partner)
  : Exception + (Partner * gmap string Partner) :=
  match partners !! id with
  | Some _ => inl (KnownRequestError (P2002 ["id"]))
  | None =>
      if match partner_email p with
         | Some email => partnerEmailTaken (partner_companyId p) email partners
         | None => false
         end
      then inl (KnownRequestError (P2002 emailIndexTarget))
      else inr (p, <[id := p]> partners)
  end.

Definition partnerNameErrors (name : JsValue) : list string :=
  if negb (truthy name) || negb (isString name) then ["name is required"]
  else if (String.length (trim (stringOf name)) =? 0)%nat then ["name cannot be empty"]
  else if (255 <? String.length (trim (stringOf name)))%nat
  then ["name must be at most 255 characters"]
  else [].

Definition emailErrors (email : JsValue) : list string :=
  match email with
  | JsUndefined | JsNull => []
  | JsString s =>
      if negb (String.length (trim s) =? 0)%nat && negb (emailRegexTest (trim s))
      then ["email must be a valid email address"] else []
  | _ => ["email must be a string"]
  end.

Definition partnerErrors (body : JsValue) : list string :=
  (partnerNameErrors (prop body "name") ++ emailErrors (prop body "email")
   ++ phoneErrors (prop body "phone") ++ flagErrors body)%list.

(** [body.email || null] and [body.phone || null] once the validation
    has passed: the trimmed text, or null when nothing is left of it. *)
Definition trimmedOrNull (v : JsValue) : option string :=
  match v with
  | JsString s => if (String.length (trim s) =? 0)%nat then None else Some (trim s)
  | _ => None
  end.

(** The inner [catch] of [createPartner]. *)
Definition createPartner_catch (email : option string) (prismaError : Exception)
  : Exception + Reply (string * Partner) :=
  match prismaError with
  | KnownRequestError (P2002 target) =>
      if existsb (String.eqb "companyId_email") target
      then inr (mkReply 409
                  (ErrorBody ("Partner with email " ++ dquote ++ default "null" email
                              ++ dquote ++ " already exists for this company")))
      else inl prismaError
  | _ => inl prismaError
  end.

Definition createPartner_try (body : JsValue) (newId : string)
    (partners : gmap string Partner) (st : Store)
  : Exception + (Reply (string * Partner) * gmap string Partner) :=
  match body with
  | JsUndefined | JsNull => inl TypeError
  | _ =>
      let errors := partnerErrors body in
      if negb (length errors =? 0)%nat then
        inr (mkReply 400 (ErrorBody (join "; " errors)), partners)
      else
        match resolveCompany (prop body "companyId") st with
        | inl e => inl e
        | inr (inl notFound) => inr (mkReply 404 (ErrorBody notFound), partners)
        | inr (inr (finalCompanyId, _)) =>
            let email := trimmedOrNull (prop body "email") in
            match isCustomerOf body, isVendorOf body with
            | JsBool isCustomer, JsBool isVendor =>
                match partner_create newId
                        (mkPartner finalCompanyId (trim (stringOf (prop body "name")))
                           email (trimmedOrNull (prop body "phone"))
                           isCustomer isVendor) partners with
                | inr (partner, partners') =>
                    inr (mkReply 201 (DataBody (newId, partner)), partners')
                | inl prismaError =>
                    match createPartner_catch email prismaError with
                    | inr reply => inr (reply, partners)
                    | inl e => inl e
                    end
                end
            | _, _ => inl ValidationError
            end
        end
  end.

(** [createPartner]: [body] is [req.body], [newId] the key generated
    for the partner, [partners] the partners table. *)
Definition createPartner (body : JsValue) (newId : string)
    (partners : gmap string Partner) (st : Store)
  : Reply (string * Partner) * gmap string Partner :=
  match createPartner_try body newId partners st with
  | inr result => result
  | inl _ => (mkReply 500 (ErrorBody "Failed to create partner"), partners)
  end.

End CreatePartner.

(** *** The seed script (prisma/seed.ts) *)

Definition defaultCompanyId : string := "default-company-id".

Definition seedJournals : list (string * string * JournalType) :=
  [("GEN", "General Journal", GENERAL); ("SAL", "Sales Journal", SALES);
   ("PUR", "Purchase Journal", PURCHASE); ("BNK", "Bank Journal", BANK)].

Definition seedAccounts : list (string * string * AccountType) :=
  [("1000", "Cash", ASSET); ("1100", "Bank", ASSET);
   ("1200", "Accounts Receivable", ASSET); ("2000", "Accounts Payable", LIABILITY);
   ("4000", "Sales Revenue", INCOME); ("5000", "Office Expense", EXPENSE)].

Definition seedPartners : list (string * bool * bool) :=
  [("Walk-in Customer", true, false); ("Default Vendor", false, true)].

(** [for (const x of xs) { await f(x) }] *)
Fixpoint forEach {A} (f : A -> Tx unit) (xs : list A) : Tx unit :=
  match xs with
  | [] => ret tt
  | x :: rest => (do f x in forEach f rest)%tx
  end.

Section Seed.

(** What the database supplies: the creation time and the default of
    [invoiceNextNumber] for the company row, and the keys generated for
    the journal, account and partner rows. *)
Variable now : Z.
Variable invoiceNextNumberDefault : Z.
Variable newJournalId : string -> string.
Variable newAccountId : string -> string.
Variable newPartnerId : string -> string.

(** [company.upsert({ where: { id }, update: {}, create })] *)
Definition company_upsert (id : string) (create : Company) : Tx Company :=
  fun st =>
    match companies st !! id with
    | Some company => inr (company, st)
    | None => inr (create, setCompanies (<[id := create]> (companies st)) st)
    end.

(** [journal.upsert({ where: { companyId_code }, update: {}, create })] *)
Definition journal_upsert (companyId : string) (journal : string * string * JournalType)
  : Tx Journal :=
  fun st =>
    let '(code, name, type) := journal in
    match journal_findUnique_companyId_code companyId code st with
    | Some (_, found) => inr (found, st)
    | None =>
        match journals st !! newJournalId code with
        | Some _ => inl (KnownRequestError (P2002 ["id"]))
        | None =>
            let created := mkJournal companyId code name type 1 in
            inr (created, setJournals (<[newJournalId code := created]> (journals st)) st)
        end
    end.

(** [account.upsert({ where: { companyId_code }, update: {}, create })] *)
Definition account_upsert (companyId : string) (account : string * string * AccountType)
  : Tx Account :=
  fun st =>
    let '(code, name, type) := account in
    match account_findUnique_companyId_code companyId code st with
    | Some (_, found) => inr (found, st)
    | None =>
        match accounts st !! newAccountId code with
        | Some _ => inl (KnownRequestError (P2002 ["id"]))
        | None =>
            let created := mkAccount companyId code name type true in
            inr (created, setAccounts (<[newAccountId code := created]> (accounts st)) st)
        end
    end.

(** The loop over the default partners: a partner is created unless
    the company has one of that name. *)
Fixpoint partners_seed (companyId : string) (seeds : list (string * bool * bool))
    (partners : gmap string Partner) : Exception + gmap string Partner :=
  match seeds with
  | [] => inr partners
  | (name, isCustomer, isVendor) :: rest =>
      match findFirst (fun p => String.eqb (partner_companyId p) companyId
                                && String.eqb (partner_name p) name) partners with
      | Some _ => partners_seed companyId rest partners
      | None =>
          match partners !! newPartnerId name with
          | Some _ => inl (KnownRequestError (P2002 ["id"]))
          | None =>
              partners_seed companyId rest
                (<[newPartnerId name :=
                     mkPartner companyId name None None isCustomer isVendor]> partners)
          end
      end
  end.

(** The company, journal and account part of [main]; [company.id] is
    the id the upsert was asked for. *)
Definition main_store : Tx unit :=
  (do company_upsert defaultCompanyId
        (mkCompany "Default Company" "USD" now invoiceNextNumberDefault) in
   do forEach (fun journal => do journal_upsert defaultCompanyId journal in ret tt)
        seedJournals in
   forEach (fun account => do account_upsert defaultCompanyId account in ret tt)
     seedAccounts)%tx.

(** [main()]: the database after the script, or what it threw. *)
Definition main (st : Store) (partners : gmap string Partner)
  : Exception + (Store * gmap string Partner) :=
  match main_store st with
  | inl e => inl e
  | inr (_, st') =>
      match partners_seed defaultCompanyId seedPartners partners with
      | inl e => inl e
      | inr partners' => inr (st', partners')
      end
  end.

End Seed.

(** ** Vocabulary of the further properties *)


(** No other invoice of the company holds the number; no other invoice
    is linked to the entry. *)
Definition invoiceNumberFree (self companyId num : string) (st : Store) : Prop :=
  forall k i,
    customerInvoices st !! k = Some i -> k <> self ->
    invoice_companyId i = companyId -> invoice_number i <> Some num.

Definition entryUnlinked (self entryId : string) (st : Store) : Prop :=
  forall k i,
    customerInvoices st !! k = Some i -> k <> self -> journalEntryId i <> Some entryId.

(** The stored line is what [createJournalEntry] makes of the submitted
    one: its account is the account of the company with the submitted
    code, its amounts are the submitted ones at two decimals. *)
Definition entryLineOf (companyId : string) (st : Store) (line : JsValue)
    (l : JournalLine) : Prop :=
  exists a,
    accounts st !! line_accountId l = Some a
    /\ account_companyId a = companyId
    /\ account_code a = stringOf (prop line "accountCode")
    /\ line_partnerId l = None
    /\ debit l = toDecimal2 (numberOf (prop line "debit"))
    /\ credit l = toDecimal2 (numberOf (prop line "credit")).

(** The same for a line of [createCustomerInvoice]: a positive
    quantity, a price that is not negative, the account of the company
    with the trimmed code, and every amount at two decimals. *)
Definition invoiceLineOf (trim : string -> string) (companyId : string) (st : Store)
    (line : JsValue) (l : InvoiceLine) : Prop :=
  exists a q p,
    prop line "quantity" = JsNumber q /\ prop line "unitPrice" = JsNumber p
    /\ (0 < q)%Qc /\ (0 <= p)%Qc
    /\ accounts st !! incomeAccountId l = Some a
    /\ account_companyId a = companyId
    /\ account_code a = trim (stringOf (prop line "incomeAccountCode"))
    /\ description l = trim (stringOf (prop line "description"))
    /\ quantity l = toDecimal2 q
    /\ unitPrice l = toDecimal2 p
    /\ lineTotal l = toDecimal2 (q * p).

(** [n] hundredths as a number, and the numbers that are a whole number
    of hundredths. *)
Definition cents (n : Z) : Qc := Q2Qc (n # 100).

Definition wholeCents (q : Qc) : Prop := exists n, q = cents n.

(** The product [quantity * unitPrice] of a submitted invoice line. *)
Definition lineProduct (line : JsValue) : Qc :=
  (numberOf (prop line "quantity") * numberOf (prop line "unitPrice"))%Qc.

(** What the partners table keeps: every partner is a customer or a
    vendor, and no two partners of one company share an e-mail
    address. *)
Definition partnersWellFormed (partners : gmap string Partner) : Prop :=
  (forall k p, partners !! k = Some p -> isCustomer p || isVendor p = true)
  /\ (forall k1 k2 p1 p2 email,
        partners !! k1 = Some p1 -> partners !! k2 = Some p2 ->
        partner_companyId p1 = partner_companyId p2 ->
        partner_email p1 = Some email -> partner_email p2 = Some email ->
        k1 = k2).

(** Every row of [st] is a row of [st'], unchanged. *)
Definition rowsKept (st st' : Store) : Prop :=
  subseteq (companies st) (companies st') /\ subseteq (accounts st) (accounts st')
  /\ subseteq (journals st) (journals st')
  /\ subseteq (journalEntries st) (journalEntries st')
  /\ subseteq (customerInvoices st) (customerInvoices st').

(** The company has a journal, an account, a partner of that code or
    name. *)
Definition hasJournal (companyId : string) (st : Store) (code : string) : Prop :=
  is_Some (journal_findUnique_companyId_code companyId code st).

Definition hasAccount (companyId : string) (st : Store) (code : string) : Prop :=
  is_Some (account_findUnique_companyId_code companyId code st).

Definition hasPartner (companyId : string) (partners : gmap string Partner)
    (name : string) : Prop :=
  is_Some (findFirst (fun p => String.eqb (partner_companyId p) companyId
                               && String.eqb (partner_name p) name) partners).

(** The string has no slash. *)
Fixpoint slashFree (s : string) : bool :=
  match s with
  | EmptyString => true
  | String c rest => negb (Ascii.eqb c "/") && slashFree rest
  end.

(** One request of any of the handlers that write to the store. *)
Inductive request : Store -> Store -> Prop :=
  | request_createAccount trim codeIndexTarget body newId st :
      request st (createAccount trim codeIndexTarget body newId st).2
  | request_createJournalEntry newDate setHoursZero coercedGtZero body newId st :
      request st (createJournalEntry newDate setHoursZero coercedGtZero body newId st).2
  | request_postJournalEntry id now st :
      request st (postJournalEntry id now st).2
  | request_createCustomerInvoice trim newDate errorMessage body newId partners st :
      request st (createCustomerInvoice trim newDate errorMessage body newId partners st).2
  | request_postCustomerInvoice id newEntryId now1 now2 st :
      request st (postCustomerInvoice id newEntryId now1 now2 st).2.

(** A draft entry carries no number and no posting time. *)
Definition draftsUnnumbered (st : Store) : Prop :=
  forall k e,
    journalEntries st !! k = Some e -> entry_status e = DRAFT ->
    entry_number e = None /\ entry_postedAt e = None.

(** An invoice that names a journal entry names a POSTED entry of its
    own company, dated as the invoice, whose debit and credit totals
    are the invoice total. *)
Definition invoicesLinked (st : Store) : Prop :=
  forall k i entryId,
    customerInvoices st !! k = Some i -> journalEntryId i = Some entryId ->
    exists e,
      journalEntries st !! entryId = Some e
      /\ entry_status e = POSTED
      /\ entry_companyId e = invoice_companyId i
      /\ entry_date e = invoiceDate i
      /\ sumDebit (journalLines e) = totalAmount i
      /\ sumCredit (journalLines e) = totalAmount i.

(** The counters of [st'] are those of [st] or later ones, on rows that
    otherwise kept their content. *)
Definition countersAdvanced (st st' : Store) : Prop :=
  (forall k j, journals st !! k = Some j ->
     exists n, journals st' !! k
               = Some (mkJournal (journal_companyId j) (journal_code j) (journal_name j)
                         (journal_type j) n)
               /\ nextNumber j <= n)
  /\ (forall k c, companies st !! k = Some c ->
     exists n, companies st' !! k
               = Some (mkCompany (company_name c) (company_baseCurrency c)
                         (company_createdAt c) n)
               /\ invoiceNextNumber c <= n).

(** What the transaction of [postCustomerInvoice] needs once the checks
    before it have passed. *)
Definition invoiceTransactionReady (id newEntryId : string) (i : CustomerInvoice)
    (st : Store) : Prop :=
  exists c,
    companies st !! invoice_companyId i = Some c
    /\ totalAmount i = sumOfLineTotals (invoice_lines i)
    /\ journalEntries st !! newEntryId = None
    /\ invoiceNumberFree id (invoice_companyId i) (postCustomerInvoice_number i c) st
    /\ entryUnlinked id newEntryId st
    /\ invoiceNextNumber c < INT_MAX.

(** ** Further sample data *)

Module Demo.

(** The seeded store with the total of the draft invoice altered after
    its creation. *)
Definition alteredInvoice : CustomerInvoice :=
  mkCustomerInvoice Sample.cid "p1" Sample.jan1 None None InvoiceStatus.DRAFT None
    "USD" 12000 None None [mkInvoiceLine "Widget" 200 5000 10000 "a4000"].

Definition altered : Store :=
  mkStore (companies Sample.seed) (accounts Sample.seed) (journals Sample.seed)
    (journalEntries Sample.seed) (list_to_map [("i1", alteredInvoice)]).

(** [s.trim()] on strings whose white space is ASCII. *)
Definition isSpace (c : ascii) : bool :=
  let n := nat_of_ascii c in
  (n =? 32)%nat || ((9 <=? n)%nat && (n <=? 13)%nat).

Fixpoint trimStart (s : string) : string :=
  match s with
  | String c rest => if isSpace c then trimStart rest else s
  | EmptyString => EmptyString
  end.

Fixpoint trimEnd (s : string) : string :=
  match s with
  | String c rest =>
      match trimEnd rest with
      | EmptyString => if isSpace c then EmptyString else String c EmptyString
      | kept => String c kept
      end
  | EmptyString => EmptyString
  end.

Definition trim (s : string) : string := trimEnd (trimStart s).

Definition errorMessage (e : Exception) : string := "Invalid invocation".

Definition partners : gmap string Partner :=
  {[ "p1" := mkPartner Sample.cid "Walk-in Customer" None None true false ]}.

Definition amount (n d : Z) : JsValue := JsNumber (Q2Qc (n # Z.to_pos d)).

Definition invoiceLine (description : string) (quantity unitPrice : JsValue)
    (code : string) : JsValue :=
  JsObject [("description", JsString description); ("quantity", quantity);
            ("unitPrice", unitPrice); ("incomeAccountCode", JsString code)].

Definition invoiceBody (lines : list JsValue) : JsValue :=
  JsObject [("partnerId", JsString " p1 "); ("invoiceDate", JsString "2026-01-01");
            ("memo", JsString "  March order "); ("lines", JsArray lines)].

(** Three hours at 12.50 and one licence at 99.99. *)
Definition orderBody : JsValue :=
  invoiceBody [invoiceLine " Hours " (amount 3 1) (amount 25 2) "4000";
               invoiceLine "Licence" (amount 1 1) (amount 9999 100) " 4000 "].

Definition createInvoice :=
  createCustomerInvoice trim Sample.newDate errorMessage.

(** The seeded store after four requests: the sample entry is posted,
    the sample invoice is posted, an invoice is created, and it is
    posted. *)
Definition st1 : Store := Sample.afterEntry.
Definition st2 : Store := (postCustomerInvoice "i1" "e3" Sample.jan2 Sample.jan2 st1).2.
Definition st3 : Store := (createInvoice orderBody "i2" partners st2).2.
Definition st4 : Store := (postCustomerInvoice "i2" "e5" Sample.jan2 Sample.jan2 st3).2.

(** A balanced entry on two accounts of the chart, and one that names
    two codes the chart does not have. *)
Definition createEntry :=
  createJournalEntry Sample.newDate Sample.setHoursZero Sample.coercedGtZero.

Definition entryBody : JsValue :=
  Sample.body [Sample.line "1000" 100 0; Sample.line "4000" 0 100].

Definition strangerBody : JsValue :=
  Sample.body [Sample.line "1000" 100 0; Sample.line "9999" 0 60;
               Sample.line "8888" 0 40].

(** PostgreSQL's client names the columns of the violated index. *)
Definition codeIndexTarget : list string := ["companyId"; "code"].

Definition accountBody (code name type : string) : JsValue :=
  JsObject [("code", JsString code); ("name", JsString name); ("type", JsString type)].

Definition newAccount := createAccount trim codeIndexTarget.

(** A chart of accounts built from nothing by three requests, the
    second of them for a code that is taken. *)
Definition emptyChart : Store := setAccounts empty Sample.seed.
Definition chart1 : Store := (newAccount (accountBody " 1000 " "Cash" "ASSET") "a1" emptyChart).2.
Definition chart2 : Store := (newAccount (accountBody "1000" "Petty cash" "ASSET") "a2" chart1).2.
Definition chart3 : Store := (newAccount (accountBody "4000" "Sales" "INCOME") "a3" chart2).2.

(** Two lines of one unit at half a cent. *)
Definition halfCentBody : JsValue :=
  invoiceBody [invoiceLine "Sample" (amount 1 1) (amount 1 200) "4000";
               invoiceLine "Sample" (amount 1 1) (amount 1 200) "4000"].

(** A test of the e-mail pattern that is enough for the sample
    addresses: exactly one at sign, and a dot after it. *)
Definition emailRegexTest (s : string) : bool :=
  match String.index 0 "@" s with
  | Some at_ =>
      match String.index (S at_) "." s with
      | Some _ => true
      | None => false
      end
  | None => false
  end.

Definition partnerBody (name email : string) : JsValue :=
  JsObject [("name", JsString name); ("email", JsString email)].

Definition newPartner := createPartner trim emailRegexTest ["companyId"; "email"].

Definition partners2 : gmap string Partner :=
  (newPartner (partnerBody " Acme Ltd " " billing@acme.example ") "p2" partners
     Sample.seed).2.

(** The seed script on a database without rows. *)
Definition blank : Store := mkStore empty empty empty empty empty.

Definition seeded : Store * gmap string Partner :=
  match main 0 1 (String.append "j") (String.append "a") (String.append "p")
          blank empty with
  | inr database => database
  | inl _ => (blank, empty)
  end.

End Demo.

(** ** Auxiliary facts *)

Section Tables.
Context {A : Type}.
Implicit Types (p : A -> bool) (table : gmap string A).

Lemma findFirst_Some p table k v :
  findFirst p table = Some (k, v) -> table !! k = Some v /\ p v = true.
Proof.
  unfold findFirst. intros H.
  apply find_some in H as [Hin Hp].
  split; [|exact Hp].
  apply elem_of_map_to_list. apply list_elem_of_In. exact Hin.
Qed.

Lemma findFirst_None p table :
  findFirst p table = None -> forall k v, table !! k = Some v -> p v = false.
Proof.
  unfold findFirst. intros H k v Hkv.
  apply (find_none _ _ H (k, v)).
  apply list_elem_of_In. apply elem_of_map_to_list. exact Hkv.
Qed.

Lemma findFirst_is_Some p table k v :
  table !! k = Some v -> p v = true -> is_Some (findFirst p table).
Proof.
  intros Hkv Hp. destruct (findFirst p table) eqn:E; [eauto|].
  rewrite (findFirst_None _ _ E _ _ Hkv) in Hp. discriminate.
Qed.
End Tables.

Lemma totalsOf_from (lines : list JournalLine) (d c : Decimal) :
  fold_left (fun totals line => (totals.1 + debit line, totals.2 + credit line))
    lines (d, c)
  = (d + sumDebit lines, c + sumCredit lines).
Proof.
  revert d c. induction lines as [|l lines IH]; intros d c; simpl.
  - f_equal; lia.
  - rewrite IH. simpl. f_equal; lia.
Qed.

Lemma totalsOf_sums (lines : list JournalLine) :
  totalsOf lines = (sumDebit lines, sumCredit lines).
Proof. unfold totalsOf. rewrite totalsOf_from. reflexivity. Qed.

Lemma sumLineTotals_from (lines : list InvoiceLine) (z : Decimal) :
  fold_left (fun sum line => sum + lineTotal line) lines z = z + sumOfLineTotals lines.
Proof.
  revert z. induction lines as [|l lines IH]; intros z; simpl; [lia|].
  rewrite IH. lia.
Qed.

Lemma sumLineTotals_sum (lines : list InvoiceLine) :
  sumLineTotals lines = sumOfLineTotals lines.
Proof. unfold sumLineTotals. rewrite sumLineTotals_from. lia. Qed.

(** The entry an invoice produces carries the invoice total on the debit
    side and the sum of the line totals on the credit side. *)
Lemma invoiceJournalLines_sums arAccountId invoice invoiceNumber :
  sumDebit (invoiceJournalLines arAccountId invoice invoiceNumber) = totalAmount invoice
  /\ sumCredit (invoiceJournalLines arAccountId invoice invoiceNumber)
     = sumOfLineTotals (invoice_lines invoice).
Proof.
  unfold invoiceJournalLines. simpl.
  generalize (invoice_partnerId invoice) as partner. intros partner.
  induction (invoice_lines invoice) as [|l ls [IHd IHc]]; simpl.
  - split; lia.
  - split; lia.
Qed.

(** *** What a call of [postJournalEntry] can do *)

Lemma postJournalEntry_cases id now st :
  (status (postJournalEntry id now st).1 <> 200 /\ (postJournalEntry id now st).2 = st)
  \/ exists e j,
       id <> EmptyString
       /\ journalEntries st !! id = Some e
       /\ entry_status e = DRAFT
       /\ (2 <= length (journalLines e))%nat
       /\ balanced e
       /\ journals st !! entry_journalId e = Some j
       /\ nextNumber j + 1 <= INT_MAX
       /\ entryNumberTaken id (entry_companyId e) (postJournalEntry_number e j) st = false
       /\ postJournalEntry id now st
          = (mkResponse 200 (EntryJson id (postedEntry e (postJournalEntry_number e j) now)),
             mkStore (companies st) (accounts st)
               (<[entry_journalId e := advancedJournal j]> (journals st))
               (<[id := postedEntry e (postJournalEntry_number e j) now]> (journalEntries st))
               (customerInvoices st)).
Proof.
  unfold postJournalEntry.
  destruct (String.eqb id EmptyString) eqn:Hid; [left; split; [simpl; discriminate|reflexivity]|].
  destruct (journalEntries st !! id) as [e|] eqn:He; [|left; split; [simpl; discriminate|reflexivity]].
  destruct (entry_status e) eqn:Hs; [|left; split; [simpl; discriminate|reflexivity]].
  destruct (length (journalLines e) <? 2)%nat eqn:Hlen; [left; split; [simpl; discriminate|reflexivity]|].
  rewrite totalsOf_sums.
  destruct (sumDebit (journalLines e) =? sumCredit (journalLines e)) eqn:Hbal; simpl;
    [|left; split; [simpl; discriminate|reflexivity]].
  unfold transaction, postJournalEntry_tx, bind, journal_findUniqueOrThrow.
  destruct (journals st !! entry_journalId e) as [j|] eqn:Hj;
    [|left; split; [simpl; discriminate|reflexivity]].
  unfold journalEntry_update_posted. rewrite He.
  destruct (entryNumberTaken id (entry_companyId e) _ st) eqn:Htaken.
  { left; split; [simpl; discriminate|reflexivity]. }
  unfold journal_update_increment. simpl. rewrite Hj.
  destruct (INT_MAX <? nextNumber j + 1) eqn:Hmax.
  { left; split; [simpl; discriminate|reflexivity]. }
  right. exists e, j.
  apply String.eqb_neq in Hid. apply Nat.ltb_ge in Hlen.
  apply Z.eqb_eq in Hbal. apply Z.ltb_ge in Hmax.
  repeat split; try assumption.
Qed.

(** *** What a call of [postCustomerInvoice] can do *)

Lemma invoiceNumberTaken_setJournalEntries self companyId num es st :
  invoiceNumberTaken self companyId num (setJournalEntries es st)
  = invoiceNumberTaken self companyId num st.
Proof. reflexivity. Qed.

Lemma invoiceEntryLinked_setJournalEntries self entryId es st :
  invoiceEntryLinked self entryId (setJournalEntries es st)
  = invoiceEntryLinked self entryId st.
Proof. reflexivity. Qed.

Ltac request_failed :=
  left; split; [simpl; repeat case_match; simpl; discriminate
               | simpl; repeat case_match; reflexivity].

Lemma postCustomerInvoice_cases id newEntryId now1 now2 st :
  (status (postCustomerInvoice id newEntryId now1 now2 st).1 <> 200
   /\ (postCustomerInvoice id newEntryId now1 now2 st).2 = st)
  \/ exists i c salesJournalId salesJournal arAccountId arAccount,
       customerInvoices st !! id = Some i
       /\ invoice_status i = InvoiceStatus.DRAFT
       /\ invoice_lines i <> []
       /\ 0 < totalAmount i
       /\ journal_findUnique_companyId_code (invoice_companyId i) "SAL" st
          = Some (salesJournalId, salesJournal)
       /\ findAccountsReceivableAccount (invoice_companyId i) st
          = Some (arAccountId, arAccount)
       /\ companies st !! invoice_companyId i = Some c
       /\ totalAmount i = sumOfLineTotals (invoice_lines i)
       /\ journalEntries st !! newEntryId = None
       /\ invoiceNumberTaken id (invoice_companyId i) (postCustomerInvoice_number i c) st = false
       /\ invoiceEntryLinked id newEntryId st = false
       /\ invoiceNextNumber c + 1 <= INT_MAX
       /\ postCustomerInvoice id newEntryId now1 now2 st
          = (mkResponse 200
               (InvoiceJson id
                  (postedInvoice i (postCustomerInvoice_number i c) now2 newEntryId)
                  newEntryId None),
             mkStore
               (<[invoice_companyId i := advancedCompany c]> (companies st))
               (accounts st) (journals st)
               (<[newEntryId := invoiceEntry i salesJournalId arAccountId
                                  (postCustomerInvoice_number i c) now1]>
                  (journalEntries st))
               (<[id := postedInvoice i (postCustomerInvoice_number i c) now2 newEntryId]>
                  (customerInvoices st))).
Proof.
  unfold postCustomerInvoice.
  destruct (customerInvoices st !! id) as [i|] eqn:Hi; [|request_failed].
  destruct (invoice_status i) eqn:Hs; try request_failed.
  destruct (length (invoice_lines i) =? 0)%nat eqn:Hlen; [request_failed|].
  destruct (totalAmount i <=? 0) eqn:Htot; [request_failed|].
  destruct (journal_findUnique_companyId_code (invoice_companyId i) "SAL" st)
    as [[salesJournalId salesJournal]|] eqn:Hsal; [|request_failed].
  destruct (findAccountsReceivableAccount (invoice_companyId i) st)
    as [[arAccountId arAccount]|] eqn:Har; [|request_failed].
  unfold transaction, postCustomerInvoice_tx, bind, company_findUniqueOrThrow.
  destruct (companies st !! invoice_companyId i) as [c|] eqn:Hc; [|request_failed].
  rewrite sumLineTotals_sum.
  destruct (totalAmount i =? sumOfLineTotals (invoice_lines i)) eqn:Hbal; simpl;
    [|unfold throw; request_failed].
  unfold journalEntry_create.
  destruct (journalEntries st !! newEntryId) eqn:Hnew; [request_failed|].
  simpl. unfold customerInvoice_update_posted. simpl. rewrite Hi.
  fold (postCustomerInvoice_number i c).
  rewrite invoiceNumberTaken_setJournalEntries, invoiceEntryLinked_setJournalEntries.
  destruct (invoiceNumberTaken id (invoice_companyId i) (postCustomerInvoice_number i c) st)
    eqn:Htaken; [request_failed|].
  destruct (invoiceEntryLinked id newEntryId st) eqn:Hlinked; [request_failed|].
  unfold company_update_increment. simpl. rewrite Hc.
  destruct (INT_MAX <? invoiceNextNumber c + 1) eqn:Hmax; [request_failed|].
  right. exists i, c, salesJournalId, salesJournal, arAccountId, arAccount.
  apply Z.leb_gt in Htot. apply Z.eqb_eq in Hbal. apply Z.ltb_ge in Hmax.
  assert (invoice_lines i <> []) by (destruct (invoice_lines i); [discriminate | congruence]).
  repeat split; try assumption.
Qed.

(** *** What a call of [createJournalEntry] can do *)

Section CreateJournalEntryFacts.
Variable newDate : string -> option JsDate.
Variable setHoursZero : JsDate -> JsDate.
Variable coercedGtZero : JsValue -> bool.

Lemma createJournalEntry_persist_cases body newId st response st' :
  createJournalEntry_persist newDate setHoursZero body newId st = inr (response, st') ->
  (status response <> 201 /\ st' = st)
  \/ exists e,
       journalEntries st !! newId = None
       /\ entry_status e = DRAFT
       /\ entry_number e = None
       /\ entry_postedAt e = None
       /\ response = mkResponse 201 (EntryJson newId e)
       /\ st' = setJournalEntries (<[newId := e]> (journalEntries st)) st.
Proof.
  unfold createJournalEntry_persist, journalEntry_create, resolveCompanyId.
  intros H. repeat case_match; simplify_eq;
    first [ left; split; [simpl; discriminate | reflexivity]
          | right; eexists; repeat split; simpl; try reflexivity; assumption ].
Qed.

Lemma createJournalEntry_cases body newId st :
  (status (createJournalEntry newDate setHoursZero coercedGtZero body newId st).1 <> 201
   /\ (createJournalEntry newDate setHoursZero coercedGtZero body newId st).2 = st)
  \/ exists e,
       validationErrors newDate coercedGtZero body = Some []
       /\ journalEntries st !! newId = None
       /\ entry_status e = DRAFT
       /\ entry_number e = None
       /\ entry_postedAt e = None
       /\ createJournalEntry newDate setHoursZero coercedGtZero body newId st
          = (mkResponse 201 (EntryJson newId e),
             setJournalEntries (<[newId := e]> (journalEntries st)) st).
Proof.
  unfold createJournalEntry.
  destruct (validationErrors newDate coercedGtZero body) as [[|err errs]|] eqn:Hv.
  2,3: left; split; destruct body; simpl; try discriminate; reflexivity.
  destruct (createJournalEntry_persist newDate setHoursZero body newId st)
    as [exn|[response st']] eqn:Hp.
  { left; split; destruct body; simpl; try discriminate; reflexivity. }
  apply createJournalEntry_persist_cases in Hp
    as [[Hstatus ->]|(e & Hnew & Hs & Hn & Hp' & -> & ->)].
  - left; split; destruct body; simpl; try discriminate; try reflexivity; exact Hstatus.
  - destruct body;
      [left; split; simpl; [discriminate|reflexivity]
      |left; split; simpl; [discriminate|reflexivity]|..];
      right; exists e; repeat split; assumption.
Qed.

End CreateJournalEntryFacts.

(** ** Properties of the posting engine *)

(** *** Frame of [postJournalEntry] *)

(** C10.  A successful [postJournalEntry] writes the entry's [number],
    [status] and [postedAt] and adds one to the parent journal's
    [nextNumber]; the entry's company, journal, date, memo and lines,
    every other entry, every other journal, and the companies, accounts
    and invoices are as before. *)
Theorem postJournalEntry_frame id now st response st' :
  postJournalEntry id now st = (response, st') ->
  succeeded response ->
  exists e j num,
    journalEntries st !! id = Some e
    /\ journals st !! entry_journalId e = Some j
    /\ journalEntries st'
       = <[id := mkJournalEntry (entry_companyId e) (entry_journalId e) (entry_date e)
                   (Some num) POSTED (entry_memo e) (Some now) (journalLines e)]>
           (journalEntries st)
    /\ journals st'
       = <[entry_journalId e := mkJournal (journal_companyId j) (journal_code j)
                                   (journal_name j) (journal_type j) (nextNumber j + 1)]>
           (journals st)
    /\ (forall k, k <> id -> journalEntries st' !! k = journalEntries st !! k)
    /\ (forall k, k <> entry_journalId e -> journals st' !! k = journals st !! k)
    /\ companies st' = companies st
    /\ accounts st' = accounts st
    /\ customerInvoices st' = customerInvoices st.
Proof.
  intros Hpost Hok.
  destruct (postJournalEntry_cases id now st)
    as [[Hfail _]|(e & j & _ & He & _ & _ & _ & Hj & _ & _ & Heq)].
  - rewrite Hpost in Hfail. contradiction.
  - rewrite Hpost in Heq. injection Heq as -> ->.
    exists e, j, (postJournalEntry_number e j). simpl.
    repeat split; try assumption.
    + intros k Hk. apply lookup_insert_ne. congruence.
    + intros k Hk. apply lookup_insert_ne. congruence.
Qed.

Lemma postJournalEntry_frame_witness :
  exists e j num,
    journalEntries Sample.seed !! "e1" = Some e
    /\ journals Sample.seed !! entry_journalId e = Some j
    /\ journalEntries Sample.afterEntry
       = <[ "e1" := mkJournalEntry (entry_companyId e) (entry_journalId e) (entry_date e)
                      (Some num) POSTED (entry_memo e) (Some Sample.jan2) (journalLines e)]>
           (journalEntries Sample.seed)
    /\ journals Sample.afterEntry
       = <[entry_journalId e := mkJournal (journal_companyId j) (journal_code j)
                                   (journal_name j) (journal_type j) (nextNumber j + 1)]>
           (journals Sample.seed)
    /\ (forall k, k <> "e1" ->
        journalEntries Sample.afterEntry !! k = journalEntries Sample.seed !! k)
    /\ (forall k, k <> entry_journalId e ->
        journals Sample.afterEntry !! k = journals Sample.seed !! k)
    /\ companies Sample.afterEntry = companies Sample.seed
    /\ accounts Sample.afterEntry = accounts Sample.seed
    /\ customerInvoices Sample.afterEntry = customerInvoices Sample.seed.
Proof.
  apply (postJournalEntry_frame "e1" Sample.jan2 Sample.seed
           (postJournalEntry "e1" Sample.jan2 Sample.seed).1).
  - unfold Sample.afterEntry.
    destruct (postJournalEntry "e1" Sample.jan2 Sample.seed). reflexivity.
  - vm_compute. reflexivity.
Defined.

(** *** Failure leaves the store as it was *)

(** C6.  A post request that is not answered with success, whatever the
    reason, returns the store it was given: the document is still the
    DRAFT without number it was, no counter moved, no entry or line was
    added. *)
Theorem failed_post_changes_nothing :
  (forall id now st,
      ~ succeeded (postJournalEntry id now st).1 ->
      (postJournalEntry id now st).2 = st)
  /\ (forall id newEntryId now1 now2 st,
      ~ succeeded (postCustomerInvoice id newEntryId now1 now2 st).1 ->
      (postCustomerInvoice id newEntryId now1 now2 st).2 = st).
Proof.
  split.
  - intros id now st Hfail.
    destruct (postJournalEntry_cases id now st) as [[_ Hst]|(e & j & H)]; [exact Hst|].
    destruct H as (_ & _ & _ & _ & _ & _ & _ & _ & Heq).
    rewrite Heq in Hfail. exfalso. apply Hfail. reflexivity.
  - intros id newEntryId now1 now2 st Hfail.
    destruct (postCustomerInvoice_cases id newEntryId now1 now2 st)
      as [[_ Hst]|(i & c & sj & j & ar & a & H)]; [exact Hst|].
    destruct H as (_ & _ & _ & _ & _ & _ & _ & _ & _ & _ & _ & _ & Heq).
    rewrite Heq in Hfail. exfalso. apply Hfail. reflexivity.
Qed.

Lemma failed_post_changes_nothing_witness :
  (postJournalEntry "e2" Sample.jan2 Sample.seed).2 = Sample.seed
  /\ (postCustomerInvoice "i1" "e1" Sample.jan2 Sample.jan2 Sample.seed).2 = Sample.seed.
Proof.
  split.
  - apply (proj1 failed_post_changes_nothing). vm_compute. discriminate.
  - apply (proj2 failed_post_changes_nothing). vm_compute. discriminate.
Defined.

(** *** Posting a document that is not a draft *)

(** C5 (as the controllers implement it).  Posting a journal entry whose
    status is not DRAFT is answered 409 Conflict, posting a customer
    invoice whose status is not DRAFT is answered 400 Bad Request; both
    messages report the current status, and the store is returned as it
    was. *)
Theorem post_non_draft_rejected :
  (forall id now st e,
      id <> EmptyString ->
      journalEntries st !! id = Some e ->
      entry_status e <> DRAFT ->
      postJournalEntry id now st
      = (mkResponse 409
           (ErrorJson ("Journal entry is already posted (status: "
                       ++ EntryStatus_toString (entry_status e) ++ ")")),
         st))
  /\ (forall id newEntryId now1 now2 st i,
      customerInvoices st !! id = Some i ->
      invoice_status i <> InvoiceStatus.DRAFT ->
      postCustomerInvoice id newEntryId now1 now2 st
      = (mkResponse 400
           (ErrorJson ("Invoice cannot be posted. Current status: "
                       ++ InvoiceStatus_toString (invoice_status i)
                       ++ ". Only DRAFT invoices can be posted.")),
         st)).
Proof.
  split.
  - intros id now st e Hid He Hs. unfold postJournalEntry.
    apply String.eqb_neq in Hid. rewrite Hid, He.
    destruct (entry_status e); [contradiction|reflexivity].
  - intros id newEntryId now1 now2 st i Hi Hs. unfold postCustomerInvoice.
    rewrite Hi. destruct (invoice_status i); [contradiction|reflexivity..].
Qed.

Lemma post_non_draft_rejected_witness :
  postJournalEntry "e1" Sample.jan2 Sample.afterEntry
  = (mkResponse 409 (ErrorJson "Journal entry is already posted (status: POSTED)"),
     Sample.afterEntry)
  /\ postCustomerInvoice "i1" "e4" Sample.jan2 Sample.jan2 Sample.afterInvoice
     = (mkResponse 400
          (ErrorJson "Invoice cannot be posted. Current status: POSTED. Only DRAFT invoices can be posted."),
        Sample.afterInvoice).
Proof.
  split.
  - apply (proj1 post_non_draft_rejected "e1" Sample.jan2 Sample.afterEntry
             (postedEntry Sample.draftEntry "GEN/2026/0001" Sample.jan2)).
    + discriminate.
    + vm_compute. reflexivity.
    + simpl. discriminate.
  - apply (proj2 post_non_draft_rejected "i1" "e4" Sample.jan2 Sample.jan2
             Sample.afterInvoice
             (postedInvoice Sample.draftInvoice "INV/2026/0001" Sample.jan2 "e3")).
    + vm_compute. reflexivity.
    + simpl. discriminate.
Defined.

(** C5 as stated fails for invoices: posting the already POSTED sample
    invoice is answered 400, not 409 Conflict. *)
Lemma posted_invoice_not_conflict :
  (exists i, customerInvoices Sample.afterInvoice !! "i1" = Some i
             /\ invoice_status i = InvoiceStatus.POSTED)
  /\ status (postCustomerInvoice "i1" "e4" Sample.jan2 Sample.jan2 Sample.afterInvoice).1 = 400
  /\ status (postCustomerInvoice "i1" "e4" Sample.jan2 Sample.jan2 Sample.afterInvoice).1 <> 409.
Proof.
  split; [|split].
  - eexists. split; [vm_compute; reflexivity|reflexivity].
  - vm_compute. reflexivity.
  - vm_compute. discriminate.
Qed.

(** *** Document numbers *)

Lemma paddedSequence_four_digits n :
  0 <= n < 10000 ->
  String.length (paddedSequence n) = 4%nat
  /\ allDigits (paddedSequence n) = true
  /\ digitsValue (paddedSequence n) = Some n.
Proof.
  intros Hn.
  assert (Hall : forallb fourDigitsOf (List.map Z.of_nat (seq 0 (Z.to_nat 10000))) = true)
    by (vm_compute; reflexivity).
  rewrite forallb_forall in Hall.
  specialize (Hall n).
  assert (Hin : In n (List.map Z.of_nat (seq 0 (Z.to_nat 10000)))).
  { apply in_map_iff. exists (Z.to_nat n). split; [lia|]. apply in_seq. lia. }
  apply Hall in Hin. unfold fourDigitsOf in Hin.
  apply andb_prop in Hin as [Hin Hval]. apply andb_prop in Hin as [Hlen Hdig].
  apply Nat.eqb_eq in Hlen.
  destruct (digitsValue (paddedSequence n)) as [v|]; [|discriminate].
  apply Z.eqb_eq in Hval. subst v. auto.
Qed.

(** C7.  A successful post gives the document the number
    PREFIX/YEAR/NNNN, where PREFIX is the journal's code for an entry and
    INV for an invoice, YEAR is the year of the document's own date, and
    NNNN is the scope counter as it was, left-padded with zeros to four
    digits; the same request leaves the counter one higher.  With the
    counter at 1 the sequence part is 0001. *)
Theorem post_allocates_formatted_number :
  (forall id now st response st',
      postJournalEntry id now st = (response, st') ->
      succeeded response ->
      exists e j e' j',
        journalEntries st !! id = Some e
        /\ journals st !! entry_journalId e = Some j
        /\ journalEntries st' !! id = Some e'
        /\ journals st' !! entry_journalId e = Some j'
        /\ entry_number e'
           = Some (journal_code j ++ "/" ++ numberToString (getFullYear (entry_date e))
                   ++ "/" ++ paddedSequence (nextNumber j))
        /\ nextNumber j' = nextNumber j + 1)
  /\ (forall id newEntryId now1 now2 st response st',
      postCustomerInvoice id newEntryId now1 now2 st = (response, st') ->
      succeeded response ->
      exists i c i' c',
        customerInvoices st !! id = Some i
        /\ companies st !! invoice_companyId i = Some c
        /\ customerInvoices st' !! id = Some i'
        /\ companies st' !! invoice_companyId i = Some c'
        /\ invoice_number i'
           = Some ("INV/" ++ numberToString (getFullYear (invoiceDate i))
                   ++ "/" ++ paddedSequence (invoiceNextNumber c))
        /\ invoiceNextNumber c' = invoiceNextNumber c + 1)
  /\ (forall n, 0 <= n < 10000 ->
      String.length (paddedSequence n) = 4%nat
      /\ allDigits (paddedSequence n) = true
      /\ digitsValue (paddedSequence n) = Some n)
  /\ paddedSequence 1 = "0001".
Proof.
  split; [|split; [|split]].
  - intros id now st response st' Hpost Hok.
    destruct (postJournalEntry_cases id now st)
      as [[Hfail _]|(e & j & _ & He & _ & _ & _ & Hj & _ & _ & Heq)].
    { rewrite Hpost in Hfail. contradiction. }
    rewrite Hpost in Heq. injection Heq as -> ->.
    exists e, j, (postedEntry e (postJournalEntry_number e j) now), (advancedJournal j).
    simpl. rewrite !lookup_insert_eq. repeat split; try assumption; reflexivity.
  - intros id newEntryId now1 now2 st response st' Hpost Hok.
    destruct (postCustomerInvoice_cases id newEntryId now1 now2 st)
      as [[Hfail _]|(i & c & sj & j & ar & a & H)].
    { rewrite Hpost in Hfail. contradiction. }
    destruct H as (Hi & _ & _ & _ & _ & _ & Hc & _ & _ & _ & _ & _ & Heq).
    rewrite Hpost in Heq. injection Heq as -> ->.
    exists i, c, (postedInvoice i (postCustomerInvoice_number i c) now2 newEntryId),
      (advancedCompany c).
    simpl. rewrite !lookup_insert_eq. repeat split; try assumption; reflexivity.
  - exact paddedSequence_four_digits.
  - reflexivity.
Qed.

Lemma post_allocates_formatted_number_witness :
  (exists e j e' j',
      journalEntries Sample.seed !! "e1" = Some e
      /\ journals Sample.seed !! entry_journalId e = Some j
      /\ journalEntries Sample.afterEntry !! "e1" = Some e'
      /\ journals Sample.afterEntry !! entry_journalId e = Some j'
      /\ entry_number e'
         = Some (journal_code j ++ "/" ++ numberToString (getFullYear (entry_date e))
                 ++ "/" ++ paddedSequence (nextNumber j))
      /\ nextNumber j' = nextNumber j + 1)
  /\ (exists i c i' c',
      customerInvoices Sample.seed !! "i1" = Some i
      /\ companies Sample.seed !! invoice_companyId i = Some c
      /\ customerInvoices Sample.afterInvoice !! "i1" = Some i'
      /\ companies Sample.afterInvoice !! invoice_companyId i = Some c'
      /\ invoice_number i'
         = Some ("INV/" ++ numberToString (getFullYear (invoiceDate i))
                 ++ "/" ++ paddedSequence (invoiceNextNumber c))
      /\ invoiceNextNumber c' = invoiceNextNumber c + 1)
  /\ (String.length (paddedSequence 42) = 4%nat
      /\ allDigits (paddedSequence 42) = true
      /\ digitsValue (paddedSequence 42) = Some 42).
Proof.
  split; [|split].
  - apply (proj1 post_allocates_formatted_number "e1" Sample.jan2 Sample.seed
             (postJournalEntry "e1" Sample.jan2 Sample.seed).1).
    + unfold Sample.afterEntry.
      destruct (postJournalEntry "e1" Sample.jan2 Sample.seed). reflexivity.
    + vm_compute. reflexivity.
  - apply (proj1 (proj2 post_allocates_formatted_number) "i1" "e3" Sample.jan2
             Sample.jan2 Sample.seed
             (postCustomerInvoice "i1" "e3" Sample.jan2 Sample.jan2 Sample.seed).1).
    + unfold Sample.afterInvoice.
      destruct (postCustomerInvoice "i1" "e3" Sample.jan2 Sample.jan2 Sample.seed).
      reflexivity.
    + vm_compute. reflexivity.
  - apply (proj1 (proj2 (proj2 post_allocates_formatted_number))). lia.
Defined.

(** The scenario of the specification: the first post in the seeded
    General journal is numbered GEN/2026/0001, the first invoice
    INV/2026/0001. *)
Example first_numbers :
  (exists e, journalEntries Sample.afterEntry !! "e1" = Some e
             /\ entry_number e = Some "GEN/2026/0001" /\ entry_status e = POSTED)
  /\ (exists i, customerInvoices Sample.afterInvoice !! "i1" = Some i
                /\ invoice_number i = Some "INV/2026/0001").
Proof.
  split; eexists; (split; [vm_compute; reflexivity|]); simpl; auto.
Qed.

(** *** Balance *)

Lemma step_cases st st' :
  step st st' ->
  st' = st
  \/ (exists newId e,
         entry_status e = DRAFT /\ entry_number e = None
         /\ journalEntries st !! newId = None
         /\ st' = setJournalEntries (<[newId := e]> (journalEntries st)) st)
  \/ (exists id e j now,
         journalEntries st !! id = Some e /\ entry_status e = DRAFT /\ balanced e
         /\ journals st !! entry_journalId e = Some j
         /\ journalEntries st'
            = <[id := postedEntry e (postJournalEntry_number e j) now]> (journalEntries st))
  \/ (exists id i c newEntryId salesJournalId arAccountId now,
         customerInvoices st !! id = Some i
         /\ totalAmount i = sumOfLineTotals (invoice_lines i)
         /\ journalEntries st !! newEntryId = None
         /\ journalEntries st'
            = <[newEntryId := invoiceEntry i salesJournalId arAccountId
                                (postCustomerInvoice_number i c) now]>
                (journalEntries st)).
Proof.
  intros [newDate setHoursZero coercedGtZero body newId s|id now s|id newEntryId now1 now2 s].
  - destruct (createJournalEntry_cases newDate setHoursZero coercedGtZero body newId s)
      as [[_ Hst]|(e & _ & Hnew & Hs & Hn & _ & Heq)]; [left; exact Hst|].
    right; left. exists newId, e. rewrite Heq. auto.
  - destruct (postJournalEntry_cases id now s)
      as [[_ Hst]|(e & j & _ & He & Hs & _ & Hbal & Hj & _ & _ & Heq)]; [left; exact Hst|].
    right; right; left. exists id, e, j, now. rewrite Heq. auto.
  - destruct (postCustomerInvoice_cases id newEntryId now1 now2 s)
      as [[_ Hst]|(i & c & sj & j & ar & a & H)]; [left; exact Hst|].
    destruct H as (Hi & _ & _ & _ & _ & _ & _ & Hbal & Hnew & _ & _ & _ & Heq).
    right; right; right. exists id, i, c, newEntryId, sj, ar, now1. rewrite Heq. auto.
Qed.

Lemma newly_posted_balanced st st' k e' :
  step st st' ->
  journalEntries st' !! k = Some e' ->
  entry_status e' = POSTED ->
  (forall e, journalEntries st !! k = Some e -> entry_status e <> POSTED) ->
  balanced e'.
Proof.
  intros Hstep Hk Hposted Hbefore.
  destruct (step_cases st st' Hstep)
    as [->|[(newId & e & Hs & _ & _ & ->)
           |[(id & e & j & now & He & _ & Hbal & _ & Hes)
            |(id & i & c & newEntryId & sj & ar & now & _ & Hbal & _ & Hes)]]].
  - exfalso. exact (Hbefore e' Hk Hposted).
  - simpl in Hk. destruct (decide (newId = k)) as [->|Hne].
    + rewrite lookup_insert_eq in Hk. injection Hk as <-. congruence.
    + rewrite lookup_insert_ne in Hk by exact Hne.
      exfalso. exact (Hbefore e' Hk Hposted).
  - rewrite Hes in Hk. destruct (decide (id = k)) as [->|Hne].
    + rewrite lookup_insert_eq in Hk. injection Hk as <-. exact Hbal.
    + rewrite lookup_insert_ne in Hk by exact Hne.
      exfalso. exact (Hbefore e' Hk Hposted).
  - rewrite Hes in Hk. destruct (decide (newEntryId = k)) as [->|Hne].
    + rewrite lookup_insert_eq in Hk. injection Hk as <-.
      unfold balanced, invoiceEntry. cbn [journalLines].
      destruct (invoiceJournalLines_sums ar i (postCustomerInvoice_number i c))
        as [-> ->]. exact Hbal.
    + rewrite lookup_insert_ne in Hk by exact Hne.
      exfalso. exact (Hbefore e' Hk Hposted).
Qed.

(** A request never rewrites an entry that is already POSTED, so the
    balance of the posted entries is an invariant of the store. *)
Lemma allPostedBalanced_step st st' :
  step st st' -> allPostedBalanced st -> allPostedBalanced st'.
Proof.
  intros Hstep Hinv k e' Hk Hposted.
  destruct (journalEntries st !! k) as [e|] eqn:Hbefore.
  - destruct (entry_status e) eqn:Hs.
    + apply (newly_posted_balanced st st' k e' Hstep Hk Hposted).
      intros e0 He0. rewrite Hbefore in He0. injection He0 as <-. congruence.
    + assert (e' = e) as ->; [|exact (Hinv k e Hbefore Hs)].
      destruct (step_cases st st' Hstep)
        as [->|[(newId & e0 & _ & _ & Hnew & ->)
               |[(id & e0 & j & now & He0 & Hdraft & _ & _ & Hes)
                |(id & i & c & newEntryId & sj & ar & now & _ & _ & Hnew & Hes)]]].
      * congruence.
      * simpl in Hk. rewrite lookup_insert_ne in Hk by congruence. congruence.
      * rewrite Hes in Hk. rewrite lookup_insert_ne in Hk by congruence. congruence.
      * rewrite Hes in Hk. rewrite lookup_insert_ne in Hk by congruence. congruence.
  - apply (newly_posted_balanced st st' k e' Hstep Hk Hposted).
    intros e0 He0. congruence.
Qed.

Lemma allPostedBalanced_reachable st st' :
  rtc step st st' -> allPostedBalanced st -> allPostedBalanced st'.
Proof.
  induction 1 as [|st1 st2 st3 Hstep _ IH]; [auto|].
  intros Hinv. apply IH. exact (allPostedBalanced_step st1 st2 Hstep Hinv).
Qed.



(** The scenario of the specification: debit 100 against credit 90 is
    refused with both totals named, and the entry stays a draft. *)
Example unbalanced_post_refused :
  postJournalEntry "e2" Sample.jan2 Sample.seed
  = (mkResponse 400
       (ErrorJson "Journal entry is unbalanced. Debit total: 100, Credit total: 90"),
     Sample.seed).
Proof. vm_compute. reflexivity. Qed.

(** *** Resolution of the Accounts Receivable account *)

Lemma prefix_append needle s :
  String.prefix needle s = true <-> exists after, s = needle ++ after.
Proof.
  revert s. induction needle as [|a needle IH]; intros s.
  - split; [intros _; exists s; reflexivity|]. intros _. destruct s; reflexivity.
  - destruct s as [|b s]; simpl.
    + split; [discriminate|]. intros [after H]. discriminate.
    + destruct (ascii_dec a b) as [->|Hne].
      * rewrite IH. split; intros [after H]; exists after; [rewrite H; reflexivity|].
        injection H as ->. reflexivity.
      * split; [discriminate|]. intros [after H]. injection H as -> _. contradiction.
Qed.

Lemma includes_append needle s :
  includes needle s = true <-> exists before after, s = before ++ needle ++ after.
Proof.
  induction s as [|b s IH].
  - cbn [includes]. rewrite orb_false_r, prefix_append. split.
    + intros [after H]. exists EmptyString, after. exact H.
    + intros [before [after H]]. destruct before; [exists after; exact H|discriminate].
  - cbn [includes]. rewrite orb_true_iff, prefix_append, IH. split.
    + intros [[after H]|[before [after H]]].
      * exists EmptyString, after. exact H.
      * exists (String b before), after. rewrite H. reflexivity.
    + intros [before [after H]]. destruct before as [|b' before].
      * left. exists after. exact H.
      * right. injection H as -> ->. exists before, after. reflexivity.
Qed.

Lemma toLowerCase_append a b :
  toLowerCase (a ++ b) = toLowerCase a ++ toLowerCase b.
Proof. induction a as [|c a IH]; simpl; [reflexivity|]. rewrite IH. reflexivity. Qed.

Lemma toLowerCase_split s a b :
  toLowerCase s = a ++ b ->
  exists a' b', s = a' ++ b' /\ toLowerCase a' = a /\ toLowerCase b' = b.
Proof.
  revert s. induction a as [|c a IH]; intros s H.
  - exists EmptyString, s. auto.
  - destruct s as [|c' s]; [discriminate|]. simpl in H. injection H as Hc H.
    destruct (IH s H) as (a' & b' & -> & Ha & Hb).
    exists (String c' a'), b'. simpl. rewrite Hc, Ha. auto.
Qed.

Lemma includes_receivable name :
  includes (toLowerCase "Receivable") (toLowerCase name) = true
  <-> mentionsReceivable name.
Proof.
  rewrite includes_append. unfold mentionsReceivable. split.
  - intros (before & after & H).
    apply toLowerCase_split in H as (before' & rest & -> & _ & H).
    apply toLowerCase_split in H as (word & after' & -> & Hw & _).
    exists before', word, after'. auto.
  - intros (before & word & after & -> & Hw).
    exists (toLowerCase before), (toLowerCase after).
    rewrite !toLowerCase_append, Hw. reflexivity.
Qed.

Lemma account_findUnique_Some companyId code st id account :
  account_findUnique_companyId_code companyId code st = Some (id, account) ->
  accounts st !! id = Some account
  /\ account_companyId account = companyId /\ account_code account = code.
Proof.
  intros H. apply findFirst_Some in H as [Hlk Hp].
  apply andb_prop in Hp as [Hc Hk].
  apply String.eqb_eq in Hc, Hk. auto.
Qed.

Lemma account_findUnique_unique companyId code st id account :
  accountCodesUnique st ->
  accounts st !! id = Some account ->
  account_companyId account = companyId -> account_code account = code ->
  account_findUnique_companyId_code companyId code st = Some (id, account).
Proof.
  intros Huniq Hlk Hc Hk.
  destruct (account_findUnique_companyId_code companyId code st) as [[id' a']|] eqn:E.
  - apply account_findUnique_Some in E as (Hlk' & Hc' & Hk').
    assert (id' = id) as -> by (apply (Huniq id' id a' account); congruence).
    congruence.
  - apply (findFirst_None _ _ E) in Hlk.
    rewrite Hc, Hk, !String.eqb_refl in Hlk. discriminate.
Qed.

Lemma tryCommonCodes_first codes companyId st before code after id account :
  codes = (before ++ code :: after)%list ->
  (forall c, In c before -> ~ codeResolves companyId c st) ->
  account_findUnique_companyId_code companyId code st = Some (id, account) ->
  account_type account = ASSET ->
  tryCommonCodes codes companyId st = Some (id, account).
Proof.
  intros -> Hbefore Hfound Hasset.
  induction before as [|c before IH]; simpl.
  - rewrite Hfound, Hasset. reflexivity.
  - assert (Hc : ~ codeResolves companyId c st) by (apply Hbefore; left; reflexivity).
    destruct (account_findUnique_companyId_code companyId c st) as [[id' a']|] eqn:E.
    + destruct (AccountType_eqb (account_type a') ASSET) eqn:Ht.
      * exfalso. apply Hc. exists id', a'. split; [exact E|].
        destruct (account_type a'); try discriminate. reflexivity.
      * apply IH. intros c' Hin. apply Hbefore. right. exact Hin.
    + apply IH. intros c' Hin. apply Hbefore. right. exact Hin.
Qed.

Lemma tryCommonCodes_none codes companyId st :
  (forall c, In c codes -> ~ codeResolves companyId c st) ->
  tryCommonCodes codes companyId st = None.
Proof.
  induction codes as [|c codes IH]; intros Hnone; simpl; [reflexivity|].
  assert (Hc : ~ codeResolves companyId c st) by (apply Hnone; left; reflexivity).
  assert (Hrest : tryCommonCodes codes companyId st = None)
    by (apply IH; intros c' Hin; apply Hnone; right; exact Hin).
  destruct (account_findUnique_companyId_code companyId c st) as [[id' a']|] eqn:E;
    [|exact Hrest].
  destruct (AccountType_eqb (account_type a') ASSET) eqn:Ht; [|exact Hrest].
  exfalso. apply Hc. exists id', a'. split; [exact E|].
  destruct (account_type a'); try discriminate. reflexivity.
Qed.

Lemma fallback_found companyId st id account :
  findFirst (receivableByName companyId) (accounts st) = Some (id, account) ->
  accounts st !! id = Some account
  /\ account_companyId account = companyId
  /\ account_type account = ASSET
  /\ mentionsReceivable (account_name account).
Proof.
  intros H. apply findFirst_Some in H as [Hlk Hp].
  unfold receivableByName in Hp.
  apply andb_prop in Hp as [Hp Hname]. apply andb_prop in Hp as [Hc Ht].
  apply String.eqb_eq in Hc. apply includes_receivable in Hname.
  repeat split; try assumption.
  destruct (account_type account); try discriminate. reflexivity.
Qed.

Lemma fallback_none companyId st :
  findFirst (receivableByName companyId) (accounts st) = None
  <-> forall id account,
        accounts st !! id = Some account ->
        account_companyId account = companyId ->
        account_type account = ASSET ->
        ~ mentionsReceivable (account_name account).
Proof.
  split.
  - intros H id account Hlk Hc Ht Hname.
    apply (findFirst_None _ _ H) in Hlk. unfold receivableByName in Hlk.
    apply includes_receivable in Hname.
    rewrite Hc, Ht, Hname, String.eqb_refl in Hlk. discriminate.
  - intros H.
    destruct (findFirst (receivableByName companyId) (accounts st)) as [[id account]|] eqn:E;
      [|reflexivity].
    apply fallback_found in E as (Hlk & Hc & Ht & Hname).
    exfalso. exact (H id account Hlk Hc Ht Hname).
Qed.

(** C9.  The receivable account of a company is the account of the first
    code among 1200, 110000, 12000, 1100 (in this order) that the company
    has as an ASSET; when no coded candidate resolves it is an ASSET
    account of the company whose name contains Receivable in any mix of
    cases; and when neither exists, posting an invoice that is otherwise
    ready to post is answered 404 Not Found and writes nothing. *)
Theorem findAccountsReceivableAccount_resolution :
  commonCodes = ["1200"; "110000"; "12000"; "1100"]
  /\ (forall companyId st before code after id account,
      commonCodes = (before ++ code :: after)%list ->
      (forall c, In c before -> ~ codeResolves companyId c st) ->
      account_findUnique_companyId_code companyId code st = Some (id, account) ->
      account_type account = ASSET ->
      findAccountsReceivableAccount companyId st = Some (id, account))
  /\ (forall companyId st,
      (forall c, In c commonCodes -> ~ codeResolves companyId c st) ->
      (forall id account,
          findAccountsReceivableAccount companyId st = Some (id, account) ->
          accounts st !! id = Some account
          /\ account_companyId account = companyId
          /\ account_type account = ASSET
          /\ mentionsReceivable (account_name account))
      /\ (findAccountsReceivableAccount companyId st = None
          <-> forall id account,
                accounts st !! id = Some account ->
                account_companyId account = companyId ->
                account_type account = ASSET ->
                ~ mentionsReceivable (account_name account)))
  /\ (forall companyId code st,
      accountCodesUnique st ->
      (codeResolves companyId code st
       <-> exists id account,
             accounts st !! id = Some account
             /\ account_companyId account = companyId
             /\ account_code account = code
             /\ account_type account = ASSET))
  /\ (forall id newEntryId now1 now2 st i salesJournal,
      customerInvoices st !! id = Some i ->
      invoice_status i = InvoiceStatus.DRAFT ->
      invoice_lines i <> [] ->
      0 < totalAmount i ->
      journal_findUnique_companyId_code (invoice_companyId i) "SAL" st = Some salesJournal ->
      findAccountsReceivableAccount (invoice_companyId i) st = None ->
      postCustomerInvoice id newEntryId now1 now2 st
      = (mkResponse 404
           (ErrorJson "Accounts Receivable account not found. Please ensure an Accounts Receivable (ASSET) account is set up for this company."),
         st)).
Proof.
  split; [reflexivity|]. split; [|split; [|split]].
  - intros companyId st before code after id account Hcodes Hbefore Hfound Hasset.
    unfold findAccountsReceivableAccount.
    rewrite (tryCommonCodes_first _ _ _ _ _ _ _ _ Hcodes Hbefore Hfound Hasset).
    reflexivity.
  - intros companyId st Hnone. unfold findAccountsReceivableAccount.
    rewrite (tryCommonCodes_none _ _ _ Hnone). split.
    + intros id account. apply fallback_found.
    + apply fallback_none.
  - intros companyId code st Huniq. unfold codeResolves. split.
    + intros (id & account & Hfound & Ht).
      apply account_findUnique_Some in Hfound as (Hlk & Hc & Hk).
      exists id, account. auto.
    + intros (id & account & Hlk & Hc & Hk & Ht).
      exists id, account. split; [|exact Ht].
      apply account_findUnique_unique; assumption.
  - intros id newEntryId now1 now2 st i [sjId sj] Hi Hs Hlines Htot Hsal Har.
    unfold postCustomerInvoice. rewrite Hi, Hs.
    destruct (invoice_lines i) as [|l ls] eqn:Hl; [contradiction|]. simpl.
    apply Z.leb_gt in Htot. rewrite Htot, Hsal, Har. reflexivity.
Qed.

Lemma findAccountsReceivableAccount_resolution_witness :
  findAccountsReceivableAccount Sample.cid Sample.seed
  = Some ("a1200", mkAccount Sample.cid "1200" "Accounts Receivable" ASSET true)
  /\ ((forall id account,
          findAccountsReceivableAccount Sample.cid Sample.byName = Some (id, account) ->
          accounts Sample.byName !! id = Some account
          /\ account_companyId account = Sample.cid
          /\ account_type account = ASSET
          /\ mentionsReceivable (account_name account))
      /\ (findAccountsReceivableAccount Sample.cid Sample.byName = None
          <-> forall id account,
                accounts Sample.byName !! id = Some account ->
                account_companyId account = Sample.cid ->
                account_type account = ASSET ->
                ~ mentionsReceivable (account_name account)))
  /\ postCustomerInvoice "i1" "e3" Sample.jan2 Sample.jan2 Sample.noReceivable
     = (mkResponse 404
          (ErrorJson "Accounts Receivable account not found. Please ensure an Accounts Receivable (ASSET) account is set up for this company."),
        Sample.noReceivable).
Proof.
  split; [|split].
  - apply (proj1 (proj2 findAccountsReceivableAccount_resolution)
             Sample.cid Sample.seed [] "1200" ["110000"; "12000"; "1100"]).
    + reflexivity.
    + intros c [].
    + vm_compute. reflexivity.
    + reflexivity.
  - apply (proj1 (proj2 (proj2 findAccountsReceivableAccount_resolution))
             Sample.cid Sample.byName).
    intros c Hin (id & a & H & Ht). simpl in Hin.
    destruct Hin as [<-|[<-|[<-|[<-|[]]]]]; vm_compute in H;
      try discriminate; injection H as <- <-; discriminate.
  - apply (proj2 (proj2 (proj2 (proj2 findAccountsReceivableAccount_resolution)))
             "i1" "e3" Sample.jan2 Sample.jan2 Sample.noReceivable Sample.draftInvoice
             ("jsal", mkJournal Sample.cid "SAL" "Sales Journal" SALES 1)).
    + vm_compute. reflexivity.
    + reflexivity.
    + discriminate.
    + reflexivity.
    + vm_compute. reflexivity.
    + vm_compute. reflexivity.
Defined.

(** A coded candidate that exists but is not an ASSET is passed over,
    and the name search finds the receivable account whatever its case. *)
Example receivable_found_by_name :
  findAccountsReceivableAccount Sample.cid Sample.byName
  = Some ("a1310", mkAccount Sample.cid "1310" "Trade RECEIVABLES" ASSET true).
Proof. vm_compute. reflexivity. Qed.

(** *** Validation of the lines of a new journal entry *)

Section LineValidation.
Variable newDate : string -> option JsDate.
Variable setHoursZero : JsDate -> JsDate.
Variable coercedGtZero : JsValue -> bool.

Lemma accountCodeErrors_nil index v :
  accountCodeErrors index v = [] <-> exists code, v = JsString code /\ code <> EmptyString.
Proof.
  unfold accountCodeErrors. split.
  - destruct v as [| |b|q|s|items|props]; simpl; rewrite ?orb_true_r;
      try discriminate.
    destruct (String.eqb s EmptyString) eqn:E; simpl; [discriminate|].
    intros _. exists s. split; [reflexivity|]. apply String.eqb_neq. exact E.
  - intros (code & -> & Hne). apply String.eqb_neq in Hne. simpl. rewrite Hne.
    reflexivity.
Qed.

Lemma amountErrors_nil index field v :
  amountErrors index field v = [] <-> exists q, v = JsNumber q /\ (0 <= q)%Qc.
Proof.
  unfold amountErrors. split.
  - destruct v as [| |b|q|s|items|props]; simpl; try discriminate.
    destruct (bool_decide (q < 0)%Qc) eqn:E; [discriminate|].
    intros _. exists q. split; [reflexivity|].
    apply bool_decide_eq_false in E. apply Qcnot_lt_le. exact E.
  - intros (q & -> & Hq). simpl.
    destruct (bool_decide (q < 0)%Qc) eqn:E; [|reflexivity].
    apply bool_decide_eq_true in E. apply Qcle_not_lt in Hq. contradiction.
Qed.

Lemma bothSidesErrors_nil index d c :
  bothSidesErrors coercedGtZero index (JsNumber d) (JsNumber c) = []
  <-> ~ ((0 < d)%Qc /\ (0 < c)%Qc).
Proof.
  unfold bothSidesErrors. simpl. split.
  - destruct (bool_decide (0 < d)%Qc) eqn:Ed; destruct (bool_decide (0 < c)%Qc) eqn:Ec;
      simpl; try discriminate; intros _ [Hd Hc].
    + apply bool_decide_eq_false in Ec. contradiction.
    + apply bool_decide_eq_false in Ed. contradiction.
    + apply bool_decide_eq_false in Ed. contradiction.
  - intros H.
    destruct (bool_decide (0 < d)%Qc) eqn:Ed; destruct (bool_decide (0 < c)%Qc) eqn:Ec;
      simpl; try reflexivity.
    apply bool_decide_eq_true in Ed, Ec. exfalso. apply H. auto.
Qed.

Lemma lineErrors_nil index line :
  lineErrors coercedGtZero index line = Some [] <-> lineAccepted line.
Proof.
  unfold lineErrors, lineAccepted. split.
  - destruct (getProp line "accountCode") as [code|]; [|discriminate].
    destruct (getProp line "debit") as [d|]; [|discriminate].
    destruct (getProp line "credit") as [c|]; [|discriminate].
    intros H. injection H as H.
    apply app_eq_nil in H as [Hcode H]. apply app_eq_nil in H as [Hd H].
    apply app_eq_nil in H as [Hc Hboth].
    apply accountCodeErrors_nil in Hcode as (s & -> & Hs).
    apply amountErrors_nil in Hd as (qd & -> & Hqd).
    apply amountErrors_nil in Hc as (qc & -> & Hqc).
    apply bothSidesErrors_nil in Hboth.
    exists s, qd, qc. auto 10.
  - intros (s & qd & qc & -> & Hs & -> & Hqd & -> & Hqc & Hboth).
    replace (accountCodeErrors index (JsString s)) with ([] : list string)
      by (symmetry; apply accountCodeErrors_nil; eauto).
    replace (amountErrors index "debit" (JsNumber qd)) with ([] : list string)
      by (symmetry; apply amountErrors_nil; eauto).
    replace (amountErrors index "credit" (JsNumber qc)) with ([] : list string)
      by (symmetry; apply amountErrors_nil; eauto).
    replace (bothSidesErrors coercedGtZero index (JsNumber qd) (JsNumber qc))
      with ([] : list string) by (symmetry; apply bothSidesErrors_nil; exact Hboth).
    reflexivity.
Qed.

Lemma linesErrors_nil index items :
  linesErrors coercedGtZero index items = Some [] <-> Forall lineAccepted items.
Proof.
  revert index. induction items as [|line items IH]; intros index; simpl.
  - split; [constructor|reflexivity].
  - split.
    + destruct (lineErrors coercedGtZero index line) as [errs|] eqn:E; [|discriminate].
      destruct (linesErrors coercedGtZero (S index) items) as [errs'|] eqn:E';
        [|discriminate].
      intros H. injection H as H. apply app_eq_nil in H as [-> ->].
      constructor; [apply (lineErrors_nil index); exact E|].
      apply (IH (S index)). exact E'.
    + intros H. apply Forall_cons in H as [Hline Hitems].
      apply (lineErrors_nil index) in Hline. apply (IH (S index)) in Hitems.
      rewrite Hline, Hitems. reflexivity.
Qed.

Lemma linesErrors_defined index items :
  Forall (fun line => ~ nullish line) items ->
  exists errs, linesErrors coercedGtZero index items = Some errs.
Proof.
  revert index. induction items as [|line items IH]; intros index H; simpl; [eauto|].
  apply Forall_cons in H as [Hline Hitems].
  destruct (IH (S index) Hitems) as [errs' ->].
  unfold lineErrors.
  destruct line; try (eexists; reflexivity); exfalso; apply Hline;
    [left|right]; reflexivity.
Qed.

Lemma lineSetErrors_nil lines :
  lineSetErrors coercedGtZero lines = Some []
  <-> exists items,
        lines = JsArray items /\ (2 <= length items)%nat /\ Forall lineAccepted items.
Proof.
  unfold lineSetErrors. split.
  - destruct lines as [| |b|q|s|items|props]; try discriminate.
    destruct (linesErrors coercedGtZero 0 items) as [errs|] eqn:E; [|discriminate].
    destruct (length items <? 2)%nat eqn:Hlen; [discriminate|].
    simpl. intros H. injection H as ->.
    exists items. apply Nat.ltb_ge in Hlen. apply linesErrors_nil in E. auto.
  - intros (items & -> & Hlen & Hall).
    apply (linesErrors_nil 0) in Hall. rewrite Hall.
    apply Nat.ltb_ge in Hlen. rewrite Hlen. reflexivity.
Qed.

Lemma validationErrors_nil body :
  validationErrors newDate coercedGtZero body = Some [] ->
  lineSetErrors coercedGtZero (prop body "lines") = Some [].
Proof.
  unfold validationErrors.
  destruct (lineSetErrors coercedGtZero (prop body "lines")) as [errs|]; [|discriminate].
  intros H. injection H as H.
  apply app_eq_nil in H as [_ H]. apply app_eq_nil in H as [_ ->]. reflexivity.
Qed.

Lemma bothPositive_not_accepted line : bothPositive line -> ~ lineAccepted line.
Proof.
  intros (d & c & Hd & Hdpos & Hc & Hcpos) (s & d' & c' & _ & _ & Hd' & _ & Hc' & _ & H).
  rewrite Hd in Hd'. rewrite Hc in Hc'. injection Hd' as <-. injection Hc' as <-.
  apply H. auto.
Qed.

(** A body that does not pass validation is refused and nothing is
    written. *)
Lemma createJournalEntry_rejects body newId st :
  validationErrors newDate coercedGtZero body <> Some [] ->
  (createJournalEntry newDate setHoursZero coercedGtZero body newId st).2 = st
  /\ (status (createJournalEntry newDate setHoursZero coercedGtZero body newId st).1 = 400
      \/ status (createJournalEntry newDate setHoursZero coercedGtZero body newId st).1 = 500)
  /\ (~ nullish body ->
      validationErrors newDate coercedGtZero body <> None ->
      status (createJournalEntry newDate setHoursZero coercedGtZero body newId st).1 = 400).
Proof.
  intros Hv. unfold createJournalEntry, nullish.
  destruct (validationErrors newDate coercedGtZero body) as [[|err errs]|];
    [contradiction|..]; destruct body; simpl; intuition congruence.
Qed.

End LineValidation.

Lemma Exists_not_Forall {A} (P Q : A -> Prop) (l : list A) :
  (forall x, P x -> ~ Q x) -> Exists P l -> ~ Forall Q l.
Proof.
  intros HPQ Hex Hall. induction Hex as [x l Hx|x l _ IH].
  - apply Forall_cons in Hall as [Hq _]. exact (HPQ x Hx Hq).
  - apply Forall_cons in Hall as [_ Hall]. exact (IH Hall).
Qed.

(** C8 (as the controller implements it).  A request gets past
    validation only if [lines] is an array of at least two lines, each
    with a non-empty string account code and with debit and credit
    numbers, both >= 0 and not both > 0.  A line with both > 0 makes the
    request fail before anything is written: with 400 and the list of
    validation errors, or with 500 when reading some element of [lines]
    throws.  Conversely such an array raises no error in the [lines]
    block, so a line with debit and credit both zero passes. *)
Theorem createJournalEntry_line_set newDate setHoursZero coercedGtZero body newId st :
  (status (createJournalEntry newDate setHoursZero coercedGtZero body newId st).1 <> 400 ->
   status (createJournalEntry newDate setHoursZero coercedGtZero body newId st).1 <> 500 ->
   exists items,
     prop body "lines" = JsArray items
     /\ (2 <= length items)%nat
     /\ Forall lineAccepted items)
  /\ (forall items,
      prop body "lines" = JsArray items ->
      Exists bothPositive items ->
      (createJournalEntry newDate setHoursZero coercedGtZero body newId st).2 = st
      /\ (status (createJournalEntry newDate setHoursZero coercedGtZero body newId st).1 = 400
          \/ status (createJournalEntry newDate setHoursZero coercedGtZero body newId st).1 = 500)
      /\ (Forall (fun line => ~ nullish line) items ->
          status (createJournalEntry newDate setHoursZero coercedGtZero body newId st).1 = 400))
  /\ (forall items,
      prop body "lines" = JsArray items ->
      (2 <= length items)%nat ->
      Forall lineAccepted items ->
      lineSetErrors coercedGtZero (prop body "lines") = Some []).
Proof.
  split; [|split].
  - intros H400 H500.
    destruct (validationErrors newDate coercedGtZero body) as [[|err errs]|] eqn:Hv.
    + apply validationErrors_nil in Hv. apply lineSetErrors_nil in Hv. exact Hv.
    + destruct (createJournalEntry_rejects newDate setHoursZero coercedGtZero body newId st)
        as (_ & [H|H] & _); [rewrite Hv; discriminate|contradiction..].
    + destruct (createJournalEntry_rejects newDate setHoursZero coercedGtZero body newId st)
        as (_ & [H|H] & _); [rewrite Hv; discriminate|contradiction..].
  - intros items Hlines Hboth.
    assert (Hv : validationErrors newDate coercedGtZero body <> Some []).
    { intros Hv. apply validationErrors_nil in Hv.
      apply lineSetErrors_nil in Hv as (items' & Hlines' & _ & Hall).
      rewrite Hlines in Hlines'. injection Hlines' as <-.
      exact (Exists_not_Forall _ _ _ bothPositive_not_accepted Hboth Hall). }
    destruct (createJournalEntry_rejects newDate setHoursZero coercedGtZero body newId st Hv)
      as (Hst & Hstatus & H400).
    split; [exact Hst|]. split; [exact Hstatus|].
    intros Hdefined. apply H400.
    + intros [->| ->]; discriminate.
    + unfold validationErrors, lineSetErrors. rewrite Hlines.
      destruct (linesErrors_defined coercedGtZero 0 items Hdefined) as [errs ->].
      discriminate.
  - intros items Hlines Hlen Hall. apply lineSetErrors_nil. eauto.
Qed.

Lemma createJournalEntry_line_set_witness :
  (exists items,
      prop (Sample.body [Sample.line "1000" 100 0; Sample.line "4000" 0 100]) "lines"
      = JsArray items
      /\ (2 <= length items)%nat
      /\ Forall lineAccepted items)
  /\ ((createJournalEntry Sample.newDate Sample.setHoursZero Sample.coercedGtZero
         (Sample.body [Sample.line "1000" 5 5; Sample.line "4000" 0 5]) "e9"
         Sample.seed).2 = Sample.seed
      /\ (status (createJournalEntry Sample.newDate Sample.setHoursZero
                    Sample.coercedGtZero
                    (Sample.body [Sample.line "1000" 5 5; Sample.line "4000" 0 5]) "e9"
                    Sample.seed).1 = 400
          \/ status (createJournalEntry Sample.newDate Sample.setHoursZero
                       Sample.coercedGtZero
                       (Sample.body [Sample.line "1000" 5 5; Sample.line "4000" 0 5]) "e9"
                       Sample.seed).1 = 500)
      /\ (Forall (fun line => ~ nullish line)
            [Sample.line "1000" 5 5; Sample.line "4000" 0 5] ->
          status (createJournalEntry Sample.newDate Sample.setHoursZero
                    Sample.coercedGtZero
                    (Sample.body [Sample.line "1000" 5 5; Sample.line "4000" 0 5]) "e9"
                    Sample.seed).1 = 400)).
Proof.
  split.
  - apply (proj1 (createJournalEntry_line_set Sample.newDate Sample.setHoursZero
                    Sample.coercedGtZero
                    (Sample.body [Sample.line "1000" 100 0; Sample.line "4000" 0 100])
                    "e9" Sample.seed)); vm_compute; discriminate.
  - apply (proj1 (proj2 (createJournalEntry_line_set Sample.newDate Sample.setHoursZero
                           Sample.coercedGtZero
                           (Sample.body [Sample.line "1000" 5 5; Sample.line "4000" 0 5])
                           "e9" Sample.seed))).
    + reflexivity.
    + constructor. exists (Q2Qc (inject_Z 5)), (Q2Qc (inject_Z 5)).
      repeat split; reflexivity.
Defined.

(** C8 as stated fails: a request whose two lines have debit 0 and
    credit 0 is accepted and the entry is stored, though neither line
    has exactly one of debit and credit above zero. *)
Lemma zero_lines_accepted :
  status (createJournalEntry Sample.newDate Sample.setHoursZero Sample.coercedGtZero
            (Sample.body [Sample.line "1000" 0 0; Sample.line "4000" 0 0]) "e9"
            Sample.seed).1 = 201
  /\ is_Some (journalEntries
                (createJournalEntry Sample.newDate Sample.setHoursZero
                   Sample.coercedGtZero
                   (Sample.body [Sample.line "1000" 0 0; Sample.line "4000" 0 0]) "e9"
                   Sample.seed).2 !! "e9")
  /\ ~ exactlyOnePositive (Sample.line "1000" 0 0)
  /\ ~ exactlyOnePositive (Sample.line "4000" 0 0).
Proof.
  split; [vm_compute; reflexivity|].
  split; [vm_compute; eauto|].
  split; intros (d & c & Hd & Hc & H); vm_compute in Hd, Hc;
    injection Hd as <-; injection Hc as <-;
    destruct H as [[H _]|[_ H]]; vm_compute in H; discriminate.
Qed.

(** *** The journal entry an invoice produces *)

(** Every successful invoice post stores its entry as POSTED with no
    number and leaves all journals, the Sales journal's counter
    included, as they were; the company's invoice counter, the entry
    with its lines and the invoice are written together. *)
Lemma postCustomerInvoice_effect id newEntryId now1 now2 st response st' :
  postCustomerInvoice id newEntryId now1 now2 st = (response, st') ->
  succeeded response ->
  exists i c e,
    customerInvoices st !! id = Some i
    /\ companies st !! invoice_companyId i = Some c
    /\ journalEntries st !! newEntryId = None
    /\ journalEntries st' = <[newEntryId := e]> (journalEntries st)
    /\ entry_status e = POSTED
    /\ entry_number e = None
    /\ sumDebit (journalLines e) = totalAmount i
    /\ journals st' = journals st
    /\ accounts st' = accounts st
    /\ companies st' = <[invoice_companyId i := advancedCompany c]> (companies st)
    /\ customerInvoices st'
       = <[id := postedInvoice i (postCustomerInvoice_number i c) now2 newEntryId]>
           (customerInvoices st).
Proof.
  intros Hpost Hok.
  destruct (postCustomerInvoice_cases id newEntryId now1 now2 st)
    as [[Hfail _]|(i & c & sj & j & ar & a & H)].
  { rewrite Hpost in Hfail. contradiction. }
  destruct H as (Hi & _ & _ & _ & _ & _ & Hc & _ & Hnew & _ & _ & _ & Heq).
  rewrite Hpost in Heq. injection Heq as -> ->.
  exists i, c, (invoiceEntry i sj ar (postCustomerInvoice_number i c) now1).
  cbn [journalEntries journals accounts companies customerInvoices].
  repeat split; try assumption.
  unfold invoiceEntry. cbn [journalLines]. apply invoiceJournalLines_sums.
Qed.

(** C1 (failing case).  Posting the sample invoice succeeds and leaves
    its journal entry POSTED with a null number; the entry can never be
    numbered afterwards, because posting it is refused as already
    posted. *)
Theorem invoice_entry_posted_without_number :
  succeeded (postCustomerInvoice "i1" "e3" Sample.jan2 Sample.jan2 Sample.seed).1
  /\ (exists i, customerInvoices Sample.afterInvoice !! "i1" = Some i
                /\ invoice_status i = InvoiceStatus.POSTED
                /\ journalEntryId i = Some "e3")
  /\ (exists e, journalEntries Sample.afterInvoice !! "e3" = Some e
                /\ entry_status e = POSTED
                /\ entry_number e = None)
  /\ postJournalEntry "e3" Sample.jan2 Sample.afterInvoice
     = (mkResponse 409 (ErrorJson "Journal entry is already posted (status: POSTED)"),
        Sample.afterInvoice).
Proof.
  split; [vm_compute; reflexivity|].
  split; [eexists; split; [vm_compute; reflexivity|split; reflexivity]|].
  split; [eexists; split; [vm_compute; reflexivity|split; reflexivity]|].
  vm_compute. reflexivity.
Qed.

(** C2 (failing case).  Posting the sample invoice writes the entry (born
    POSTED), the invoice and the company's invoice counter, but allocates
    no number for the entry and leaves the Sales journal's counter at 1. *)
Theorem invoice_post_skips_entry_number :
  succeeded (postCustomerInvoice "i1" "e3" Sample.jan2 Sample.jan2 Sample.seed).1
  /\ journalEntries Sample.seed !! "e3" = None
  /\ (exists e, journalEntries Sample.afterInvoice !! "e3" = Some e
                /\ entry_status e = POSTED
                /\ entry_number e = None
                /\ length (journalLines e) = 2%nat)
  /\ journals Sample.afterInvoice = journals Sample.seed
  /\ journals Sample.afterInvoice !! "jsal"
     = Some (mkJournal Sample.cid "SAL" "Sales Journal" SALES 1)
  /\ companies Sample.afterInvoice !! Sample.cid
     = Some (mkCompany "Default Company" "USD" 0 2)
  /\ (exists i, customerInvoices Sample.afterInvoice !! "i1" = Some i
                /\ invoice_status i = InvoiceStatus.POSTED
                /\ invoice_number i = Some "INV/2026/0001").
Proof.
  split; [vm_compute; reflexivity|].
  split; [vm_compute; reflexivity|].
  split; [eexists; split; [vm_compute; reflexivity|repeat split]|].
  split; [vm_compute; reflexivity|].
  split; [vm_compute; reflexivity|].
  split; [vm_compute; reflexivity|].
  eexists; split; [vm_compute; reflexivity|split; reflexivity].
Qed.

(** *** Further checks on the sample data *)

(** A transaction that throws after it has written: with the invoice
    counter at the top of its range the increment fails last, and the
    entry and the invoice update before it are discarded. *)
Example rollback_after_writes :
  postCustomerInvoice "i1" "e3" Sample.jan2 Sample.jan2 Sample.exhausted
  = (mkResponse 500 (ErrorJson "Failed to post customer invoice"), Sample.exhausted).
Proof. vm_compute. reflexivity. Qed.

(** The invoice scenario of the specification: one debit line on the
    receivable account and one credit line on account 4000, 100.00 each. *)
Example invoice_entry_lines :
  exists e, journalEntries Sample.afterInvoice !! "e3" = Some e
            /\ journalLines e
               = [mkJournalLine "a1200" (Some "p1") (Some "Invoice INV/2026/0001") 10000 0;
                  mkJournalLine "a4000" (Some "p1") (Some "Widget") 0 10000].
Proof. eexists. split; [vm_compute; reflexivity|reflexivity]. Qed.

(** *** Numbers of posts that follow one another *)

Lemma entryNumberTaken_false self companyId num st k e :
  entryNumberTaken self companyId num st = false ->
  journalEntries st !! k = Some e ->
  k <> self ->
  entry_companyId e = companyId ->
  entry_number e <> Some num.
Proof.
  unfold entryNumberTaken. intros Hfree Hk Hne Hc Hnum.
  assert (Hin : In (k, e) (map_to_list (journalEntries st)))
    by (apply list_elem_of_In, elem_of_map_to_list; exact Hk).
  assert (Hex : existsb (fun kv => negb (String.eqb kv.1 self)
                                   && String.eqb (entry_companyId kv.2) companyId
                                   && optString_eqb (entry_number kv.2) (Some num))
                        (map_to_list (journalEntries st)) = true).
  { apply existsb_exists. exists (k, e). split; [exact Hin|]. simpl.
    apply String.eqb_neq in Hne. rewrite Hne, Hc, Hnum, !String.eqb_refl. simpl.
    apply String.eqb_refl. }
  congruence.
Qed.

(** When two entries of one journal are posted one request after the
    other, the second is numbered from the counter the first left, one
    higher, and (the entries being of one company) the two numbers
    differ. *)
Lemma consecutive_posts_in_sequence id1 id2 now1 now2 st r1 st1 r2 st2 e1 e2 j :
  postJournalEntry id1 now1 st = (r1, st1) -> succeeded r1 ->
  postJournalEntry id2 now2 st1 = (r2, st2) -> succeeded r2 ->
  journalEntries st !! id1 = Some e1 ->
  journalEntries st1 !! id2 = Some e2 ->
  entry_journalId e2 = entry_journalId e1 ->
  entry_companyId e2 = entry_companyId e1 ->
  journals st !! entry_journalId e1 = Some j ->
  exists n1 n2,
    journalEntries st2 !! id1 = Some (postedEntry e1 n1 now1)
    /\ journalEntries st2 !! id2 = Some (postedEntry e2 n2 now2)
    /\ n1 = formatJournalEntryNumber (journal_code j) (getFullYear (entry_date e1))
              (nextNumber j)
    /\ n2 = formatJournalEntryNumber (journal_code j) (getFullYear (entry_date e2))
              (nextNumber j + 1)
    /\ n1 <> n2
    /\ (exists j2, journals st2 !! entry_journalId e1 = Some j2
                   /\ nextNumber j2 = nextNumber j + 2).
Proof.
  intros Hp1 Hok1 Hp2 Hok2 He1 He2 Hsame Hcomp Hj.
  destruct (postJournalEntry_cases id1 now1 st)
    as [[Hfail _]|(e & j' & _ & He & _ & _ & _ & Hj' & _ & _ & Heq)].
  { rewrite Hp1 in Hfail. contradiction. }
  rewrite He1 in He. injection He as <-. rewrite Hj in Hj'. injection Hj' as <-.
  rewrite Hp1 in Heq. injection Heq as -> ->.
  destruct (postJournalEntry_cases id2 now2
              (mkStore (companies st) (accounts st)
                 (<[entry_journalId e1 := advancedJournal j]> (journals st))
                 (<[id1 := postedEntry e1 (postJournalEntry_number e1 j) now1]>
                    (journalEntries st))
                 (customerInvoices st)))
    as [[Hfail _]|(e & j2 & _ & He & Hdraft & _ & _ & Hj2 & _ & Hfree & Heq)].
  { rewrite Hp2 in Hfail. contradiction. }
  rewrite He2 in He. injection He as <-.
  cbn [journals journalEntries] in He2, Hj2.
  rewrite Hsame, lookup_insert_eq in Hj2. injection Hj2 as <-.
  assert (Hne : id1 <> id2).
  { intros ->. rewrite lookup_insert_eq in He2. injection He2 as <-. discriminate. }
  rewrite Hp2 in Heq. injection Heq as -> ->.
  exists (postJournalEntry_number e1 j), (postJournalEntry_number e2 (advancedJournal j)).
  cbn [journals journalEntries].
  rewrite lookup_insert_ne by congruence. rewrite !lookup_insert_eq.
  repeat split.
  - intros Hnum.
    apply (entryNumberTaken_false _ _ _ _ id1
             (postedEntry e1 (postJournalEntry_number e1 j) now1) Hfree).
    + cbn [journalEntries]. apply lookup_insert_eq.
    + exact Hne.
    + simpl. congruence.
    + simpl. congruence.
  - rewrite Hsame, lookup_insert_eq. eexists. split; [reflexivity|]. simpl. lia.
Qed.

(** Posting the 2026 draft and then the 2027 draft of the General
    journal: the sequence runs on across the year. *)
Example consecutive_numbers :
  exists e e',
    journalEntries (postJournalEntry "e4" Sample.jan2 Sample.afterEntry).2 !! "e1" = Some e
    /\ journalEntries (postJournalEntry "e4" Sample.jan2 Sample.afterEntry).2 !! "e4" = Some e'
    /\ entry_number e = Some "GEN/2026/0001"
    /\ entry_number e' = Some "GEN/2027/0002".
Proof.
  do 2 eexists. split; [vm_compute; reflexivity|].
  split; [vm_compute; reflexivity|]. split; reflexivity.
Qed.


(** ** Further properties of the handlers *)

(** *** When a post succeeds *)



Lemma invoiceNumberTaken_free self companyId num st :
  invoiceNumberTaken self companyId num st = false
  <-> invoiceNumberFree self companyId num st.
Proof.
  unfold invoiceNumberTaken, invoiceNumberFree. split.
  - intros H k i Hk Hne Hc Hnum.
    assert (Hex : existsb (fun kv => negb (String.eqb kv.1 self)
                                     && String.eqb (invoice_companyId kv.2) companyId
                                     && optString_eqb (invoice_number kv.2) (Some num))
                          (map_to_list (customerInvoices st)) = true).
    { apply existsb_exists. exists (k, i). split.
      - apply list_elem_of_In, elem_of_map_to_list. exact Hk.
      - simpl. apply String.eqb_neq in Hne.
        rewrite Hne, Hc, Hnum, String.eqb_refl. simpl. apply String.eqb_refl. }
    congruence.
  - intros Hfree.
    destruct (existsb _ (map_to_list (customerInvoices st))) eqn:E; [|reflexivity].
    apply existsb_exists in E as ([k i] & Hin & Hp). simpl in Hp.
    apply andb_prop in Hp as [Hp Hnum]. apply andb_prop in Hp as [Hne Hc].
    apply negb_true_iff, String.eqb_neq in Hne. apply String.eqb_eq in Hc.
    apply list_elem_of_In, elem_of_map_to_list in Hin.
    exfalso. apply (Hfree k i Hin Hne Hc).
    destruct (invoice_number i) as [n|]; [|discriminate].
    simpl in Hnum. apply String.eqb_eq in Hnum. congruence.
Qed.

Lemma invoiceEntryLinked_free self entryId st :
  invoiceEntryLinked self entryId st = false <-> entryUnlinked self entryId st.
Proof.
  unfold invoiceEntryLinked, entryUnlinked. split.
  - intros H k i Hk Hne Hlink.
    assert (Hex : existsb (fun kv => negb (String.eqb kv.1 self)
                                     && optString_eqb (journalEntryId kv.2) (Some entryId))
                          (map_to_list (customerInvoices st)) = true).
    { apply existsb_exists. exists (k, i). split.
      - apply list_elem_of_In, elem_of_map_to_list. exact Hk.
      - simpl. apply String.eqb_neq in Hne. rewrite Hne, Hlink. simpl.
        apply String.eqb_refl. }
    congruence.
  - intros Hfree.
    destruct (existsb _ (map_to_list (customerInvoices st))) eqn:E; [|reflexivity].
    apply existsb_exists in E as ([k i] & Hin & Hp). simpl in Hp.
    apply andb_prop in Hp as [Hne Hlink].
    apply negb_true_iff, String.eqb_neq in Hne.
    apply list_elem_of_In, elem_of_map_to_list in Hin.
    exfalso. apply (Hfree k i Hin Hne).
    destruct (journalEntryId i) as [n|]; [|discriminate].
    simpl in Hlink. apply String.eqb_eq in Hlink. congruence.
Qed.

(** X2.  [postCustomerInvoice] answers 200 exactly when the id names a
    DRAFT invoice with at least one line and a total above zero, the
    company has a journal with code SAL and a receivable account, the
    company row exists with its invoice counter below the top of the
    column's range, the stored total equals the sum of the stored line
    totals, the key for the new entry is unused, and no other invoice
    holds the number or the entry. *)
Theorem postCustomerInvoice_succeeds_iff id newEntryId now1 now2 st :
  succeeded (postCustomerInvoice id newEntryId now1 now2 st).1
  <-> exists i,
        customerInvoices st !! id = Some i
        /\ invoice_status i = InvoiceStatus.DRAFT
        /\ invoice_lines i <> []
        /\ 0 < totalAmount i
        /\ is_Some (journal_findUnique_companyId_code (invoice_companyId i) "SAL" st)
        /\ is_Some (findAccountsReceivableAccount (invoice_companyId i) st)
        /\ invoiceTransactionReady id newEntryId i st.
Proof.
  split.
  - intros Hok.
    destruct (postCustomerInvoice_cases id newEntryId now1 now2 st)
      as [[Hfail _]|(i & c & sj & j & ar & a & H)]; [contradiction|].
    destruct H as (Hi & Hs & Hl & Ht & Hsal & Har & Hc & Hbal & Hnew & Hnum & Hlink & Hmax & _).
    exists i. rewrite Hsal, Har.
    apply invoiceNumberTaken_free in Hnum. apply invoiceEntryLinked_free in Hlink.
    repeat split; eauto.
    exists c. repeat split; try assumption. lia.
  - intros (i & Hi & Hs & Hl & Ht & [[sj j] Hsal] & [[ar a] Har]
            & (c & Hc & Hbal & Hnew & Hnum & Hlink & Hmax)).
    apply invoiceNumberTaken_free in Hnum. apply invoiceEntryLinked_free in Hlink.
    unfold postCustomerInvoice_number in Hnum.
    unfold postCustomerInvoice, succeeded. rewrite Hi, Hs.
    assert ((length (invoice_lines i) =? 0)%nat = false) as ->
      by (destruct (invoice_lines i); [contradiction|reflexivity]).
    apply Z.leb_gt in Ht. rewrite Ht, Hsal, Har.
    unfold transaction, postCustomerInvoice_tx, bind, company_findUniqueOrThrow.
    rewrite Hc, sumLineTotals_sum.
    apply Z.eqb_eq in Hbal. rewrite Hbal.
    cbn [negb]. unfold journalEntry_create. rewrite Hnew.
    cbn [entry_number]. unfold customerInvoice_update_posted.
    cbn [customerInvoices setJournalEntries]. rewrite Hi.
    rewrite invoiceNumberTaken_setJournalEntries, invoiceEntryLinked_setJournalEntries.
    rewrite Hnum, Hlink.
    unfold company_update_increment. cbn [companies setCustomerInvoices setJournalEntries].
    rewrite Hc.
    assert ((INT_MAX <? invoiceNextNumber c + 1) = false) as -> by (apply Z.ltb_ge; lia).
    reflexivity.
Qed.

Lemma unbalanced_message_recognised (rest : string) :
  includes "unbalanced" ("Journal entry is unbalanced. Debit: " ++ rest) = true.
Proof.
  apply includes_append. exists "Journal entry is ", (". Debit: " ++ rest). reflexivity.
Qed.

(** X3.  When the stored total of a DRAFT invoice differs from the sum
    of its stored line totals, and the checks before the transaction
    pass, the error thrown inside the transaction is recognised by its
    text and answered 400 with both totals; nothing is written. *)
Theorem postCustomerInvoice_unbalanced id newEntryId now1 now2 st i :
  customerInvoices st !! id = Some i ->
  invoice_status i = InvoiceStatus.DRAFT ->
  invoice_lines i <> [] ->
  0 < totalAmount i ->
  is_Some (journal_findUnique_companyId_code (invoice_companyId i) "SAL" st) ->
  is_Some (findAccountsReceivableAccount (invoice_companyId i) st) ->
  is_Some (companies st !! invoice_companyId i) ->
  totalAmount i <> sumOfLineTotals (invoice_lines i) ->
  postCustomerInvoice id newEntryId now1 now2 st
  = (mkResponse 400
       (ErrorJson ("Journal entry is unbalanced. Debit: "
                   ++ Decimal_toString (totalAmount i) ++ ", Credit: "
                   ++ Decimal_toString (sumOfLineTotals (invoice_lines i)))),
     st).
Proof.
  intros Hi Hs Hl Ht [[sj j] Hsal] [[ar a] Har] [c Hc] Hbal.
  unfold postCustomerInvoice. rewrite Hi, Hs.
  assert ((length (invoice_lines i) =? 0)%nat = false) as ->
    by (destruct (invoice_lines i); [contradiction|reflexivity]).
  apply Z.leb_gt in Ht. rewrite Ht, Hsal, Har.
  unfold transaction, postCustomerInvoice_tx, bind, company_findUniqueOrThrow.
  rewrite Hc, sumLineTotals_sum.
  apply Z.eqb_neq in Hbal. rewrite Hbal. cbn [negb]. unfold throw.
  unfold messageIncludes. rewrite unbalanced_message_recognised. reflexivity.
Qed.

Lemma postCustomerInvoice_unbalanced_witness :
  postCustomerInvoice "i1" "e3" Sample.jan2 Sample.jan2 Demo.altered
  = (mkResponse 400
       (ErrorJson "Journal entry is unbalanced. Debit: 120, Credit: 100"),
     Demo.altered).
Proof.
  apply (postCustomerInvoice_unbalanced "i1" "e3" Sample.jan2 Sample.jan2 Demo.altered
           Demo.alteredInvoice).
  - vm_compute. reflexivity.
  - reflexivity.
  - discriminate.
  - reflexivity.
  - vm_compute. eauto.
  - vm_compute. eauto.
  - vm_compute. eauto.
  - vm_compute. discriminate.
Defined.

(** *** What the two further write handlers can do *)

Lemma createCustomerInvoice_cases trim newDate errorMessage body newId partners st :
  (reply_status (createCustomerInvoice trim newDate errorMessage body newId partners st).1
     <> 201
   /\ (createCustomerInvoice trim newDate errorMessage body newId partners st).2 = st)
  \/ exists companyId company partner invoiceDate validated,
       resolveCompany (prop body "companyId") st = inr (inr (companyId, company))
       /\ invoiceErrors trim newDate body = []
       /\ partners !! trim (stringOf (prop body "partnerId")) = Some partner
       /\ partner_companyId partner = companyId
       /\ validateInvoiceLines trim companyId st 0 (arrayItems (prop body "lines"))
          = inr (inr validated)
       /\ utcMidnight newDate (stringOf (prop body "invoiceDate")) = Some invoiceDate
       /\ customerInvoices st !! newId = None
       /\ createCustomerInvoice trim newDate errorMessage body newId partners st
          = (let invoice :=
               mkCustomerInvoice companyId (trim (stringOf (prop body "partnerId")))
                 invoiceDate (dueDateOf newDate (prop body "dueDate")) None
                 InvoiceStatus.DRAFT (memoOf trim (prop body "memo"))
                 (company_baseCurrency company)
                 (toDecimal2 (sumValidated validated)) None None
                 (List.map storedLine validated) in
             (mkReply 201 (DataBody (newId, invoice)),
              setCustomerInvoices (<[newId := invoice]> (customerInvoices st)) st)).
Proof.
  unfold createCustomerInvoice, createCustomerInvoice_try.
  destruct body; try (left; split; [simpl; discriminate|reflexivity]);
    (destruct (resolveCompany _ st) as [e|[notFound|[companyId company]]] eqn:Hc;
     [left; split; [simpl; discriminate|reflexivity]..|]);
    (destruct (invoiceErrors trim newDate _) as [|err errs] eqn:Herr;
     [|left; split; [simpl; discriminate|reflexivity]]); cbn [length Nat.eqb negb];
    (destruct (partners !! _) as [partner|] eqn:Hp;
     [|left; split; [simpl; discriminate|reflexivity]]);
    (destruct (String.eqb (partner_companyId partner) companyId) eqn:Hpc;
     [|left; split; [simpl; discriminate|reflexivity]]);
    (destruct (validateInvoiceLines trim companyId st 0 _)
       as [e|[[status message]|validated]] eqn:Hv;
     [left; split; [simpl; discriminate|reflexivity]| |]).
  all: try (left; split; [|reflexivity]; cbn [fst reply_status];
            revert Hv; generalize 0%nat;
            (induction (arrayItems _) as [|line rest IH]; intros n Hv; cbn in Hv;
             [discriminate|]);
            repeat case_match; simplify_eq; try discriminate; eauto).
  all: destruct (utcMidnight newDate _) as [invoiceDate|] eqn:Hd;
    [|left; split; [simpl; discriminate|reflexivity]].
  all: unfold customerInvoice_create; cbn [invoice_number journalEntryId totalAmount invoice_lines];
    destruct (customerInvoices st !! newId) eqn:Hnew;
    [left; split; [simpl; discriminate|reflexivity]|];
    destruct (negb _) eqn:Hfit;
    [left; split; [simpl; discriminate|reflexivity]|].
  all: right; exists companyId, company, partner, invoiceDate, validated;
    apply String.eqb_eq in Hpc; repeat split; assumption.
Qed.

Lemma createAccount_cases trim codeIndexTarget body newId st :
  (reply_status (createAccount trim codeIndexTarget body newId st).1 <> 201
   /\ (createAccount trim codeIndexTarget body newId st).2 = st)
  \/ exists companyId company type,
       accountErrors trim body = []
       /\ resolveCompany (prop body "companyId") st = inr (inr (companyId, company))
       /\ accountTypeOf (prop body "type") = Some type
       /\ accounts st !! newId = None
       /\ accountCodeTaken companyId (trim (stringOf (prop body "code"))) st = false
       /\ createAccount trim codeIndexTarget body newId st
          = (let account :=
               mkAccount companyId (trim (stringOf (prop body "code")))
                 (stringOf (prop body "name")) type true in
             (mkReply 201 (DataBody (newId, account)),
              setAccounts (<[newId := account]> (accounts st)) st)).
Proof.
  unfold createAccount, createAccount_try, account_create, createAccount_catch.
  destruct body; try (left; split; [simpl; discriminate|reflexivity]);
    (destruct (accountErrors trim _) as [|err errs] eqn:Herr;
     [|left; split; [simpl; discriminate|reflexivity]]); cbn [length Nat.eqb negb];
    (destruct (resolveCompany _ st) as [e|[notFound|[companyId company]]] eqn:Hc;
     [left; split; [simpl; discriminate|reflexivity]..|]);
    (destruct (accountTypeOf _) as [type|] eqn:Ht;
     [|left; split; [simpl; discriminate|reflexivity]]);
    (destruct (accounts st !! newId) eqn:Hnew;
     [left; split; [simpl; discriminate|reflexivity]|]);
    (destruct (accountCodeTaken companyId _ st) eqn:Htaken;
     [left; destruct (existsb (String.eqb "companyId_code") codeIndexTarget);
      (split; [simpl; discriminate|reflexivity])|]);
    right; exists companyId, company, type; repeat split; assumption.
Qed.

(** The ways a request can change the store. *)
Lemma request_cases st st' :
  request st st' ->
  st' = st
  \/ (exists newId a,
         accounts st !! newId = None
         /\ accountCodeTaken (account_companyId a) (account_code a) st = false
         /\ st' = setAccounts (<[newId := a]> (accounts st)) st)
  \/ (exists newId e,
         entry_status e = DRAFT /\ entry_number e = None /\ entry_postedAt e = None
         /\ journalEntries st !! newId = None
         /\ st' = setJournalEntries (<[newId := e]> (journalEntries st)) st)
  \/ (exists id e j now,
         journalEntries st !! id = Some e /\ entry_status e = DRAFT /\ balanced e
         /\ journals st !! entry_journalId e = Some j
         /\ st' = mkStore (companies st) (accounts st)
                    (<[entry_journalId e := advancedJournal j]> (journals st))
                    (<[id := postedEntry e (postJournalEntry_number e j) now]>
                       (journalEntries st))
                    (customerInvoices st))
  \/ (exists newId i,
         invoice_status i = InvoiceStatus.DRAFT /\ invoice_number i = None
         /\ journalEntryId i = None /\ invoice_postedAt i = None
         /\ customerInvoices st !! newId = None
         /\ st' = setCustomerInvoices (<[newId := i]> (customerInvoices st)) st)
  \/ (exists id i c newEntryId salesJournalId arAccountId now1 now2,
         customerInvoices st !! id = Some i
         /\ invoice_status i = InvoiceStatus.DRAFT
         /\ companies st !! invoice_companyId i = Some c
         /\ totalAmount i = sumOfLineTotals (invoice_lines i)
         /\ journalEntries st !! newEntryId = None
         /\ st' = mkStore
                    (<[invoice_companyId i := advancedCompany c]> (companies st))
                    (accounts st) (journals st)
                    (<[newEntryId := invoiceEntry i salesJournalId arAccountId
                                       (postCustomerInvoice_number i c) now1]>
                       (journalEntries st))
                    (<[id := postedInvoice i (postCustomerInvoice_number i c) now2
                               newEntryId]>
                       (customerInvoices st))).
Proof.
  intros [trim target body newId s
         |newDate setHoursZero coercedGtZero body newId s
         |id now s
         |trim newDate errorMessage body newId partners s
         |id newEntryId now1 now2 s].
  - destruct (createAccount_cases trim target body newId s)
      as [[_ Hst]|(companyId & company & type & _ & _ & _ & Hnew & Htaken & Heq)];
      [left; exact Hst|].
    right; left. rewrite Heq. cbv zeta. eexists newId, _.
    repeat split; [exact Hnew|exact Htaken].
  - destruct (createJournalEntry_cases newDate setHoursZero coercedGtZero body newId s)
      as [[_ Hst]|(e & _ & Hnew & Hs & Hn & Hp & Heq)]; [left; exact Hst|].
    right; right; left. exists newId, e. rewrite Heq. auto.
  - destruct (postJournalEntry_cases id now s)
      as [[_ Hst]|(e & j & _ & He & Hs & _ & Hbal & Hj & _ & _ & Heq)]; [left; exact Hst|].
    do 3 right; left. exists id, e, j, now. rewrite Heq. auto.
  - destruct (createCustomerInvoice_cases trim newDate errorMessage body newId partners s)
      as [[_ Hst]|(companyId & company & partner & d & validated & H)];
      [left; exact Hst|].
    destruct H as (_ & _ & _ & _ & _ & _ & Hnew & Heq).
    do 4 right; left. rewrite Heq. cbv zeta. eexists newId, _.
    repeat split; try reflexivity. exact Hnew.
  - destruct (postCustomerInvoice_cases id newEntryId now1 now2 s)
      as [[_ Hst]|(i & c & sj & j & ar & a & H)]; [left; exact Hst|].
    destruct H as (Hi & Hs & _ & _ & _ & _ & Hc & Hbal & Hnew & _ & _ & _ & Heq).
    do 5 right. exists id, i, c, newEntryId, sj, ar, now1, now2. rewrite Heq. auto 10.
Qed.

(** *** What no request undoes *)

Lemma request_keeps_posted_entry st st' k e :
  request st st' ->
  journalEntries st !! k = Some e -> entry_status e = POSTED ->
  journalEntries st' !! k = Some e.
Proof.
  intros Hreq Hk Hposted.
  destruct (request_cases st st' Hreq)
    as [->|[(newId & a & _ & _ & ->)
           |[(newId & e0 & _ & _ & _ & Hnew & ->)
            |[(id & e0 & j & now & He0 & Hdraft & _ & _ & ->)
             |[(newId & i & _ & _ & _ & _ & _ & ->)
              |(id & i & c & newEntryId & sj & ar & now1 & now2 & _ & _ & _ & _ & Hnew & ->)]]]]];
    cbn [journalEntries setAccounts setJournalEntries setCustomerInvoices];
    try exact Hk; rewrite lookup_insert_ne; try exact Hk; congruence.
Qed.

Lemma request_keeps_posted_invoice st st' k i :
  request st st' ->
  customerInvoices st !! k = Some i -> invoice_status i <> InvoiceStatus.DRAFT ->
  customerInvoices st' !! k = Some i.
Proof.
  intros Hreq Hk Hposted.
  destruct (request_cases st st' Hreq)
    as [->|[(newId & a & _ & _ & ->)
           |[(newId & e0 & _ & _ & _ & Hnew & ->)
            |[(id & e0 & j & now & He0 & Hdraft & _ & _ & ->)
             |[(newId & i0 & _ & _ & _ & _ & Hnew & ->)
              |(id & i0 & c & newEntryId & sj & ar & now1 & now2 & Hi0 & Hdraft & _ & _ & _ & ->)]]]]];
    cbn [customerInvoices setAccounts setJournalEntries setCustomerInvoices];
    try exact Hk; rewrite lookup_insert_ne; try exact Hk; congruence.
Qed.

(** X4.  Over any sequence of requests a POSTED journal entry keeps its
    row as it is (number, status, date, lines and all), and so does an
    invoice that is no longer a draft: posting is never undone and a
    posted document is never rewritten. *)
Theorem posted_documents_frozen st st' :
  rtc request st st' ->
  (forall k e, journalEntries st !! k = Some e -> entry_status e = POSTED ->
               journalEntries st' !! k = Some e)
  /\ (forall k i, customerInvoices st !! k = Some i ->
                  invoice_status i <> InvoiceStatus.DRAFT ->
                  customerInvoices st' !! k = Some i).
Proof.
  induction 1 as [st|st1 st2 st3 Hreq _ [IHe IHi]].
  - split; auto.
  - split.
    + intros k e Hk Hposted. apply IHe; [|exact Hposted].
      exact (request_keeps_posted_entry st1 st2 k e Hreq Hk Hposted).
    + intros k i Hk Hposted. apply IHi; [|exact Hposted].
      exact (request_keeps_posted_invoice st1 st2 k i Hreq Hk Hposted).
Qed.

Lemma countersAdvanced_refl st : countersAdvanced st st.
Proof.
  split.
  - intros k [c0 c1 c2 c3 n] Hk. exists n. split; [exact Hk|]. simpl. lia.
  - intros k [c0 c1 c2 n] Hk. exists n. split; [exact Hk|]. simpl. lia.
Qed.

Lemma countersAdvanced_same st st' :
  journals st' = journals st -> companies st' = companies st -> countersAdvanced st st'.
Proof.
  intros Hj Hc. destruct (countersAdvanced_refl st) as [H1 H2].
  split; [rewrite Hj|rewrite Hc]; assumption.
Qed.

Lemma countersAdvanced_trans st1 st2 st3 :
  countersAdvanced st1 st2 -> countersAdvanced st2 st3 -> countersAdvanced st1 st3.
Proof.
  intros [Hj12 Hc12] [Hj23 Hc23]. split.
  - intros k j Hk. destruct (Hj12 k j Hk) as (n & Hk2 & Hle).
    destruct (Hj23 k _ Hk2) as (m & Hk3 & Hle'). simpl in *.
    exists m. split; [exact Hk3|lia].
  - intros k c Hk. destruct (Hc12 k c Hk) as (n & Hk2 & Hle).
    destruct (Hc23 k _ Hk2) as (m & Hk3 & Hle'). simpl in *.
    exists m. split; [exact Hk3|lia].
Qed.

Lemma request_advances_counters st st' : request st st' -> countersAdvanced st st'.
Proof.
  intros Hreq.
  destruct (request_cases st st' Hreq)
    as [->|[(newId & a & _ & _ & ->)
           |[(newId & e0 & _ & _ & _ & Hnew & ->)
            |[(id & e0 & j & now & He0 & Hdraft & _ & Hj & ->)
             |[(newId & i0 & _ & _ & _ & _ & Hnew & ->)
              |(id & i0 & c & newEntryId & sj & ar & now1 & now2 & _ & _ & Hc & _ & _ & ->)]]]]];
    try (apply countersAdvanced_same; reflexivity).
  - split; [|exact (proj2 (countersAdvanced_refl st))]. cbn [journals].
    intros k j' Hk. destruct (decide (entry_journalId e0 = k)) as [<-|Hne].
    + rewrite Hj in Hk. injection Hk as <-. rewrite lookup_insert_eq.
      exists (nextNumber j + 1). split; [reflexivity|lia].
    + rewrite lookup_insert_ne by exact Hne.
      exact (proj1 (countersAdvanced_refl st) k j' Hk).
  - split; [exact (proj1 (countersAdvanced_refl st))|]. cbn [companies].
    intros k c' Hk. destruct (decide (invoice_companyId i0 = k)) as [<-|Hne].
    + rewrite Hc in Hk. injection Hk as <-. rewrite lookup_insert_eq.
      exists (invoiceNextNumber c + 1). split; [reflexivity|lia].
    + rewrite lookup_insert_ne by exact Hne.
      exact (proj2 (countersAdvanced_refl st) k c' Hk).
Qed.

(** X5.  Over any sequence of requests no journal and no company is
    removed or renamed, and their counters never go back: each is at
    least what it was. *)
Theorem counters_never_go_back st st' :
  rtc request st st' -> countersAdvanced st st'.
Proof.
  induction 1 as [st|st1 st2 st3 Hreq _ IH].
  - apply countersAdvanced_refl.
  - exact (countersAdvanced_trans _ _ _ (request_advances_counters _ _ Hreq) IH).
Qed.

(** *** Invariants of the store *)

Lemma request_keeps_draftsUnnumbered st st' :
  request st st' -> draftsUnnumbered st -> draftsUnnumbered st'.
Proof.
  intros Hreq Hinv k e' Hk Hdraft'.
  destruct (request_cases st st' Hreq)
    as [->|[(newId & a & _ & _ & ->)
           |[(newId & e0 & Hs0 & Hn0 & Hp0 & Hnew & ->)
            |[(id & e0 & j & now & He0 & Hdraft & _ & _ & ->)
             |[(newId & i0 & _ & _ & _ & _ & _ & ->)
              |(id & i0 & c & newEntryId & sj & ar & now1 & now2 & _ & _ & _ & _ & _ & ->)]]]]];
    cbn [journalEntries setAccounts setJournalEntries setCustomerInvoices] in Hk;
    try exact (Hinv k e' Hk Hdraft').
  - destruct (decide (newId = k)) as [->|Hne].
    + rewrite lookup_insert_eq in Hk. injection Hk as <-. auto.
    + rewrite lookup_insert_ne in Hk by exact Hne. exact (Hinv k e' Hk Hdraft').
  - destruct (decide (id = k)) as [->|Hne].
    + rewrite lookup_insert_eq in Hk. injection Hk as <-. discriminate.
    + rewrite lookup_insert_ne in Hk by exact Hne. exact (Hinv k e' Hk Hdraft').
  - destruct (decide (newEntryId = k)) as [->|Hne].
    + rewrite lookup_insert_eq in Hk. injection Hk as <-. discriminate.
    + rewrite lookup_insert_ne in Hk by exact Hne. exact (Hinv k e' Hk Hdraft').
Qed.

(** X6.  If every DRAFT entry of the store has no number and no posting
    time, this stays so over any sequence of requests: a number appears
    on an entry only together with status POSTED. *)
Theorem drafts_stay_unnumbered st st' :
  rtc request st st' -> draftsUnnumbered st -> draftsUnnumbered st'.
Proof.
  induction 1 as [st|st1 st2 st3 Hreq _ IH]; [auto|].
  intros Hinv. apply IH. exact (request_keeps_draftsUnnumbered _ _ Hreq Hinv).
Qed.



Lemma request_keeps_invoicesLinked st st' :
  request st st' -> invoicesLinked st -> invoicesLinked st'.
Proof.
  intros Hreq Hinv k i' entryId Hk Hlink.
  destruct (request_cases st st' Hreq)
    as [->|[(newId & a & _ & _ & ->)
           |[(newId & e0 & Hs0 & _ & _ & Hnew & ->)
            |[(id & e0 & j & now & He0 & Hdraft & Hbal & _ & ->)
             |[(newId & i0 & _ & _ & Hnolink & _ & Hnew & ->)
              |(id & i0 & c & newEntryId & sj & ar & now1 & now2 & Hi0 & _ & _ & Hbal & Hnew & ->)]]]]];
    cbn [journalEntries customerInvoices setAccounts setJournalEntries
           setCustomerInvoices] in *;
    try exact (Hinv k i' entryId Hk Hlink).
  - destruct (Hinv k i' entryId Hk Hlink) as (e & He & H).
    exists e. split; [|exact H]. rewrite lookup_insert_ne; [exact He|congruence].
  - destruct (Hinv k i' entryId Hk Hlink) as (e & He & Hposted & H).
    exists e. split; [|auto]. rewrite lookup_insert_ne; [exact He|congruence].
  - destruct (decide (newId = k)) as [->|Hne].
    + rewrite lookup_insert_eq in Hk. injection Hk as <-. congruence.
    + rewrite lookup_insert_ne in Hk by exact Hne. exact (Hinv k i' entryId Hk Hlink).
  - destruct (decide (id = k)) as [->|Hne].
    + rewrite lookup_insert_eq in Hk. injection Hk as <-.
      cbn [journalEntryId postedInvoice] in Hlink. injection Hlink as <-.
      rewrite lookup_insert_eq. eexists. split; [reflexivity|].
      unfold invoiceEntry, postedInvoice.
      cbn [entry_status entry_companyId entry_date journalLines invoice_companyId
             invoiceDate totalAmount].
      destruct (invoiceJournalLines_sums ar i0 (postCustomerInvoice_number i0 c))
        as [-> ->]. auto.
    + rewrite lookup_insert_ne in Hk by exact Hne.
      destruct (Hinv k i' entryId Hk Hlink) as (e & He & H).
      exists e. split; [|exact H]. rewrite lookup_insert_ne; [exact He|congruence].
Qed.

(** X8.  If every invoice that names a journal entry names a POSTED
    entry of its company, dated as the invoice, whose debit and credit
    totals equal the invoice total, this stays so over any sequence of
    requests; in particular it holds for the entry each invoice post
    creates. *)
Theorem invoices_stay_linked st st' :
  rtc request st st' -> invoicesLinked st -> invoicesLinked st'.
Proof.
  induction 1 as [st|st1 st2 st3 Hreq _ IH]; [auto|].
  intros Hinv. apply IH. exact (request_keeps_invoicesLinked _ _ Hreq Hinv).
Qed.

(** *** The invariants on the sample data *)

Lemma table_forall {A} (P : string -> A -> Prop) (table : gmap string A) :
  Forall (fun kv => P kv.1 kv.2) (map_to_list table) ->
  forall k x, table !! k = Some x -> P k x.
Proof.
  intros Hall k x Hk. rewrite Forall_forall in Hall.
  apply (Hall (k, x)). apply elem_of_map_to_list. exact Hk.
Qed.

Lemma demo_requests : rtc request Sample.seed Demo.st4.
Proof.
  apply (rtc_l _ _ Demo.st1);
    [exact (request_postJournalEntry "e1" Sample.jan2 Sample.seed)|].
  apply (rtc_l _ _ Demo.st2);
    [exact (request_postCustomerInvoice "i1" "e3" Sample.jan2 Sample.jan2 Demo.st1)|].
  apply (rtc_l _ _ Demo.st3);
    [exact (request_createCustomerInvoice Demo.trim Sample.newDate Demo.errorMessage
              Demo.orderBody "i2" Demo.partners Demo.st2)|].
  apply (rtc_l _ _ Demo.st4);
    [exact (request_postCustomerInvoice "i2" "e5" Sample.jan2 Sample.jan2 Demo.st3)|].
  apply rtc_refl.
Qed.

Lemma demo_requests_after_two : rtc request Demo.st2 Demo.st4.
Proof.
  apply (rtc_l _ _ Demo.st3);
    [exact (request_createCustomerInvoice Demo.trim Sample.newDate Demo.errorMessage
              Demo.orderBody "i2" Demo.partners Demo.st2)|].
  apply (rtc_l _ _ Demo.st4);
    [exact (request_postCustomerInvoice "i2" "e5" Sample.jan2 Sample.jan2 Demo.st3)|].
  apply rtc_refl.
Qed.

Lemma posted_documents_frozen_witness :
  (forall k e, journalEntries Demo.st2 !! k = Some e -> entry_status e = POSTED ->
               journalEntries Demo.st4 !! k = Some e)
  /\ (forall k i, customerInvoices Demo.st2 !! k = Some i ->
                  invoice_status i <> InvoiceStatus.DRAFT ->
                  customerInvoices Demo.st4 !! k = Some i).
Proof.
  apply (posted_documents_frozen Demo.st2 Demo.st4). exact demo_requests_after_two.
Defined.

Lemma counters_never_go_back_witness : countersAdvanced Sample.seed Demo.st4.
Proof. apply (counters_never_go_back Sample.seed Demo.st4). exact demo_requests. Defined.

Lemma drafts_stay_unnumbered_witness : draftsUnnumbered Demo.st4.
Proof.
  apply (drafts_stay_unnumbered Sample.seed Demo.st4); [exact demo_requests|].
  unfold draftsUnnumbered.
  apply (table_forall (fun _ e => entry_status e = DRAFT ->
                                  entry_number e = None /\ entry_postedAt e = None)
           (journalEntries Sample.seed)).
  vm_compute. repeat constructor.
Defined.


Lemma invoices_stay_linked_witness : invoicesLinked Demo.st4.
Proof.
  apply (invoices_stay_linked Sample.seed Demo.st4); [exact demo_requests|].
  unfold invoicesLinked. intros k i entryId Hk. revert entryId. revert k i Hk.
  apply (table_forall
           (fun _ i => forall entryId, journalEntryId i = Some entryId ->
              exists e,
                journalEntries Sample.seed !! entryId = Some e
                /\ entry_status e = POSTED
                /\ entry_companyId e = invoice_companyId i
                /\ entry_date e = invoiceDate i
                /\ sumDebit (journalLines e) = totalAmount i
                /\ sumCredit (journalLines e) = totalAmount i)
           (customerInvoices Sample.seed)).
  vm_compute. repeat constructor. discriminate.
Defined.

(** After the four requests both posted invoices name entries that are
    POSTED and carry their totals. *)
Example linked_entries_of_the_sample :
  exists e3 e5,
    journalEntries Demo.st4 !! "e3" = Some e3
    /\ journalEntries Demo.st4 !! "e5" = Some e5
    /\ sumDebit (journalLines e3) = 10000 /\ sumCredit (journalLines e3) = 10000
    /\ sumDebit (journalLines e5) = 13749 /\ sumCredit (journalLines e5) = 13749.
Proof.
  do 2 eexists. split; [vm_compute; reflexivity|].
  split; [vm_compute; reflexivity|]. repeat split.
Qed.

(** *** Document numbers determine their counter *)

Lemma slashFree_append a b : slashFree (a ++ b) = slashFree a && slashFree b.
Proof.
  induction a as [|c a IH]; simpl; [reflexivity|]. rewrite IH. apply andb_assoc.
Qed.

Lemma string_of_uint_slashFree d : slashFree (NilEmpty.string_of_uint d) = true.
Proof. induction d; simpl; auto. Qed.

Lemma numberToString_slashFree z : slashFree (numberToString z) = true.
Proof.
  unfold numberToString, NilZero.string_of_int, NilZero.string_of_uint.
  destruct (Z.to_int z) as [d|d]; destruct d; simpl;
    try reflexivity; apply string_of_uint_slashFree.
Qed.

Lemma repeatChar_slashFree n : slashFree (repeatChar n "0") = true.
Proof. induction n; simpl; auto. Qed.

Lemma paddedSequence_slashFree n : slashFree (paddedSequence n) = true.
Proof.
  unfold paddedSequence, padStart.
  rewrite slashFree_append, repeatChar_slashFree, numberToString_slashFree. reflexivity.
Qed.

(** Two strings cut at their last slash agree part by part. *)
Lemma split_at_last_slash a b p q :
  slashFree p = true -> slashFree q = true ->
  a ++ "/" ++ p = b ++ "/" ++ q -> a = b /\ p = q.
Proof.
  change ("/" ++ p) with (String "/" p). change ("/" ++ q) with (String "/" q).
  intros Hp Hq. revert b. induction a as [|c a IH]; intros [|c' b] H.
  - injection H as ->. auto.
  - injection H as <- ->. rewrite slashFree_append in Hp. simpl in Hp.
    rewrite andb_false_r in Hp. discriminate.
  - injection H as -> <-. rewrite slashFree_append in Hq. simpl in Hq.
    rewrite andb_false_r in Hq. discriminate.
  - injection H as -> H. destruct (IH b H) as [-> ->]. auto.
Qed.

Lemma to_int_proper z : Z.to_int z <> Decimal.Pos Decimal.Nil /\ Z.to_int z <> Decimal.Neg Decimal.Nil.
Proof.
  destruct z as [|p|p]; simpl; split; try discriminate;
    intros [= H]; exact (DecimalPos.Unsigned.to_uint_nonnil p H).
Qed.

Lemma numberToString_value z :
  option_map Z.of_int (NilZero.int_of_string (numberToString z)) = Some z.
Proof.
  unfold numberToString. destruct (to_int_proper z) as [Hpos Hneg].
  rewrite (NilZero.isi _ Hpos Hneg). simpl. rewrite DecimalZ.of_to. reflexivity.
Qed.

Lemma numberToString_inj x y : numberToString x = numberToString y -> x = y.
Proof.
  intros H. pose proof (numberToString_value x) as Hx.
  rewrite H, numberToString_value in Hx. congruence.
Qed.

Lemma zeros_keep_value k s u :
  NilEmpty.uint_of_string s = Some u ->
  exists u', NilEmpty.uint_of_string (repeatChar k "0" ++ s) = Some u'
             /\ Z.of_uint u' = Z.of_uint u.
Proof.
  intros Hs. induction k as [|k (u' & Hu' & Hval)]; simpl; [eauto|].
  rewrite Hu'. simpl. exists (Decimal.D0 u'). split; [reflexivity|exact Hval].
Qed.

Lemma unsigned_digits_value t u :
  t <> EmptyString ->
  (forall rest, t <> String "-" rest) ->
  NilEmpty.uint_of_string t = Some u ->
  digitsValue t = Some (Z.of_uint u).
Proof.
  intros Hne Hminus Hu. unfold digitsValue, NilZero.int_of_string.
  destruct t as [|a t']; [contradiction|].
  destruct (Ascii.eqb_spec a "-") as [->|_]; [exfalso; exact (Hminus t' eq_refl)|].
  unfold NilZero.uint_of_string. rewrite Hu. reflexivity.
Qed.

(** The sequence part reads back as the counter, whatever its width. *)
Lemma paddedSequence_value n : 0 <= n -> digitsValue (paddedSequence n) = Some n.
Proof.
  intros Hn. unfold paddedSequence, padStart.
  assert (Hs : exists u, numberToString n = NilEmpty.string_of_uint u
                         /\ u <> Decimal.Nil /\ Z.of_uint u = n).
  { unfold numberToString. pose proof (DecimalZ.of_to n) as Hn'.
    destruct n as [|p|p]; [| |lia].
    - exists (Decimal.D0 Decimal.Nil). repeat split; discriminate.
    - exists (Pos.to_uint p). simpl in *. repeat split; [|apply DecimalPos.Unsigned.to_uint_nonnil|exact Hn'].
      unfold NilZero.string_of_uint.
      destruct (Pos.to_uint p) eqn:E; try reflexivity.
      exfalso. exact (DecimalPos.Unsigned.to_uint_nonnil p E). }
  destruct Hs as (u & -> & Hnil & Hval).
  destruct (zeros_keep_value (4 - String.length (NilEmpty.string_of_uint u))
              (NilEmpty.string_of_uint u) u (NilEmpty.usu u)) as (u' & Hu' & Hval').
  rewrite (unsigned_digits_value _ u'); [congruence| | |exact Hu'].
  - destruct (4 - String.length (NilEmpty.string_of_uint u))%nat; simpl; [|discriminate].
    destruct u; simpl; try discriminate. contradiction.
  - intros rest.
    destruct (4 - String.length (NilEmpty.string_of_uint u))%nat; simpl; [|discriminate].
    destruct u; simpl; discriminate.
Qed.

Lemma paddedSequence_inj n m :
  0 <= n -> 0 <= m -> paddedSequence n = paddedSequence m -> n = m.
Proof.
  intros Hn Hm H. pose proof (paddedSequence_value n Hn) as Hv.
  rewrite H, (paddedSequence_value m Hm) in Hv. congruence.
Qed.

Lemma append_assoc (a b c : string) : (a ++ b) ++ c = a ++ b ++ c.
Proof.
  induction a as [|x a IH]; [reflexivity|].
  change (String x ((a ++ b) ++ c) = String x (a ++ b ++ c)).
  rewrite IH. reflexivity.
Qed.

(** X9.  A journal entry number determines the journal code, the year
    and the counter it was formatted from, and an invoice number its
    year and counter (counters from 0 on, whatever their width): two
    posts get the same number only from the same code, year and
    counter, so a counter that only grows never issues a number
    twice. *)
Theorem document_numbers_injective code1 code2 year1 year2 n1 n2 :
  0 <= n1 -> 0 <= n2 ->
  (formatJournalEntryNumber code1 year1 n1 = formatJournalEntryNumber code2 year2 n2 ->
   code1 = code2 /\ year1 = year2 /\ n1 = n2)
  /\ (formatInvoiceNumber year1 n1 = formatInvoiceNumber year2 n2 ->
      year1 = year2 /\ n1 = n2).
Proof.
  intros Hn1 Hn2.
  assert (Hcore : forall a b,
             a ++ "/" ++ numberToString year1 ++ "/" ++ paddedSequence n1
             = b ++ "/" ++ numberToString year2 ++ "/" ++ paddedSequence n2 ->
             a = b /\ year1 = year2 /\ n1 = n2).
  { intros a b H.
    assert (H' : (a ++ "/" ++ numberToString year1) ++ "/" ++ paddedSequence n1
                 = (b ++ "/" ++ numberToString year2) ++ "/" ++ paddedSequence n2)
      by (rewrite !append_assoc; exact H).
    clear H. rename H' into H.
    apply split_at_last_slash in H as [H Hp]; try apply paddedSequence_slashFree.
    apply split_at_last_slash in H as [-> Hy]; try apply numberToString_slashFree.
    split; [reflexivity|]. split.
    - exact (numberToString_inj _ _ Hy).
    - exact (paddedSequence_inj _ _ Hn1 Hn2 Hp). }
  split.
  - intros H. exact (Hcore code1 code2 H).
  - intros H. destruct (Hcore "INV" "INV" H) as (_ & Hy & Hn). auto.
Qed.

Lemma document_numbers_injective_witness :
  formatJournalEntryNumber "GEN" 2026 9999 <> formatJournalEntryNumber "GEN" 2026 10000
  /\ formatInvoiceNumber 2026 12 <> formatInvoiceNumber 2027 12.
Proof.
  split; intros H.
  - destruct (proj1 (document_numbers_injective "GEN" "GEN" 2026 2026 9999 10000
                       ltac:(lia) ltac:(lia)) H) as (_ & _ & Hn).
    discriminate Hn.
  - destruct (proj2 (document_numbers_injective "GEN" "GEN" 2026 2027 12 12
                       ltac:(lia) ltac:(lia)) H) as (Hy & _).
    discriminate Hy.
Defined.

(** A worked pair of posts for [consecutive_posts_in_sequence]: the
    2026 draft, then the 2027 draft of the General journal. *)
Lemma consecutive_posts_in_sequence_witness :
  exists n1 n2, n1 = "GEN/2026/0001" /\ n2 = "GEN/2027/0002" /\ n1 <> n2.
Proof.
  destruct (consecutive_posts_in_sequence "e1" "e4" Sample.jan1 Sample.jan2 Sample.seed
              (postJournalEntry "e1" Sample.jan1 Sample.seed).1
              (postJournalEntry "e1" Sample.jan1 Sample.seed).2
              (postJournalEntry "e4" Sample.jan2
                 (postJournalEntry "e1" Sample.jan1 Sample.seed).2).1
              (postJournalEntry "e4" Sample.jan2
                 (postJournalEntry "e1" Sample.jan1 Sample.seed).2).2
              Sample.draftEntry Sample.nextYearEntry
              (mkJournal Sample.cid "GEN" "General Journal" GENERAL 1))
    as (n1 & n2 & _ & _ & H1 & H2 & Hne & _).
  - symmetry. apply surjective_pairing.
  - vm_compute. reflexivity.
  - symmetry. apply surjective_pairing.
  - vm_compute. reflexivity.
  - vm_compute. reflexivity.
  - vm_compute. reflexivity.
  - reflexivity.
  - reflexivity.
  - vm_compute. reflexivity.
  - exists n1, n2.
    split; [rewrite H1; vm_compute; reflexivity|].
    split; [rewrite H2; vm_compute; reflexivity|exact Hne].
Defined.

(** *** What a created document refers to *)

Lemma company_findFirst_byCreatedAt_Some st id company :
  company_findFirst_byCreatedAt st = Some (id, company) ->
  companies st !! id = Some company.
Proof.
  unfold company_findFirst_byCreatedAt. intros H.
  apply elem_of_map_to_list.
  revert H. generalize (id, company). generalize (map_to_list (companies st)).
  induction l as [|kc l IH]; intros found H; simpl in H; [discriminate|].
  destruct (fold_right _ None l) as [kc'|] eqn:Hrest.
  - destruct (company_createdAt kc.2 <=? company_createdAt kc'.2);
      injection H as <-; [left|right; apply IH; reflexivity].
  - injection H as <-. left.
Qed.

Lemma resolveCompanyId_Some companyId st id :
  resolveCompanyId companyId st = inr (inr id) -> is_Some (companies st !! id).
Proof.
  unfold resolveCompanyId. destruct (negb (truthy companyId)).
  - destruct (company_findFirst_byCreatedAt st) as [[k c]|] eqn:E; intros H;
      simplify_eq.
    eexists. apply company_findFirst_byCreatedAt_Some. exact E.
  - destruct companyId; try discriminate.
    destruct (companies st !! s) eqn:E; intros H; simplify_eq. eauto.
Qed.


Lemma journal_findUnique_Some companyId code st id journal :
  journal_findUnique_companyId_code companyId code st = Some (id, journal) ->
  journals st !! id = Some journal
  /\ journal_companyId journal = companyId /\ journal_code journal = code.
Proof.
  intros H. apply findFirst_Some in H as [Hlk Hp].
  apply andb_prop in Hp as [Hc Hk].
  apply String.eqb_eq in Hc, Hk. auto.
Qed.

Lemma accountMap_get_Some found code id a :
  accountMap_get found code = Some (id, a) ->
  In (id, a) found /\ account_code a = code.
Proof.
  unfold accountMap_get. intros H. apply find_some in H as [Hin Hp].
  split; [apply in_rev; exact Hin|]. apply String.eqb_eq. exact Hp.
Qed.

Lemma linesData_lines companyId st found lines stored :
  (forall id a, In (id, a) found ->
                accounts st !! id = Some a /\ account_companyId a = companyId) ->
  linesData found lines = inr stored ->
  Forall2 (entryLineOf companyId st) lines stored.
Proof.
  intros Hfound. revert stored.
  induction lines as [|line rest IH]; intros stored H; simpl in H.
  - injection H as <-. constructor.
  - destruct (lineData found line) as [e|l] eqn:Hl; [discriminate|].
    destruct (linesData found rest) as [e|ls]; [discriminate|].
    injection H as <-. constructor; [|apply IH; reflexivity].
    unfold lineData in Hl.
    destruct (accountMap_get found _) as [[id a]|] eqn:Hget; [|discriminate].
    apply accountMap_get_Some in Hget as [Hin Hcode].
    destruct (Hfound id a Hin) as [Hlk Hc].
    destruct (orNull _) as [e|label]; [discriminate|].
    destruct (_ && _); [|discriminate]. injection Hl as <-.
    exists a. simpl. auto 10.
Qed.

Section CreatedEntry.
Variable newDate : string -> option JsDate.
Variable setHoursZero : JsDate -> JsDate.
Variable coercedGtZero : JsValue -> bool.

Lemma createJournalEntry_persist_created body newId st response st' :
  createJournalEntry_persist newDate setHoursZero body newId st = inr (response, st') ->
  status response = 201 ->
  exists e j parsed,
    response = mkResponse 201 (EntryJson newId e)
    /\ st' = setJournalEntries (<[newId := e]> (journalEntries st)) st
    /\ is_Some (companies st !! entry_companyId e)
    /\ journals st !! entry_journalId e = Some j
    /\ journal_companyId j = entry_companyId e
    /\ journal_code j = stringOf (prop body "journalCode")
    /\ newDate (stringOf (prop body "date")) = Some parsed
    /\ entry_date e = setHoursZero parsed
    /\ Forall2 (entryLineOf (entry_companyId e) st)
         (arrayItems (prop body "lines")) (journalLines e).
Proof.
  unfold createJournalEntry_persist. intros H Hstatus.
  destruct (resolveCompanyId _ st) as [exn|[notFound|companyId]] eqn:Hc;
    [discriminate| |].
  { injection H as <- <-. unfold resolveCompanyId in Hc.
    repeat case_match; simplify_eq; discriminate. }
  destruct (journal_findUnique_companyId_code companyId _ st) as [[journalId j]|] eqn:Hj;
    [|injection H as <- <-; discriminate].
  destruct (negb _); [injection H as <- <-; discriminate|].
  destruct (newDate _) as [parsed|] eqn:Hd; [|discriminate].
  destruct (orNull _) as [exn|memo]; [try discriminate; destruct (linesData _ _); discriminate|].
  destruct (linesData _ _) as [exn|stored] eqn:Hlines; [discriminate|].
  unfold journalEntry_create in H. cbn [entry_number] in H.
  destruct (journalEntries st !! newId); [discriminate|].
  injection H as <- <-.
  apply journal_findUnique_Some in Hj as (Hj & Hjc & Hcode).
  eexists _, j, parsed. cbn [entry_companyId entry_journalId entry_date journalLines].
  repeat split; try assumption; try reflexivity.
  - exact (resolveCompanyId_Some _ _ _ Hc).
  - refine (linesData_lines companyId st _ _ _ _ Hlines).
    intros id a Hin. apply filter_In in Hin as [Hin Hp].
    apply list_elem_of_In, elem_of_map_to_list in Hin.
    apply andb_prop in Hp as [Hp _]. apply String.eqb_eq in Hp. auto.
Qed.

(** X11.  A journal entry that createJournalEntry stores (201) refers
    only to rows that exist: its company exists, its journal is the
    journal of that company with the submitted code, it is dated at
    the parsed date set to midnight, and its lines are the submitted
    lines in order, each on the account of that company that has the
    submitted code, without partner, with debit and credit at two
    decimals; the store gains this entry and nothing else. *)
Theorem createJournalEntry_created body newId st response st' :
  createJournalEntry newDate setHoursZero coercedGtZero body newId st = (response, st') ->
  status response = 201 ->
  exists e j parsed,
    response = mkResponse 201 (EntryJson newId e)
    /\ st' = setJournalEntries (<[newId := e]> (journalEntries st)) st
    /\ is_Some (companies st !! entry_companyId e)
    /\ journals st !! entry_journalId e = Some j
    /\ journal_companyId j = entry_companyId e
    /\ journal_code j = stringOf (prop body "journalCode")
    /\ newDate (stringOf (prop body "date")) = Some parsed
    /\ entry_date e = setHoursZero parsed
    /\ Forall2 (entryLineOf (entry_companyId e) st)
         (arrayItems (prop body "lines")) (journalLines e).
Proof.
  unfold createJournalEntry. intros H Hstatus.
  assert (Hcore : match validationErrors newDate coercedGtZero body with
                  | Some [] =>
                      match createJournalEntry_persist newDate setHoursZero body newId st with
                      | inr (r, s) => (r, s)
                      | inl _ => (mkResponse 500 (ErrorJson "Failed to create journal entry"), st)
                      end
                  | Some errors => (mkResponse 400 (ErrorJson (join "; " errors)), st)
                  | None => (mkResponse 500 (ErrorJson "Failed to create journal entry"), st)
                  end = (response, st')).
  { destruct body; try exact H; injection H as <- <-; discriminate. }
  clear H.
  destruct (validationErrors newDate coercedGtZero body) as [[|err errs]|];
    [|injection Hcore as <- <-; discriminate..].
  destruct (createJournalEntry_persist newDate setHoursZero body newId st)
    as [exn|[r s]] eqn:Hp; [injection Hcore as <- <-; discriminate|].
  injection Hcore as -> ->.
  exact (createJournalEntry_persist_created _ _ _ _ _ Hp Hstatus).
Qed.

End CreatedEntry.

Lemma accountCodeTaken_false companyId code st :
  accountCodeTaken companyId code st = false <->
  forall k a, accounts st !! k = Some a ->
              account_companyId a = companyId -> account_code a <> code.
Proof.
  unfold accountCodeTaken. split.
  - intros H k a Hlk Hc Hcode.
    assert (Hex : existsb (fun kv : string * Account =>
                             String.eqb (account_companyId kv.2) companyId
                             && String.eqb (account_code kv.2) code)
                    (map_to_list (accounts st)) = true).
    { apply existsb_exists. exists (k, a). split.
      - apply list_elem_of_In, elem_of_map_to_list. exact Hlk.
      - simpl. rewrite Hc, Hcode, !String.eqb_refl. reflexivity. }
    congruence.
  - intros H. apply not_true_is_false. intros Hex.
    apply existsb_exists in Hex as ([k a] & Hin & Hp).
    apply list_elem_of_In, elem_of_map_to_list in Hin.
    apply andb_prop in Hp as [Hc Hcode]. apply String.eqb_eq in Hc, Hcode.
    exact (H k a Hin Hc Hcode).
Qed.

Section UnknownAccounts.
Variable newDate : string -> option JsDate.
Variable setHoursZero : JsDate -> JsDate.
Variable coercedGtZero : JsValue -> bool.

(** X12.  When the body is valid and its company and journal resolve,
    but the company has no account for some of the submitted account
    codes, createJournalEntry writes nothing and answers 404 with one
    message that lists every such code, in the order of the lines and
    as often as it was submitted. *)
Theorem createJournalEntry_unknown_accounts body newId st companyId journalId journal :
  validationErrors newDate coercedGtZero body = Some [] ->
  resolveCompanyId (prop body "companyId") st = inr (inr companyId) ->
  journal_findUnique_companyId_code companyId (stringOf (prop body "journalCode")) st
  = Some (journalId, journal) ->
  List.filter (fun code => negb (accountCodeTaken companyId code st))
    (List.map (fun line => stringOf (prop line "accountCode"))
       (arrayItems (prop body "lines"))) <> [] ->
  createJournalEntry newDate setHoursZero coercedGtZero body newId st
  = (mkResponse 404
       (ErrorJson ("Account(s) not found: "
                   ++ join ", "
                        (List.filter (fun code => negb (accountCodeTaken companyId code st))
                           (List.map (fun line => stringOf (prop line "accountCode"))
                              (arrayItems (prop body "lines")))))),
     st).
Proof.
  intros Hv Hc Hj Hmissing.
  set (codes := List.map (fun line => stringOf (prop line "accountCode"))
                  (arrayItems (prop body "lines"))) in *.
  assert (Hfilter :
    List.filter
      (fun code =>
         negb (existsb (fun kv : string * Account => String.eqb (account_code kv.2) code)
                 (findMany (fun a => String.eqb (account_companyId a) companyId
                                     && existsb (String.eqb (account_code a)) codes)
                    (accounts st))))
      codes
    = List.filter (fun code => negb (accountCodeTaken companyId code st)) codes).
  { apply filter_ext_in. intros code Hin. f_equal.
    unfold accountCodeTaken, findMany.
    apply eq_true_iff_eq. rewrite !existsb_exists. split.
    - intros ([k a] & Hk & Hcode). apply filter_In in Hk as [Hk Hp].
      apply andb_prop in Hp as [Hp _].
      exists (k, a). split; [exact Hk|]. simpl in *. rewrite Hp, Hcode. reflexivity.
    - intros ([k a] & Hk & Hp). apply andb_prop in Hp as [Hp Hcode].
      exists (k, a). split; [|exact Hcode]. apply filter_In. split; [exact Hk|].
      simpl in *. rewrite Hp. simpl. apply existsb_exists. exists code.
      split; [exact Hin|]. apply String.eqb_eq in Hcode. rewrite Hcode.
      apply String.eqb_refl. }
  assert (Hpersist :
    createJournalEntry_persist newDate setHoursZero body newId st
    = inr (mkResponse 404
             (ErrorJson ("Account(s) not found: "
                         ++ join ", "
                              (List.filter
                                 (fun code => negb (accountCodeTaken companyId code st))
                                 codes))), st)).
  { unfold createJournalEntry_persist. rewrite Hc, Hj. cbv zeta. fold codes.
    rewrite Hfilter.
    destruct (List.filter (fun code => negb (accountCodeTaken companyId code st)) codes);
      [contradiction|reflexivity]. }
  unfold createJournalEntry. rewrite Hv, Hpersist.
  destruct body; try reflexivity; simpl in Hv; discriminate.
Qed.

End UnknownAccounts.

(** *** createAccount *)

Section CreatedAccount.
Variable trim : string -> string.
Variable codeIndexTarget : list string.



(** X14.  A code that an account of the company already carries is
    refused: createAccount writes nothing and answers 409 with the
    message naming the code when the client reports the index
    companyId_code as the target of the violation, and 500
    otherwise. *)
Theorem createAccount_duplicate_refused body newId st companyId company type k b :
  accountErrors trim body = [] ->
  resolveCompany (prop body "companyId") st = inr (inr (companyId, company)) ->
  accountTypeOf (prop body "type") = Some type ->
  accounts st !! newId = None ->
  accounts st !! k = Some b ->
  account_companyId b = companyId ->
  account_code b = trim (stringOf (prop body "code")) ->
  createAccount trim codeIndexTarget body newId st
  = (if existsb (String.eqb "companyId_code") codeIndexTarget
     then mkReply 409
            (ErrorBody ("Account with code " ++ dquote
                        ++ trim (stringOf (prop body "code")) ++ dquote
                        ++ " already exists for this company"))
     else mkReply 500 (ErrorBody "Failed to create account"),
     st).
Proof.
  intros Herr Hc Ht Hnew Hk Hcomp Hcode.
  assert (Htaken : accountCodeTaken companyId (trim (stringOf (prop body "code"))) st
                   = true).
  { apply not_false_is_true. intros Hfree.
    exact (proj1 (accountCodeTaken_false _ _ _) Hfree k b Hk Hcomp Hcode). }
  unfold createAccount, createAccount_try, account_create, createAccount_catch.
  rewrite Herr, Hc, Ht, Hnew, Htaken. cbn [length Nat.eqb negb].
  destruct (existsb (String.eqb "companyId_code") codeIndexTarget);
    destruct body; try reflexivity; simpl in Herr; discriminate.
Qed.

End CreatedAccount.

Lemma request_keeps_accountCodesUnique st st' :
  request st st' -> accountCodesUnique st -> accountCodesUnique st'.
Proof.
  intros Hreq Hu.
  destruct (request_cases st st' Hreq)
    as [->|[(newId & a & Hnew & Htaken & ->)|[(newId & e & _ & _ & _ & _ & ->)
       |[(id & e & j & now & _ & _ & _ & _ & ->)|[(newId & i & _ & _ & _ & _ & _ & ->)
       |(id & i & c & ne & sj & ar & n1 & n2 & _ & _ & _ & _ & _ & ->)]]]]];
    try exact Hu.
  intros id1 id2 a1 a2 H1 H2 Hc Hcode. cbn [accounts setAccounts] in H1, H2.
  pose proof (proj1 (accountCodeTaken_false _ _ _) Htaken) as Hfree.
  destruct (decide (id1 = newId)) as [->|Hn1]; destruct (decide (id2 = newId)) as [->|Hn2].
  - reflexivity.
  - rewrite lookup_insert_eq in H1. rewrite lookup_insert_ne in H2 by congruence.
    injection H1 as ->. exfalso. exact (Hfree id2 a2 H2 (eq_sym Hc) (eq_sym Hcode)).
  - rewrite lookup_insert_eq in H2. rewrite lookup_insert_ne in H1 by congruence.
    injection H2 as ->. exfalso. exact (Hfree id1 a1 H1 Hc Hcode).
  - rewrite lookup_insert_ne in H1, H2 by congruence.
    exact (Hu id1 id2 a1 a2 H1 H2 Hc Hcode).
Qed.

(** X15.  The unique index on (companyId, code) of accounts is never
    violated: if no two accounts of one company share a code, no
    sequence of requests makes two of them share one. *)
Theorem account_codes_stay_unique st st' :
  rtc request st st' -> accountCodesUnique st -> accountCodesUnique st'.
Proof.
  induction 1 as [|s1 s2 s3 Hreq _ IH]; [auto|].
  intros Hu. apply IH. exact (request_keeps_accountCodesUnique _ _ Hreq Hu).
Qed.

(** *** createCustomerInvoice *)

Lemma toDecimal2_cents n : toDecimal2 (cents n) = n.
Proof.
  unfold toDecimal2, cents. cbn [this Q2Qc].
  pose proof (Qred_correct (n # 100)) as Heq. unfold Qeq in Heq.
  cbn [Qnum Qden] in Heq.
  set (a := Qnum (Qred (n # 100))) in *.
  set (d := Z.pos (Qden (Qred (n # 100)))) in *.
  assert (Hd : 0 < d) by (subst d; apply Pos2Z.is_pos).
  clearbody a d. rewrite Heq. destruct (Z.ltb_spec (n * d) 0) as [Hneg|Hpos].
  - replace (2 * - (n * d) + d) with ((1 + - n * 2) * d) by ring.
    rewrite Z.div_mul_cancel_r, Z.div_add by lia.
    change (1 / 2) with 0. lia.
  - replace (2 * (n * d) + d) with ((1 + n * 2) * d) by ring.
    rewrite Z.div_mul_cancel_r, Z.div_add by lia.
    change (1 / 2) with 0. lia.
Qed.

Lemma cents_add a b : (cents a + cents b)%Qc = cents (a + b).
Proof.
  unfold cents. apply Qc_is_canon. simpl. rewrite !Qred_correct.
  unfold Qeq. simpl. lia.
Qed.

Lemma cents_zero : 0%Qc = cents 0.
Proof. apply Qc_is_canon. reflexivity. Qed.

Section CreatedInvoice.
Variable trim : string -> string.
Variable newDate : string -> option JsDate.
Variable errorMessage : Exception -> string.

Lemma invoiceLineErrors_nil index line :
  (length (invoiceLineErrors trim index line) =? 0)%nat = true ->
  exists q p,
    prop line "quantity" = JsNumber q /\ prop line "unitPrice" = JsNumber p
    /\ (0 < q)%Qc /\ (0 <= p)%Qc.
Proof.
  intros H. apply Nat.eqb_eq, length_zero_iff_nil in H.
  unfold invoiceLineErrors in H.
  apply app_eq_nil in H as [_ H]. apply app_eq_nil in H as [Hq H].
  apply app_eq_nil in H as [Hp _].
  unfold quantityErrors in Hq. unfold unitPriceErrors in Hp.
  destruct (prop line "quantity") as [| | |q| | |]; try discriminate.
  destruct (prop line "unitPrice") as [| | |p| | |]; try discriminate.
  destruct (bool_decide (q <= 0)%Qc) eqn:Eq; [discriminate|].
  destruct (bool_decide (p < 0)%Qc) eqn:Ep; [discriminate|].
  apply bool_decide_eq_false in Eq, Ep.
  exists q, p. repeat split.
  - apply Qcnot_le_lt. exact Eq.
  - apply Qcnot_lt_le. exact Ep.
Qed.

Lemma validateInvoiceLines_lines companyId st index lines validated :
  validateInvoiceLines trim companyId st index lines = inr (inr validated) ->
  Forall2 (invoiceLineOf trim companyId st) lines (List.map storedLine validated)
  /\ List.map vl_lineTotal validated = List.map lineProduct lines.
Proof.
  revert index validated.
  induction lines as [|line rest IH]; intros index validated H.
  - injection H as <-. split; [constructor|reflexivity].
  - assert (Hbody :
      (let lineErrors := invoiceLineErrors trim index line in
       if negb (length lineErrors =? 0)%nat then
         inr (inl (400, "Validation error for line "
                        ++ numberToString (Z.of_nat index + 1) ++ ": "
                        ++ join "; " lineErrors))
       else
         let accountCode := stringOf (prop line "incomeAccountCode") in
         match account_findUnique_companyId_code companyId (trim accountCode) st with
         | None =>
             inr (inl (404, "Account with code " ++ dquote ++ accountCode ++ dquote
                            ++ " not found for this company (line "
                            ++ numberToString (Z.of_nat index + 1) ++ ")"))
         | Some (accountId, _) =>
             let quantity := numberOf (prop line "quantity") in
             let unitPrice := numberOf (prop line "unitPrice") in
             let lineTotal := (quantity * unitPrice)%Qc in
             match validateInvoiceLines trim companyId st (S index) rest with
             | inl e => inl e
             | inr (inl refusal) => inr (inl refusal)
             | inr (inr validated) =>
                 inr (inr (mkValidatedLine (trim (stringOf (prop line "description")))
                             quantity unitPrice lineTotal accountId :: validated))
             end
         end) = inr (inr validated)).
    { destruct line; first [exact H | discriminate H]. }
    clear H. cbv zeta in Hbody.
    destruct (length (invoiceLineErrors trim index line) =? 0)%nat eqn:Herr;
      [|discriminate].
    cbn [negb] in Hbody.
    destruct (account_findUnique_companyId_code companyId _ st) as [[accountId a]|] eqn:Ha;
      [|discriminate].
    destruct (validateInvoiceLines trim companyId st (S index) rest)
      as [e|[refusal|vs]] eqn:Hrest; try discriminate.
    injection Hbody as <-.
    destruct (IH _ _ Hrest) as [Hlines Htotals].
    apply invoiceLineErrors_nil in Herr as (q & p & Hq & Hp & Hqpos & Hpnn).
    apply account_findUnique_Some in Ha as (Hlk & Hcomp & Hcode).
    split.
    + constructor; [|exact Hlines].
      exists a, q, p. unfold storedLine. simpl.
      rewrite Hq, Hp. simpl. auto 12.
    + simpl. rewrite Htotals. reflexivity.
Qed.

Lemma sumValidated_fold validated :
  sumValidated validated
  = fold_left (fun sum total => (sum + total)%Qc) (List.map vl_lineTotal validated) 0%Qc.
Proof.
  unfold sumValidated. generalize 0%Qc.
  induction validated as [|l rest IH]; intros acc; simpl; [reflexivity|apply IH].
Qed.

Lemma exact_total_from totals m :
  Forall wholeCents totals ->
  toDecimal2 (fold_left (fun sum total => (sum + total)%Qc) totals (cents m))
  = m + foldr (fun total acc => toDecimal2 total + acc) 0 totals.
Proof.
  intros H. revert m. induction H as [|total rest [n ->] _ IH]; intros m; simpl.
  - rewrite toDecimal2_cents. lia.
  - rewrite cents_add, IH, toDecimal2_cents. lia.
Qed.

Lemma sumOfLineTotals_stored validated :
  sumOfLineTotals (List.map storedLine validated)
  = foldr (fun total acc => toDecimal2 total + acc) 0 (List.map vl_lineTotal validated).
Proof.
  unfold sumOfLineTotals.
  induction validated as [|l rest IH]; [reflexivity|].
  cbn [List.map foldr storedLine lineTotal]. rewrite IH. reflexivity.
Qed.


(** X17.  When every product quantity * unitPrice of the submitted
    lines is a whole number of hundredths, the total of the invoice
    that createCustomerInvoice stores is the sum of its stored line
    totals, which is what the balance check of postCustomerInvoice
    asks for. *)
Theorem createCustomerInvoice_exact_total body newId partners st reply st' :
  createCustomerInvoice trim newDate errorMessage body newId partners st = (reply, st') ->
  reply_status reply = 201 ->
  Forall (fun line => wholeCents (lineProduct line)) (arrayItems (prop body "lines")) ->
  exists i,
    customerInvoices st' !! newId = Some i
    /\ totalAmount i = sumOfLineTotals (invoice_lines i).
Proof.
  intros H Hstatus Hexact.
  destruct (createCustomerInvoice_cases trim newDate errorMessage body newId partners st)
    as [[Hfail _]|(companyId & company & partner & d & validated & Hc & Herr & Hp & Hpc
                   & Hv & Hd & Hnew & Heq)].
  { rewrite H in Hfail. contradiction. }
  rewrite H in Heq. cbv zeta in Heq. injection Heq as -> ->.
  destruct (validateInvoiceLines_lines _ _ _ _ _ Hv) as [_ Htotals].
  eexists. split; [cbn [customerInvoices setCustomerInvoices]; apply lookup_insert_eq|].
  cbn [totalAmount invoice_lines].
  rewrite sumValidated_fold, sumOfLineTotals_stored, Htotals, cents_zero.
  rewrite exact_total_from; [lia|].
  apply Forall_map. exact Hexact.
Qed.

End CreatedInvoice.

(** *** The further properties on the sample data *)

Lemma createJournalEntry_created_witness :
  exists e j,
    (Demo.createEntry Demo.entryBody "e9" Sample.seed).1
    = mkResponse 201 (EntryJson "e9" e)
    /\ journals Sample.seed !! entry_journalId e = Some j
    /\ journal_code j = "GEN"
    /\ Forall2 (entryLineOf (entry_companyId e) Sample.seed)
         (arrayItems (prop Demo.entryBody "lines")) (journalLines e).
Proof.
  destruct (createJournalEntry_created Sample.newDate Sample.setHoursZero
              Sample.coercedGtZero Demo.entryBody "e9" Sample.seed
              (Demo.createEntry Demo.entryBody "e9" Sample.seed).1
              (Demo.createEntry Demo.entryBody "e9" Sample.seed).2)
    as (e & j & parsed & Hr & _ & _ & Hj & _ & Hcode & _ & _ & Hlines).
  - apply surjective_pairing.
  - vm_compute. reflexivity.
  - exists e, j. auto.
Defined.

Lemma createJournalEntry_unknown_accounts_witness :
  Demo.createEntry Demo.strangerBody "e9" Sample.seed
  = (mkResponse 404 (ErrorJson "Account(s) not found: 9999, 8888"), Sample.seed).
Proof.
  unfold Demo.createEntry.
  rewrite (createJournalEntry_unknown_accounts Sample.newDate Sample.setHoursZero
             Sample.coercedGtZero Demo.strangerBody "e9" Sample.seed Sample.cid "jgen"
             (mkJournal Sample.cid "GEN" "General Journal" GENERAL 1)).
  - vm_compute. reflexivity.
  - vm_compute. reflexivity.
  - vm_compute. reflexivity.
  - vm_compute. reflexivity.
  - vm_compute. discriminate.
Defined.


Lemma createAccount_duplicate_refused_witness :
  Demo.newAccount (Demo.accountBody "1000" "Petty cash" "ASSET") "a2" Demo.chart1
  = (mkReply 500 (ErrorBody "Failed to create account"), Demo.chart1).
Proof.
  unfold Demo.newAccount.
  rewrite (createAccount_duplicate_refused Demo.trim Demo.codeIndexTarget
             (Demo.accountBody "1000" "Petty cash" "ASSET") "a2" Demo.chart1
             Sample.cid (mkCompany "Default Company" "USD" 0 1) ASSET
             "a1" (mkAccount Sample.cid "1000" "Cash" ASSET true)).
  - reflexivity.
  - vm_compute. reflexivity.
  - vm_compute. reflexivity.
  - reflexivity.
  - vm_compute. reflexivity.
  - vm_compute. reflexivity.
  - reflexivity.
  - vm_compute. reflexivity.
Defined.

Lemma chart_requests : rtc request Demo.emptyChart Demo.chart3.
Proof.
  eapply rtc_l; [exact (request_createAccount Demo.trim Demo.codeIndexTarget
                          (Demo.accountBody " 1000 " "Cash" "ASSET") "a1"
                          Demo.emptyChart)|].
  eapply rtc_l; [exact (request_createAccount Demo.trim Demo.codeIndexTarget
                          (Demo.accountBody "1000" "Petty cash" "ASSET") "a2"
                          Demo.chart1)|].
  eapply rtc_l; [exact (request_createAccount Demo.trim Demo.codeIndexTarget
                          (Demo.accountBody "4000" "Sales" "INCOME") "a3"
                          Demo.chart2)|].
  apply rtc_refl.
Defined.

Lemma account_codes_stay_unique_witness : accountCodesUnique Demo.chart3.
Proof.
  apply (account_codes_stay_unique Demo.emptyChart Demo.chart3 chart_requests).
  intros id1 id2 a1 a2 H1. cbn in H1. rewrite lookup_empty in H1. discriminate.
Defined.


Lemma createCustomerInvoice_exact_total_witness :
  exists i,
    customerInvoices Demo.st3 !! "i2" = Some i
    /\ totalAmount i = sumOfLineTotals (invoice_lines i).
Proof.
  apply (createCustomerInvoice_exact_total Demo.trim Sample.newDate Demo.errorMessage
           Demo.orderBody "i2" Demo.partners Demo.st2
           (Demo.createInvoice Demo.orderBody "i2" Demo.partners Demo.st2).1).
  - apply surjective_pairing.
  - vm_compute. reflexivity.
  - repeat constructor.
    + exists 3750. apply Qc_is_canon. reflexivity.
    + exists 9999. apply Qc_is_canon. reflexivity.
Defined.

(** Two lines of one unit at half a cent: each line is stored as one
    cent and the total, rounded once, as one cent too, so the invoice
    is created and can never be posted. *)
Example half_cent_lines_cannot_be_posted :
  reply_status (Demo.createInvoice Demo.halfCentBody "i3" Demo.partners Sample.seed).1
  = 201
  /\ postCustomerInvoice "i3" "e9" Sample.jan2 Sample.jan2
       (Demo.createInvoice Demo.halfCentBody "i3" Demo.partners Sample.seed).2
     = (mkResponse 400
          (ErrorJson "Journal entry is unbalanced. Debit: 0.01, Credit: 0.02"),
        (Demo.createInvoice Demo.halfCentBody "i3" Demo.partners Sample.seed).2).
Proof. split; vm_compute; reflexivity. Qed.

(** *** createPartner *)

Lemma partnerEmailTaken_false companyId email partners :
  partnerEmailTaken companyId email partners = false <->
  forall k p, partners !! k = Some p ->
              partner_companyId p = companyId -> partner_email p <> Some email.
Proof.
  unfold partnerEmailTaken. split.
  - intros H k p Hlk Hc Hemail.
    assert (Hex : existsb (fun kv : string * Partner =>
                             String.eqb (partner_companyId kv.2) companyId
                             && optString_eqb (partner_email kv.2) (Some email))
                    (map_to_list partners) = true).
    { apply existsb_exists. exists (k, p). split.
      - apply list_elem_of_In, elem_of_map_to_list. exact Hlk.
      - simpl. rewrite Hc, Hemail, String.eqb_refl. simpl. apply String.eqb_refl. }
    congruence.
  - intros H. apply not_true_is_false. intros Hex.
    apply existsb_exists in Hex as ([k p] & Hin & Hp).
    apply list_elem_of_In, elem_of_map_to_list in Hin.
    apply andb_prop in Hp as [Hc Hemail]. apply String.eqb_eq in Hc.
    simpl in Hemail. destruct (partner_email p) as [e|] eqn:He; [|discriminate].
    apply String.eqb_eq in Hemail. subst e.
    exact (H k p Hin Hc He).
Qed.

Section CreatedPartner.
Variable trim : string -> string.
Variable emailRegexTest : string -> bool.
Variable emailIndexTarget : list string.

Lemma createPartner_cases body newId partners st :
  (reply_status (createPartner trim emailRegexTest emailIndexTarget body newId partners st).1
     <> 201
   /\ (createPartner trim emailRegexTest emailIndexTarget body newId partners st).2
      = partners)
  \/ exists companyId company isCustomer isVendor,
       partnerErrors trim emailRegexTest body = []
       /\ resolveCompany (prop body "companyId") st = inr (inr (companyId, company))
       /\ isCustomerOf body = JsBool isCustomer
       /\ isVendorOf body = JsBool isVendor
       /\ partners !! newId = None
       /\ (forall email, trimmedOrNull trim (prop body "email") = Some email ->
                         partnerEmailTaken companyId email partners = false)
       /\ createPartner trim emailRegexTest emailIndexTarget body newId partners st
          = (let partner :=
               mkPartner companyId (trim (stringOf (prop body "name")))
                 (trimmedOrNull trim (prop body "email"))
                 (trimmedOrNull trim (prop body "phone")) isCustomer isVendor in
             (mkReply 201 (DataBody (newId, partner)), <[newId := partner]> partners)).
Proof.
  unfold createPartner, createPartner_try.
  destruct body; try (left; split; [simpl; discriminate|reflexivity]);
    (destruct (partnerErrors trim emailRegexTest _) as [|err errs] eqn:Herr;
     [|left; split; [simpl; discriminate|reflexivity]]); cbn [length Nat.eqb negb];
    (destruct (resolveCompany _ st) as [e|[notFound|[companyId company]]] eqn:Hc;
     [left; split; [simpl; discriminate|reflexivity]..|]);
    (destruct (isCustomerOf _) as [| |isCustomer| | | |] eqn:Hcust;
     try (left; split; [simpl; discriminate|reflexivity]));
    (destruct (isVendorOf _) as [| |isVendor| | | |] eqn:Hvend;
     try (left; split; [simpl; discriminate|reflexivity]));
    unfold partner_create, createPartner_catch; cbn [partner_email partner_companyId];
    (destruct (partners !! newId) eqn:Hnew;
     [left; split; [simpl; discriminate|reflexivity]|]);
    (destruct (trimmedOrNull trim _) as [email|] eqn:Hemail;
     [destruct (partnerEmailTaken companyId email partners) eqn:Htaken;
      [left; destruct (existsb (String.eqb "companyId_email") emailIndexTarget);
       (split; [simpl; discriminate|reflexivity])|]|]);
    right; exists companyId, company, isCustomer, isVendor;
    repeat split; try assumption; try reflexivity;
    intros email' Heq; simplify_eq; assumption.
Qed.

Lemma partnerErrors_nil body :
  partnerErrors trim emailRegexTest body = [] ->
  (1 <= String.length (trim (stringOf (prop body "name"))) <= 255)%nat
  /\ (forall email, trimmedOrNull trim (prop body "email") = Some email ->
                    email <> EmptyString /\ emailRegexTest email = true)
  /\ (truthy (isCustomerOf body) || truthy (isVendorOf body) = true).
Proof.
  unfold partnerErrors. intros H.
  apply app_eq_nil in H as [Hname H]. apply app_eq_nil in H as [Hemail H].
  apply app_eq_nil in H as [_ Hflags].
  split; [|split].
  - unfold partnerNameErrors in Hname.
    destruct (negb (truthy (prop body "name")) || negb (isString (prop body "name")));
      [discriminate|].
    destruct (Nat.eqb_spec (String.length (trim (stringOf (prop body "name")))) 0);
      [discriminate|].
    destruct (Nat.ltb_spec 255 (String.length (trim (stringOf (prop body "name")))));
      [discriminate|].
    lia.
  - intros email Hsome. unfold trimmedOrNull in Hsome. unfold emailErrors in Hemail.
    destruct (prop body "email") as [| | | |s| |]; try discriminate.
    destruct (Nat.eqb_spec (String.length (trim s)) 0) as [|Hlen]; [discriminate|].
    injection Hsome as <-. cbn [negb andb] in Hemail.
    split.
    + intros Hempty. rewrite Hempty in Hlen. contradiction.
    + destruct (emailRegexTest (trim s)); [reflexivity|discriminate].
  - unfold flagErrors in Hflags.
    destruct (truthy (isCustomerOf body)); [reflexivity|].
    destruct (truthy (isVendorOf body)); [reflexivity|discriminate].
Qed.


(** X19.  createPartner keeps the rules of the partners table: if every
    partner is a customer or a vendor and no two partners of one
    company share an e-mail address, the same holds after the request,
    whatever it answers. *)
Theorem createPartner_keeps_rules body newId partners st :
  partnersWellFormed partners ->
  partnersWellFormed
    (createPartner trim emailRegexTest emailIndexTarget body newId partners st).2.
Proof.
  intros [Hflags Hunique].
  destruct (createPartner_cases body newId partners st)
    as [[_ ->]|(companyId & company & c & v & Herr & Hc & Hcust & Hvend & Hnew
                & Hfree & ->)]; [split; assumption|].
  cbv zeta. cbn [snd].
  apply partnerErrors_nil in Herr as (_ & _ & Hcv).
  rewrite Hcust, Hvend in Hcv. cbn [truthy] in Hcv.
  split.
  - intros k p Hk. destruct (decide (k = newId)) as [->|Hne].
    + rewrite lookup_insert_eq in Hk. injection Hk as <-. exact Hcv.
    + rewrite lookup_insert_ne in Hk by congruence. exact (Hflags k p Hk).
  - intros k1 k2 p1 p2 email H1 H2 Hcomp He1 He2.
    destruct (decide (k1 = newId)) as [->|Hn1];
      destruct (decide (k2 = newId)) as [->|Hn2]; [reflexivity| | |].
    + rewrite lookup_insert_eq in H1. rewrite lookup_insert_ne in H2 by congruence.
      injection H1 as <-. cbn [partner_email partner_companyId] in He1, Hcomp.
      exfalso.
      exact (proj1 (partnerEmailTaken_false _ _ _) (Hfree email He1) k2 p2 H2
               (eq_sym Hcomp) He2).
    + rewrite lookup_insert_eq in H2. rewrite lookup_insert_ne in H1 by congruence.
      injection H2 as <-. cbn [partner_email partner_companyId] in He2, Hcomp.
      exfalso.
      exact (proj1 (partnerEmailTaken_false _ _ _) (Hfree email He2) k1 p1 H1 Hcomp He1).
    + rewrite lookup_insert_ne in H1, H2 by congruence.
      exact (Hunique k1 k2 p1 p2 email H1 H2 Hcomp He1 He2).
Qed.

End CreatedPartner.


Lemma createPartner_keeps_rules_witness : partnersWellFormed Demo.partners2.
Proof.
  apply (createPartner_keeps_rules Demo.trim Demo.emailRegexTest ["companyId"; "email"]
           (Demo.partnerBody " Acme Ltd " " billing@acme.example ") "p2"
           Demo.partners Sample.seed).
  unfold Demo.partners. split.
  - intros k p Hk. apply lookup_singleton_Some in Hk as [_ <-]. reflexivity.
  - intros k1 k2 p1 p2 email H1 H2 _ _ _.
    apply lookup_singleton_Some in H1 as [<- _].
    apply lookup_singleton_Some in H2 as [<- _]. reflexivity.
Defined.

(** *** The seed script *)

Lemma rowsKept_refl st : rowsKept st st.
Proof. repeat split; reflexivity. Qed.

Lemma rowsKept_trans st1 st2 st3 : rowsKept st1 st2 -> rowsKept st2 st3 -> rowsKept st1 st3.
Proof.
  intros (H1 & H2 & H3 & H4 & H5) (K1 & K2 & K3 & K4 & K5).
  repeat split; etrans; eassumption.
Qed.

Lemma findFirst_weaken {A} (p : A -> bool) (table table' : gmap string A) :
  subseteq table table' -> is_Some (findFirst p table) -> is_Some (findFirst p table').
Proof.
  intros Hsub [[k v] H]. apply findFirst_Some in H as [Hlk Hp].
  apply (findFirst_is_Some p table' k v); [|exact Hp].
  exact (lookup_weaken _ _ _ _ Hlk Hsub).
Qed.

Lemma hasJournal_kept companyId code st st' :
  rowsKept st st' -> hasJournal companyId st code -> hasJournal companyId st' code.
Proof. intros (_ & _ & H & _). apply findFirst_weaken. exact H. Qed.

Lemma hasAccount_kept companyId code st st' :
  rowsKept st st' -> hasAccount companyId st code -> hasAccount companyId st' code.
Proof. intros (_ & H & _). apply findFirst_weaken. exact H. Qed.

Lemma forEach_kept {A} (f : A -> Tx unit) (P : Store -> A -> Prop) xs :
  (forall x st u st', f x st = inr (u, st') -> rowsKept st st' /\ P st' x) ->
  (forall x st st', rowsKept st st' -> P st x -> P st' x) ->
  forall st u st',
    forEach f xs st = inr (u, st') -> rowsKept st st' /\ Forall (P st') xs.
Proof.
  intros Hf Hmono. induction xs as [|x rest IH]; intros st u st' H.
  - injection H as <- <-. split; [apply rowsKept_refl|constructor].
  - cbn [forEach] in H. unfold bind in H.
    destruct (f x st) as [e|[v st1]] eqn:Hx; [discriminate|].
    destruct (Hf _ _ _ _ Hx) as [Hk1 HP]. destruct (IH _ _ _ H) as [Hk2 Hrest].
    split; [exact (rowsKept_trans _ _ _ Hk1 Hk2)|].
    constructor; [exact (Hmono _ _ _ Hk2 HP)|exact Hrest].
Qed.

Lemma forEach_nothing {A} (f : A -> Tx unit) xs st :
  Forall (fun x => f x st = inr (tt, st)) xs -> forEach f xs st = inr (tt, st).
Proof.
  induction 1 as [|x rest Hx _ IH]; [reflexivity|].
  cbn [forEach]. unfold bind. rewrite Hx. exact IH.
Qed.

Section SeedFacts.
Variable now : Z.
Variable invoiceNextNumberDefault : Z.
Variable newJournalId : string -> string.
Variable newAccountId : string -> string.
Variable newPartnerId : string -> string.

Lemma company_upsert_kept id create st company st' :
  company_upsert id create st = inr (company, st') ->
  rowsKept st st' /\ is_Some (companies st' !! id).
Proof.
  unfold company_upsert. destruct (companies st !! id) as [c|] eqn:Hc; intros H;
    injection H as <- <-.
  - split; [apply rowsKept_refl|]. rewrite Hc. eauto.
  - split.
    + repeat split; try reflexivity. cbn [companies setCompanies].
      apply insert_subseteq. exact Hc.
    + cbn [companies setCompanies]. rewrite lookup_insert_eq. eauto.
Qed.

Lemma journal_upsert_kept companyId journal st found st' :
  journal_upsert newJournalId companyId journal st = inr (found, st') ->
  rowsKept st st' /\ hasJournal companyId st' journal.1.1.
Proof.
  destruct journal as [[code name] type]. unfold journal_upsert, hasJournal.
  destruct (journal_findUnique_companyId_code companyId code st) as [[k j]|] eqn:Hj.
  - intros H. injection H as <- <-. split; [apply rowsKept_refl|].
    simpl. rewrite Hj. eauto.
  - destruct (journals st !! newJournalId code) eqn:Hnew; [discriminate|].
    intros H. injection H as <- <-. split.
    + repeat split; try reflexivity. cbn [journals setJournals].
      apply insert_subseteq. exact Hnew.
    + apply (findFirst_is_Some _ _ (newJournalId code)
               (mkJournal companyId code name type 1)).
      * cbn [journals setJournals]. apply lookup_insert_eq.
      * simpl. rewrite !String.eqb_refl. reflexivity.
Qed.

Lemma account_upsert_kept companyId account st found st' :
  account_upsert newAccountId companyId account st = inr (found, st') ->
  rowsKept st st' /\ hasAccount companyId st' account.1.1.
Proof.
  destruct account as [[code name] type]. unfold account_upsert, hasAccount.
  destruct (account_findUnique_companyId_code companyId code st) as [[k a]|] eqn:Ha.
  - intros H. injection H as <- <-. split; [apply rowsKept_refl|].
    simpl. rewrite Ha. eauto.
  - destruct (accounts st !! newAccountId code) eqn:Hnew; [discriminate|].
    intros H. injection H as <- <-. split.
    + repeat split; try reflexivity. cbn [accounts setAccounts].
      apply insert_subseteq. exact Hnew.
    + apply (findFirst_is_Some _ _ (newAccountId code)
               (mkAccount companyId code name type true)).
      * cbn [accounts setAccounts]. apply lookup_insert_eq.
      * simpl. rewrite !String.eqb_refl. reflexivity.
Qed.

Lemma partners_seed_kept companyId seeds partners partners' :
  partners_seed newPartnerId companyId seeds partners = inr partners' ->
  subseteq partners partners'
  /\ Forall (fun seed => hasPartner companyId partners' seed.1.1) seeds.
Proof.
  revert partners. induction seeds as [|[[name c] v] rest IH]; intros partners H.
  - injection H as <-. split; [reflexivity|constructor].
  - cbn [partners_seed] in H.
    destruct (findFirst _ partners) as [found|] eqn:Hfound.
    + destruct (IH _ H) as [Hsub Hrest]. split; [exact Hsub|].
      constructor; [|exact Hrest].
      apply (findFirst_weaken _ _ _ Hsub). simpl. rewrite Hfound. eauto.
    + destruct (partners !! newPartnerId name) eqn:Hnew; [discriminate|].
      destruct (IH _ H) as [Hsub Hrest]. split.
      * etrans; [|exact Hsub]. apply insert_subseteq. exact Hnew.
      * constructor; [|exact Hrest].
        apply (findFirst_weaken _ _ _ Hsub).
        apply (findFirst_is_Some _ _ (newPartnerId name)
                 (mkPartner companyId name None None c v)).
        -- apply lookup_insert_eq.
        -- simpl. rewrite !String.eqb_refl. reflexivity.
Qed.

Lemma partners_seed_nothing companyId seeds partners :
  Forall (fun seed => hasPartner companyId partners seed.1.1) seeds ->
  partners_seed newPartnerId companyId seeds partners = inr partners.
Proof.
  induction 1 as [|[[name c] v] rest [found Hfound] _ IH]; [reflexivity|].
  cbn [partners_seed]. simpl in Hfound. rewrite Hfound. exact IH.
Qed.

Lemma main_store_kept st u st' :
  main_store now invoiceNextNumberDefault newJournalId newAccountId st = inr (u, st') ->
  rowsKept st st'
  /\ is_Some (companies st' !! defaultCompanyId)
  /\ Forall (fun journal => hasJournal defaultCompanyId st' journal.1.1) seedJournals
  /\ Forall (fun account => hasAccount defaultCompanyId st' account.1.1) seedAccounts.
Proof.
  unfold main_store, bind. intros H.
  destruct (company_upsert _ _ st) as [e|[company st1]] eqn:Hc; [discriminate|].
  destruct (forEach _ seedJournals st1) as [e|[u1 st2]] eqn:Hj; [discriminate|].
  apply company_upsert_kept in Hc as [Hk1 Hcompany].
  apply (forEach_kept _ (fun st journal => hasJournal defaultCompanyId st journal.1.1))
    in Hj as [Hk2 Hjournals].
  2:{ intros journal s v s' Hx. unfold bind in Hx.
      destruct (journal_upsert _ _ _ s) as [e|[found s1]] eqn:Hu; [discriminate|].
      injection Hx as <- <-. exact (journal_upsert_kept _ _ _ _ _ Hu). }
  2:{ intros journal s s'. apply hasJournal_kept. }
  apply (forEach_kept _ (fun st account => hasAccount defaultCompanyId st account.1.1))
    in H as [Hk3 Haccounts].
  2:{ intros account s v s' Hx. unfold bind in Hx.
      destruct (account_upsert _ _ _ s) as [e|[found s1]] eqn:Hu; [discriminate|].
      injection Hx as <- <-. exact (account_upsert_kept _ _ _ _ _ Hu). }
  2:{ intros account s s'. apply hasAccount_kept. }
  split; [exact (rowsKept_trans _ _ _ Hk1 (rowsKept_trans _ _ _ Hk2 Hk3))|].
  split; [|split; [|exact Haccounts]].
  - destruct Hcompany as [c Hc].
    destruct (rowsKept_trans _ _ _ Hk2 Hk3) as (Hsub & _).
    exists c. exact (lookup_weaken _ _ _ _ Hc Hsub).
  - eapply Forall_impl; [exact Hjournals|].
    intros journal. apply hasJournal_kept. exact Hk3.
Qed.

Lemma main_store_nothing st :
  is_Some (companies st !! defaultCompanyId) ->
  Forall (fun journal => hasJournal defaultCompanyId st journal.1.1) seedJournals ->
  Forall (fun account => hasAccount defaultCompanyId st account.1.1) seedAccounts ->
  main_store now invoiceNextNumberDefault newJournalId newAccountId st = inr (tt, st).
Proof.
  intros [c Hc] Hjournals Haccounts. unfold main_store, bind, company_upsert.
  rewrite Hc.
  rewrite forEach_nothing.
  - apply forEach_nothing. eapply Forall_impl; [exact Haccounts|].
    intros [[code name] type] [[k a] Ha]. unfold bind, account_upsert.
    simpl in Ha. rewrite Ha. reflexivity.
  - eapply Forall_impl; [exact Hjournals|].
    intros [[code name] type] [[k j] Hj]. unfold bind, journal_upsert.
    simpl in Hj. rewrite Hj. reflexivity.
Qed.

(** X20.  When the seed script runs to its end it removes and changes
    no row, and leaves the default company with a journal for each of
    the codes GEN, SAL, PUR and BNK, an account for each of the codes
    1000, 1100, 1200, 2000, 4000 and 5000, and partners named Walk-in
    Customer and Default Vendor. *)
Theorem seed_keeps_rows_and_provides st partners st' partners' :
  main now invoiceNextNumberDefault newJournalId newAccountId newPartnerId st partners
  = inr (st', partners') ->
  rowsKept st st' /\ subseteq partners partners'
  /\ is_Some (companies st' !! defaultCompanyId)
  /\ Forall (hasJournal defaultCompanyId st') ["GEN"; "SAL"; "PUR"; "BNK"]
  /\ Forall (hasAccount defaultCompanyId st')
       ["1000"; "1100"; "1200"; "2000"; "4000"; "5000"]
  /\ Forall (hasPartner defaultCompanyId partners') ["Walk-in Customer"; "Default Vendor"].
Proof.
  unfold main. intros H.
  destruct (main_store _ _ _ _ st) as [e|[u st1]] eqn:Hs; [discriminate|].
  destruct (partners_seed _ _ _ partners) as [e|partners1] eqn:Hp; [discriminate|].
  injection H as <- <-.
  apply main_store_kept in Hs as (Hk & Hc & Hj & Ha).
  apply partners_seed_kept in Hp as [Hsub Hpartners].
  split; [exact Hk|]. split; [exact Hsub|]. split; [exact Hc|].
  split; [|split].
  - apply (Forall_fmap (fun journal : string * string * JournalType => journal.1.1))
      in Hj. exact Hj.
  - apply (Forall_fmap (fun account : string * string * AccountType => account.1.1))
      in Ha. exact Ha.
  - apply (Forall_fmap (fun seed : string * bool * bool => seed.1.1)) in Hpartners.
    exact Hpartners.
Qed.

End SeedFacts.

(** X21.  The seed script is idempotent: run again after a run that
    reached its end, at any time and with any generated keys, it
    reaches its end and leaves the database as it found it. *)
Theorem seed_idempotent now d newJournalId newAccountId newPartnerId
    now' d' newJournalId' newAccountId' newPartnerId' st partners st' partners' :
  main now d newJournalId newAccountId newPartnerId st partners = inr (st', partners') ->
  main now' d' newJournalId' newAccountId' newPartnerId' st' partners'
  = inr (st', partners').
Proof.
  unfold main. intros H.
  destruct (main_store now d newJournalId newAccountId st) as [e|[u st1]] eqn:Hs;
    [discriminate|].
  destruct (partners_seed newPartnerId defaultCompanyId seedPartners partners)
    as [e|partners1] eqn:Hp; [discriminate|].
  injection H as <- <-.
  apply main_store_kept in Hs as (_ & Hc & Hj & Ha).
  apply partners_seed_kept in Hp as [_ Hpartners].
  rewrite (main_store_nothing now' d' newJournalId' newAccountId' st1 Hc Hj Ha).
  rewrite (partners_seed_nothing newPartnerId' _ _ _ Hpartners). reflexivity.
Qed.

Lemma seed_keeps_rows_and_provides_witness :
  hasJournal defaultCompanyId Demo.seeded.1 "SAL"
  /\ hasAccount defaultCompanyId Demo.seeded.1 "1200"
  /\ hasPartner defaultCompanyId Demo.seeded.2 "Walk-in Customer".
Proof.
  destruct (seed_keeps_rows_and_provides 0 1 (String.append "j") (String.append "a")
              (String.append "p") Demo.blank empty Demo.seeded.1 Demo.seeded.2)
    as (_ & _ & _ & Hj & Ha & Hp).
  - vm_compute. reflexivity.
  - split; [|split].
    + exact (List.Forall_inv (List.Forall_inv_tail Hj)).
    + exact (List.Forall_inv (List.Forall_inv_tail (List.Forall_inv_tail Ha))).
    + exact (List.Forall_inv Hp).
Defined.

Lemma seed_idempotent_witness :
  main 86400000 1 (String.append "k") (String.append "b") (String.append "q")
    Demo.seeded.1 Demo.seeded.2
  = inr (Demo.seeded.1, Demo.seeded.2).
Proof.
  apply (seed_idempotent 0 1 (String.append "j") (String.append "a") (String.append "p")
           86400000 1 (String.append "k") (String.append "b") (String.append "q")
           Demo.blank empty).
  vm_compute. reflexivity.
Defined.

(** The sample invoice for [postCustomerInvoice_effect]. *)
Lemma postCustomerInvoice_effect_witness :
  exists e,
    journalEntries Sample.afterInvoice !! "e3" = Some e
    /\ entry_status e = POSTED
    /\ sumDebit (journalLines e) = 10000
    /\ journals Sample.afterInvoice = journals Sample.seed
    /\ accounts Sample.afterInvoice = accounts Sample.seed.
Proof.
  destruct (postCustomerInvoice_effect "i1" "e3" Sample.jan2 Sample.jan2 Sample.seed
              (postCustomerInvoice "i1" "e3" Sample.jan2 Sample.jan2 Sample.seed).1
              Sample.afterInvoice)
    as (i & c & e & Hi & _ & _ & He & Hs & _ & Hsum & Hj & Ha & _).
  - apply surjective_pairing.
  - vm_compute. reflexivity.
  - exists e. rewrite He, lookup_insert_eq.
    split; [reflexivity|]. split; [exact Hs|]. split; [|split; assumption].
    rewrite Hsum. vm_compute in Hi. injection Hi as <-. reflexivity.
Defined.
